(** * The recommendation engine of the graduate-programme bot

    A shallow embedding of [src/maga/program_analyzer.py] (class
    [ProgramAnalyzer]), of the two records it takes from
    [src/maga/web_parser.py] and of the message splitter of the handlers
    of [src/maga/telegram_bot.py], followed by the properties of the
    engine.

    Conventions of the embedding.
    - A Python [str] is a [string] holding its UTF-8 encoding.  UTF-8 is
      self-synchronising, so [a in b] on two Python strings holds exactly
      when the encoding of [a] occurs in the encoding of [b]; [str_in] is
      that test.
    - [str.lower] and [str.title] are parameters of the engine: its
      definitions and the statements about every catalogue, query and
      text are made for any two functions on strings.  [Py.lower] and
      [Py.title] compute the two methods on ASCII and Russian Cyrillic
      text and serve where the engine is run on a concrete input.
    - [float] scores are rationals ([Q]).  Every constant of the scorer is
      a multiple of 0.5, and a sum of such terms is exact in binary64 as
      long as it stays below 2^52, which it does for any profile that fits
      in memory; on these values [float] and [Q] agree.
    - [int] is [Z]; [None]-able fields are [option]s.
    - A [dict] that is only read in insertion order is an association
      list; the cluster catalogue, which is updated by key, is a [gmap]. *)

From Stdlib Require Import ZArith QArith Qminmax Lqa String Ascii List Bool DecimalString.
From Stdlib Require Import Sorted Permutation.
From stdpp Require Import gmap strings list fin_maps.

Local Open Scope Z_scope.

(** ** Python strings *)

Module Py.

(** [needle in hay] for two [str]. *)
Fixpoint str_in (needle hay : string) : bool :=
  String.prefix needle hay ||
  match hay with
  | EmptyString => false
  | String _ rest => str_in needle rest
  end.

(** [any(keyword in s for keyword in keywords)]. *)
Definition any_in (keywords : list string) (s : string) : bool :=
  existsb (fun keyword => str_in keyword s) keywords.

(** [x in xs] for a list of [str]. *)
Definition elem (x : string) (xs : list string) : bool :=
  existsb (String.eqb x) xs.

Definition byte_in (lo hi : N) (c : ascii) : bool :=
  ((lo <=? N_of_ascii c) && (N_of_ascii c <=? hi))%N.

Definition shift_up (k : N) (c : ascii) : ascii := ascii_of_N (N_of_ascii c + k).
Definition shift_down (k : N) (c : ascii) : ascii := ascii_of_N (N_of_ascii c - k).

(** The lead bytes of the two-byte encodings of U+0400..U+043F and of
    U+0440..U+047F. *)
Definition lead_D0 : ascii := ascii_of_N 208.
Definition lead_D1 : ascii := ascii_of_N 209.

(** [s.lower()] on the UTF-8 encoding of a text written in the two
    alphabets of the keyword tables and the catalogue: ASCII and the
    Cyrillic letters U+0400..U+045F.  The capitals A..Z and
    U+0400..U+042F are lower-cased and every other byte is kept, so a
    capital of another alphabet, which [str.lower] would lower-case, is
    left as it is: outside the two alphabets this is not [str.lower].
    The engine does not depend on it; see the section [Engine]. *)
Fixpoint lower (s : string) : string :=
  match s with
  | EmptyString => EmptyString
  | String c rest =>
      if byte_in 65 90 c then String (shift_up 32 c) (lower rest)
      else if (N_of_ascii c =? 208)%N then
        match rest with
        | String d rest' =>
            if byte_in 144 159 d then
              String lead_D0 (String (shift_up 32 d) (lower rest'))
            else if byte_in 160 175 d then
              String lead_D1 (String (shift_down 32 d) (lower rest'))
            else if byte_in 128 143 d then
              String lead_D1 (String (shift_up 16 d) (lower rest'))
            else String c (lower rest)
        | EmptyString => String c EmptyString
        end
      else String c (lower rest)
  end.

(** The inverse mapping on one letter, used by [title]. *)
Definition is_ascii_lower (c : ascii) : bool := byte_in 97 122 c.
Definition is_ascii_upper (c : ascii) : bool := byte_in 65 90 c.

(** [s.title()] on a text written in the same two alphabets: the first
    letter of every run of letters in upper case, the others in lower
    case.  A letter of another alphabet is treated as a word break, which
    [str.title] does not do: outside the two alphabets this is not
    [str.title]. *)
Fixpoint title_from (prev_cased : bool) (s : string) : string :=
  match s with
  | EmptyString => EmptyString
  | String c rest =>
      if is_ascii_upper c then
        String (if prev_cased then shift_up 32 c else c) (title_from true rest)
      else if is_ascii_lower c then
        String (if prev_cased then c else shift_down 32 c) (title_from true rest)
      else
        match rest with
        | String d rest' =>
            if (N_of_ascii c =? 208)%N && byte_in 144 159 d then
              (* capital, U+0410..U+041F *)
              String lead_D0 (String (if prev_cased then shift_up 32 d else d)
                                     (title_from true rest'))
            else if (N_of_ascii c =? 208)%N && byte_in 160 175 d then
              (* capital, U+0420..U+042F *)
              (if prev_cased
               then String lead_D1 (String (shift_down 32 d) (title_from true rest'))
               else String lead_D0 (String d (title_from true rest')))
            else if (N_of_ascii c =? 208)%N && byte_in 128 143 d then
              (* capital, U+0400..U+040F *)
              (if prev_cased
               then String lead_D1 (String (shift_up 16 d) (title_from true rest'))
               else String lead_D0 (String d (title_from true rest')))
            else if (N_of_ascii c =? 208)%N && byte_in 176 191 d then
              (* small, U+0430..U+043F *)
              String lead_D0 (String (if prev_cased then d else shift_down 32 d)
                                     (title_from true rest'))
            else if (N_of_ascii c =? 209)%N && byte_in 128 143 d then
              (* small, U+0440..U+044F *)
              (if prev_cased
               then String lead_D1 (String d (title_from true rest'))
               else String lead_D0 (String (shift_up 32 d) (title_from true rest')))
            else if (N_of_ascii c =? 209)%N && byte_in 144 159 d then
              (* small, U+0450..U+045F *)
              (if prev_cased
               then String lead_D1 (String d (title_from true rest'))
               else String lead_D0 (String (shift_down 16 d) (title_from true rest')))
            else String c (title_from false rest)
        | EmptyString => String c EmptyString
        end
  end.

Definition title (s : string) : string := title_from false s.

(** A byte that continues a UTF-8 sequence (10xxxxxx). *)
Definition is_continuation (c : ascii) : bool := byte_in 128 191 c.

(** [s[:n]]: the first [n] characters, that is, the bytes before the
    [n+1]-th byte that starts a character. *)
Fixpoint take_chars (n : nat) (s : string) : string :=
  match s with
  | EmptyString => EmptyString
  | String c rest =>
      if is_continuation c then String c (take_chars n rest)
      else
        match n with
        | O => EmptyString
        | S n' => String c (take_chars n' rest)
        end
  end.

(** The string built by a loop of [out += piece]. *)
Definition concat_lines (pieces : list string) : string :=
  fold_right String.append EmptyString pieces.

(** [str(i)] for an [int]. *)
Definition str_of_int (i : Z) : string := NilZero.string_of_int (Z.to_int i).

(** [len(xs)] as an [int]. *)
Definition len {A} (xs : list A) : Z := Z.of_nat (List.length xs).

End Py.

Import Py.

(** ** Data model *)

(** [web_parser.Course]. *)
Module Course.
Record t := mk {
  name : string;
  credits : Z;
  semester : Z;
  course_type : string;
  description : option string;
  prerequisites : option (list string)
}.
End Course.

(** [web_parser.Program]. *)
Module Program.
Record t := mk {
  name : string;
  url : string;
  description : string;
  duration : Z;
  courses : list Course.t;
  total_credits : Z;
  institute : string;
  form : string;
  language : string;
  cost : option string;
  dormitory : bool;
  military_center : bool;
  accreditation : bool
}.
End Program.

Module Recommendation.
Record t := mk {
  course : Course.t;
  score : Q;
  reason : string;
  priority : string;
  compatibility_score : Q;
  learning_path : string
}.
End Recommendation.

Module BackgroundProfile.
Record t := mk {
  programming_skills : list string;
  math_skills : list string;
  business_skills : list string;
  research_interests : list string;
  work_experience : string;
  education_level : string;
  career_goals : list string;
  learning_preferences : list string;
  time_availability : string
}.
End BackgroundProfile.

Module CourseCluster.
Record t := mk {
  name : string;
  courses : list Course.t;
  difficulty_level : string;
  prerequisites : list string;
  career_relevance : list string
}.

(** [cluster.courses.append(course)]. *)
Definition append (course : Course.t) (cluster : t) : t :=
  mk (name cluster) (courses cluster ++ [course]) (difficulty_level cluster)
     (prerequisites cluster) (career_relevance cluster).
End CourseCluster.

(** One value of [skill_mapping]. *)
Module SkillInfo.
Record t := mk {
  courses : list string;
  weight : Q;
  career_paths : list string
}.
End SkillInfo.

(** The three local variables [_evaluate_course_intelligently] updates. *)
Module Acc.
Record t := mk {
  score : Q;
  compatibility_score : Q;
  reasons : list string
}.
End Acc.

(** The class constants. *)
Definition HIGH_SCORE_THRESHOLD : Q := 7.0.
Definition MEDIUM_SCORE_THRESHOLD : Q := 4.0.
Definition LOW_SCORE_THRESHOLD : Q := 2.0.
Definition FIRST_SEMESTER : Z := 1.
Definition SECOND_SEMESTER : Z := 2.
Definition THIRD_SEMESTER : Z := 3.
Definition FOURTH_SEMESTER : Z := 4.

(** * The engine over [str.lower] and [str.title]

    The engine lower-cases names, queries and texts with [str.lower] and
    capitalises course types with [str.title].  Both are methods of the
    Python runtime that follow the Unicode case tables; they are not code
    of the repository.  The engine is therefore defined over any two
    functions [lower] and [title], and a statement of this section holds
    of the engine whatever the two methods return, for names, queries and
    texts in any alphabet.  [Py.lower] and [Py.title] are the two methods
    on ASCII and Russian Cyrillic text; the engine is run with them, after
    this section, in the statements about one concrete catalogue or text
    and in those that rest on a fact about [str.lower] itself. *)

Section Engine.

Variable lower : string -> string.
Variable title : string -> string.

(** A lemma takes [lower] or [title] as an argument only when its
    statement names it. *)
Set Default Proof Using "Type".
Set Proof Using Clear Unused.

(** ** Cluster catalogue and cluster assignment *)

(** The dictionary [_build_course_clusters] starts from. *)
Definition empty_clusters : gmap string CourseCluster.t :=
  <["ai_core" := CourseCluster.mk "Основы искусственного интеллекта" [] "intermediate"
      ["программирование"; "математика"]
      ["ML Engineer"; "AI Developer"; "Data Scientist"]]>
  (<["machine_learning" := CourseCluster.mk "Машинное обучение" [] "advanced"
      ["ai_core"; "статистика"; "линейная алгебра"]
      ["ML Engineer"; "Data Scientist"; "AI Researcher"]]>
  (<["deep_learning" := CourseCluster.mk "Глубокое обучение" [] "advanced"
      ["machine_learning"; "нейронные сети"]
      ["ML Engineer"; "AI Researcher"; "Computer Vision Engineer"]]>
  (<["nlp" := CourseCluster.mk "Обработка естественного языка" [] "advanced"
      ["machine_learning"; "лингвистика"]
      ["NLP Engineer"; "AI Developer"; "Data Scientist"]]>
  (<["computer_vision" := CourseCluster.mk "Компьютерное зрение" [] "advanced"
      ["machine_learning"; "линейная алгебра"]
      ["Computer Vision Engineer"; "AI Developer"; "ML Engineer"]]>
  (<["business_ai" := CourseCluster.mk "AI в бизнесе" [] "intermediate"
      ["ai_core"; "бизнес-аналитика"]
      ["AI Product Manager"; "Business Analyst"; "Product Manager"]]>
  (<["product_management" := CourseCluster.mk "Управление продуктами" [] "intermediate"
      ["бизнес-аналитика"; "менеджмент"]
      ["Product Manager"; "AI Product Manager"; "Business Analyst"]]>
  (<["data_analytics" := CourseCluster.mk "Анализ данных" [] "intermediate"
      ["статистика"; "программирование"]
      ["Data Analyst"; "Business Analyst"; "Data Scientist"]]> ∅))))))).

(** [self.course_clusters[key].courses.append(course)]; [None] stands for
    the [KeyError] of a missing key. *)
Definition cluster_append (key : string) (course : Course.t)
    (clusters : gmap string CourseCluster.t) : option (gmap string CourseCluster.t) :=
  match clusters !! key with
  | Some cluster => Some (<[key := CourseCluster.append course cluster]> clusters)
  | None => None
  end.

(** The keyword groups of [_assign_course_to_cluster], in the order of its
    [if]/[elif] chain. *)
Definition intro_keywords : list string := ["введение"; "основы"; "базовые"].
Definition ml_keywords : list string := ["машинное обучение"; "ml"; "machine learning"].
Definition dl_keywords : list string :=
  ["глубокое обучение"; "deep learning"; "нейронные сети"].
Definition nlp_keywords : list string := ["естественный язык"; "nlp"; "текст"].
Definition vision_keywords : list string := ["зрение"; "vision"; "изображения"].
Definition business_keywords : list string :=
  ["бизнес"; "предпринимательство"; "стратегия"].
Definition analytics_keywords : list string := ["анализ"; "данные"; "статистика"].

Definition _assign_course_to_cluster (course : Course.t)
    (clusters : gmap string CourseCluster.t) : option (gmap string CourseCluster.t) :=
  let course_lower := lower (Course.name course) in
  if any_in intro_keywords course_lower then
    if str_in "искусственный интеллект" course_lower || str_in "ai" course_lower then
      cluster_append "ai_core" course clusters
    else if str_in "продукт" course_lower || str_in "менеджмент" course_lower then
      cluster_append "product_management" course clusters
    else if str_in "анализ" course_lower || str_in "данные" course_lower then
      cluster_append "data_analytics" course clusters
    else Some clusters
  else if any_in ml_keywords course_lower then
    cluster_append "machine_learning" course clusters
  else if any_in dl_keywords course_lower then
    cluster_append "deep_learning" course clusters
  else if any_in nlp_keywords course_lower then
    cluster_append "nlp" course clusters
  else if any_in vision_keywords course_lower then
    cluster_append "computer_vision" course clusters
  else if any_in business_keywords course_lower then
    if str_in "ai" course_lower || str_in "искусственный интеллект" course_lower then
      cluster_append "business_ai" course clusters
    else cluster_append "product_management" course clusters
  else if any_in analytics_keywords course_lower then
    cluster_append "data_analytics" course clusters
  else Some clusters.

(** The two nested loops at the end of [_build_course_clusters]. *)
Fixpoint assign_courses (courses : list Course.t)
    (clusters : gmap string CourseCluster.t) : option (gmap string CourseCluster.t) :=
  match courses with
  | [] => Some clusters
  | course :: rest =>
      match _assign_course_to_cluster course clusters with
      | Some clusters' => assign_courses rest clusters'
      | None => None
      end
  end.

Fixpoint assign_programs (programs : list Program.t)
    (clusters : gmap string CourseCluster.t) : option (gmap string CourseCluster.t) :=
  match programs with
  | [] => Some clusters
  | program :: rest =>
      match assign_courses (Program.courses program) clusters with
      | Some clusters' => assign_programs rest clusters'
      | None => None
      end
  end.

Definition _build_course_clusters (programs : list Program.t)
    : option (gmap string CourseCluster.t) :=
  assign_programs programs empty_clusters.

(** ** Knowledge base: the skill map *)

(** [_build_skill_mapping], in insertion order. *)
Definition skill_mapping : list (string * SkillInfo.t) :=
  [ ("python", SkillInfo.mk ["программирование"; "python"; "код"; "разработка"] 2.0
       ["ML Engineer"; "Data Scientist"; "AI Developer"]);
    ("java", SkillInfo.mk ["java"; "джава"; "программирование"; "код"] 1.5
       ["Software Engineer"; "Backend Developer"]);
    ("javascript", SkillInfo.mk ["javascript"; "js"; "веб"; "web"; "frontend"] 1.5
       ["Frontend Developer"; "Full-Stack Developer"]);
    ("mathematics", SkillInfo.mk ["математика"; "алгебра"; "геометрия"; "анализ"] 2.0
       ["ML Engineer"; "Data Scientist"; "AI Researcher"]);
    ("statistics", SkillInfo.mk ["статистика"; "вероятность"; "анализ данных"] 2.5
       ["Data Scientist"; "Data Analyst"; "ML Engineer"]);
    ("linear_algebra", SkillInfo.mk ["линейная алгебра"; "матрицы"; "векторы"] 2.0
       ["ML Engineer"; "Computer Vision Engineer"; "AI Researcher"]);
    ("business", SkillInfo.mk ["бизнес"; "менеджмент"; "управление"; "стратегия"] 1.5
       ["Product Manager"; "AI Product Manager"; "Business Analyst"]);
    ("product_management", SkillInfo.mk ["продукт"; "product"; "управление продуктами"] 2.0
       ["Product Manager"; "AI Product Manager"]);
    ("research", SkillInfo.mk ["исследование"; "наука"; "анализ"; "публикация"] 1.5
       ["AI Researcher"; "Data Scientist"; "ML Engineer"]);
    ("general", SkillInfo.mk
       ["техническое"; "технический"; "инженер"; "инженерный"; "разработка";
        "разработчик"; "программирование"; "код"] 1.5
       ["Software Engineer"; "ML Engineer"; "AI Developer"]);
    ("c++", SkillInfo.mk
       ["c++"; "cpp"; "си плюс плюс"; "программирование"; "код"; "разработка"] 1.5
       ["Software Engineer"; "Backend Developer"; "ML Engineer"]);
    ("web", SkillInfo.mk
       ["веб"; "web"; "html"; "css"; "frontend"; "backend"; "fullstack"] 1.5
       ["Frontend Developer"; "Full-Stack Developer"; "Web Developer"]);
    ("mobile", SkillInfo.mk
       ["мобильная разработка"; "android"; "ios"; "react native"; "flutter"] 1.5
       ["Mobile Developer"; "App Developer"]);
    ("blockchain", SkillInfo.mk
       ["блокчейн"; "blockchain"; "криптовалюта"; "смарт-контракт"; "defi"] 1.5
       ["Blockchain Developer"; "Smart Contract Developer"]);
    ("ai", SkillInfo.mk
       ["искусственный интеллект"; "ai"; "машинное обучение"; "нейронные сети";
        "data science"] 2.0
       ["ML Engineer"; "AI Developer"; "Data Scientist"]);
    ("data", SkillInfo.mk
       ["данные"; "data"; "анализ данных"; "big data"; "база данных"] 2.0
       ["Data Scientist"; "Data Engineer"; "Data Analyst"]);
    ("devops", SkillInfo.mk
       ["devops"; "инфраструктура"; "docker"; "kubernetes"; "ci/cd"] 1.5
       ["DevOps Engineer"; "Infrastructure Engineer"]) ].

(** [table[key]] guarded by [key in table], for a dictionary kept as an
    association list. *)
Fixpoint assoc {A} (key : string) (table : list (string * A)) : option A :=
  match table with
  | [] => None
  | (k, v) :: rest => if String.eqb key k then Some v else assoc key rest
  end.

(** ** Profile extractor *)

Definition programming_keywords : list (string * list string) :=
  [ ("python", ["python"; "питон"; "программирую на python"; "знаю python";
                "работаю с python"]);
    ("java", ["java"; "джава"; "программирую на java"; "знаю java"; "работаю с java"]);
    ("c++", ["c++"; "cpp"; "си плюс плюс"; "программирую на c++"; "знаю c++"]);
    ("javascript", ["javascript"; "js"; "джаваскрипт"; "программирую на js"; "знаю js"]);
    ("web", ["веб"; "web"; "html"; "css"; "frontend"; "backend"; "fullstack";
             "веб-разработка"; "делаю сайты"]);
    ("mobile", ["мобильная разработка"; "android"; "ios"; "react native"; "flutter";
                "мобильные приложения"; "разрабатываю приложения"]);
    ("blockchain", ["блокчейн"; "blockchain"; "криптовалюта"; "смарт-контракт"; "defi"]);
    ("ai", ["искусственный интеллект"; "ai"; "машинное обучение"; "нейронные сети";
            "data science"]);
    ("data", ["данные"; "data"; "анализ данных"; "big data"; "база данных";
              "работаю с данными"]);
    ("devops", ["devops"; "инфраструктура"; "docker"; "kubernetes"; "ci/cd";
                "развертывание"]);
    ("general", ["техническое"; "технический"; "инженер"; "инженерный"; "разработка";
                 "разработчик"; "программирование"; "код"; "программист"]) ].

Definition negations : list string :=
  ["не знаю"; "не умею"; "не понимаю"; "не владею"; "не программирую"].

Definition math_keywords : list (string * list string) :=
  [ ("математика", ["математика"; "математический"; "алгебра"; "геометрия"; "анализ";
                    "математик"; "хорошо знаю математику"; "силен в математике";
                    "люблю математику"]);
    ("статистика", ["статистика"; "статистический"; "вероятность";
                    "математическая статистика"; "работаю со статистикой";
                    "анализирую данные"]);
    ("линейная алгебра", ["линейная алгебра"; "матрицы"; "векторы";
                          "линейные преобразования"]);
    ("математический анализ", ["математический анализ"; "дифференциальные уравнения";
                               "интегралы"]);
    ("дискретная математика", ["дискретная математика"; "комбинаторика";
                               "теория графов"]);
    ("алгоритмы", ["алгоритм"; "алгоритмы"; "структуры данных"; "сложность";
                   "оптимизация"]);
    ("логика", ["логика"; "логический"; "теория множеств"; "математическая логика"]) ].

Definition business_skill_keywords : list (string * list string) :=
  [ ("менеджмент", ["менеджмент"; "управление"; "бизнес"; "предпринимательство";
                    "менеджер"; "руковожу"; "управляю командой"; "работаю в менеджменте"]);
    ("маркетинг", ["маркетинг"; "реклама"; "продвижение"; "продажи"; "маркетолог";
                   "работаю в маркетинге"; "занимаюсь продвижением"]);
    ("экономика", ["экономика"; "экономический"; "финансы"; "бухгалтерия"; "экономист";
                   "работаю с финансами"]);
    ("проектное управление", ["проектное управление"; "agile"; "scrum"; "kanban";
                              "project manager"; "управляю проектами"; "работаю по agile"]);
    ("продукт", ["продукт"; "product"; "продуктовая аналитика"; "product manager";
                 "работаю с продуктами"; "продуктовый менеджер"]);
    ("стратегия", ["стратегия"; "стратегический"; "планирование"; "анализ рынка";
                   "стратегическое планирование"]) ].

Definition research_keywords : list string :=
  ["исследование"; "наука"; "публикация"; "конференция"; "статья"; "лаборатория"].

Definition education_keywords : list (string * list string) :=
  [ ("бакалавриат", ["бакалавр"; "бакалавриат"; "высшее образование"]);
    ("магистратура", ["магистр"; "магистратура"]);
    ("аспирантура", ["аспирант"; "аспирантура"; "кандидат наук"]);
    ("техническое", ["техническое образование"; "технический"; "инженерное";
                     "инженерный"; "техническое"]) ].

Definition experience_words : list string :=
  ["работаю"; "работал"; "опыт работы"; "стаж"; "программист"; "разработчик";
   "инженер"; "аналитик"; "менеджер"; "специалист"; "опыт в разработке";
   "опыт разработки"; "опыт"; "разработка"; "код"; "программирование"].

Definition career_keywords : list (string * list string) :=
  [ ("ML Engineer", ["ml engineer"; "машинное обучение"; "инженер ml"; "ml разработчик"]);
    ("Data Scientist", ["data scientist"; "ученый по данным"; "аналитик данных"]);
    ("AI Developer", ["ai developer"; "разработчик ии"; "разработчик ai"]);
    ("Product Manager", ["product manager"; "продукт менеджер"; "менеджер продукта"]);
    ("AI Product Manager", ["ai product manager"; "продукт менеджер ai"]);
    ("Business Analyst", ["business analyst"; "бизнес аналитик"; "аналитик"]);
    ("AI Researcher", ["ai researcher"; "исследователь ии"; "ученый ии"]) ].

(** The loop [for tag, keywords in table.items(): if any(...): tags.append(tag)]. *)
Fixpoint matching_tags (table : list (string * list string)) (text : string)
    : list string :=
  match table with
  | [] => []
  | (tag, keywords) :: rest =>
      if any_in keywords text then tag :: matching_tags rest text
      else matching_tags rest text
  end.

(** The same loop with the extra condition of the programming category:
    no negation phrase anywhere in the text. *)
Fixpoint matching_tags_not_negated (table : list (string * list string))
    (text : string) : list string :=
  match table with
  | [] => []
  | (tag, keywords) :: rest =>
      if any_in keywords text && negb (any_in negations text)
      then tag :: matching_tags_not_negated rest text
      else matching_tags_not_negated rest text
  end.

(** The loop with [break] that picks the education level. *)
Fixpoint first_matching_tag (table : list (string * list string)) (text : string)
    (default : string) : string :=
  match table with
  | [] => default
  | (tag, keywords) :: rest =>
      if any_in keywords text then tag else first_matching_tag rest text default
  end.

Definition _analyze_background (background : string) : BackgroundProfile.t :=
  let background_lower := lower background in
  let programming_skills :=
    matching_tags_not_negated programming_keywords background_lower in
  let math_skills := matching_tags math_keywords background_lower in
  let business_skills := matching_tags business_skill_keywords background_lower in
  let research_interests :=
    List.filter (fun keyword => str_in keyword background_lower) research_keywords in
  let education_level :=
    first_matching_tag education_keywords background_lower "бакалавриат" in
  let work_experience :=
    if any_in experience_words background_lower then "есть опыт" else "нет опыта" in
  let career_goals := matching_tags career_keywords background_lower in
  let learning_preferences :=
    (if any_in ["практика"; "проекты"; "реальные задачи"] background_lower
     then ["практико-ориентированное"] else []) ++
    (if any_in ["теория"; "наука"; "исследование"] background_lower
     then ["теоретическое"] else []) ++
    (if any_in ["группа"; "команда"; "совместно"] background_lower
     then ["групповое"] else []) ++
    (if any_in ["индивидуально"; "самостоятельно"] background_lower
     then ["индивидуальное"] else []) in
  let time_availability :=
    if any_in ["полный день"; "очная"; "дневная"] background_lower then "полный день"
    else if any_in ["вечерняя"; "заочная"; "частичная"] background_lower then "частичная"
    else "стандартная" in
  BackgroundProfile.mk programming_skills math_skills business_skills
    research_interests work_experience education_level career_goals
    learning_preferences time_availability.

(** ** Recommendation scorer *)

Local Open Scope Q_scope.

(** [bool(xs)] for a list. *)
Definition nonempty {A} (xs : list A) : bool :=
  match xs with
  | [] => false
  | _ :: _ => true
  end.

(** The generic keyword list of each of the three skill blocks. *)
Definition programming_course_keywords : list string :=
  ["программирование"; "код"; "разработка"; "алгоритм"; "python"; "java";
   "javascript"; "ai"; "data"; "blockchain"; "машинное обучение";
   "глубокое обучение"; "нейронные сети"; "обработка"; "зрение"; "анализ"].
Definition math_course_keywords : list string :=
  ["математика"; "статистика"; "анализ"; "алгоритм"; "алгебра"; "геометрия";
   "машинное обучение"; "глубокое обучение"; "нейронные сети"; "обработка";
   "зрение"; "вероятности"].
Definition business_course_keywords : list string :=
  ["менеджмент"; "бизнес"; "продукт"; "проект"; "управление"; "стратегия"].

(** [score += w; compatibility_score += w; reasons.append(f'... {skill}')]. *)
Definition skill_hit (w : Q) (skill : string) (acc : Acc.t) : Acc.t :=
  Acc.mk (Acc.score acc + w) (Acc.compatibility_score acc + w)
         (Acc.reasons acc ++ ["Соответствует вашим навыкам в " +:+ skill]).

(** The body shared by the three skill blocks: [for skill in skills], with
    the look-up in the skill map first, the generic keyword list second,
    and a [break] after the first hit. *)
Fixpoint skill_loop (generic : list string) (course_lower : string)
    (skills : list string) (acc : Acc.t) : Acc.t :=
  match skills with
  | [] => acc
  | skill :: rest =>
      match assoc skill skill_mapping with
      | Some skill_info =>
          if any_in (SkillInfo.courses skill_info) course_lower
          then skill_hit (SkillInfo.weight skill_info) skill acc
          else if any_in generic course_lower then skill_hit 2.0 skill acc
          else skill_loop generic course_lower rest acc
      | None =>
          if any_in generic course_lower then skill_hit 2.0 skill acc
          else skill_loop generic course_lower rest acc
      end
  end.

Definition skill_block (generic : list string) (course_lower : string)
    (skills : list string) (acc : Acc.t) : Acc.t :=
  if nonempty skills then skill_loop generic course_lower skills acc else acc.

(** The inner loop over [skill_mapping.items()], which stops at the first
    entry that lists the goal and matches the course. *)
Fixpoint career_match (goal_lower course_lower : string)
    (items : list (string * SkillInfo.t)) : bool :=
  match items with
  | [] => false
  | (_, skill_info) :: rest =>
      if elem goal_lower (SkillInfo.career_paths skill_info)
         && any_in (SkillInfo.courses skill_info) course_lower
      then true
      else career_match goal_lower course_lower rest
  end.

Fixpoint career_loop (course_lower : string) (goals : list string) (acc : Acc.t)
    : Acc.t :=
  match goals with
  | [] => acc
  | goal :: rest =>
      let acc' :=
        if career_match (lower goal) course_lower skill_mapping
        then Acc.mk (Acc.score acc + 1.5) (Acc.compatibility_score acc)
               (Acc.reasons acc ++ ["Соответствует вашей карьерной цели: " +:+ goal])
        else acc in
      career_loop course_lower rest acc'
  end.

(** [score += w; reasons.append(text)]. *)
Definition bonus (w : Q) (text : string) (acc : Acc.t) : Acc.t :=
  Acc.mk (Acc.score acc + w) (Acc.compatibility_score acc) (Acc.reasons acc ++ [text]).

Definition _assess_course_difficulty (course : Course.t) (profile : BackgroundProfile.t)
    : Q :=
  let difficulty_score := 0.0 in
  let course_lower := lower (Course.name course) in
  let base_difficulty : Q :=
    if any_in ["введение"; "основы"; "базовые"] course_lower then 1.0
    else if any_in ["продвинутый"; "углубленный"; "специальные"] course_lower then 3.0
    else 2.0 in
  let difficulty_score :=
    if nonempty (BackgroundProfile.programming_skills profile)
       && any_in ["программирование"; "код"; "разработка"] course_lower
    then difficulty_score - 1.0 else difficulty_score in
  let difficulty_score :=
    if nonempty (BackgroundProfile.math_skills profile)
       && any_in ["математика"; "алгебра"; "статистика"] course_lower
    then difficulty_score - 1.0 else difficulty_score in
  let difficulty_score :=
    if nonempty (BackgroundProfile.business_skills profile)
       && any_in ["бизнес"; "менеджмент"; "управление"] course_lower
    then difficulty_score - 1.0 else difficulty_score in
  base_difficulty + difficulty_score.

Definition _determine_learning_path (course : Course.t) (profile : BackgroundProfile.t)
    (program : Program.t) : string :=
  if (Course.semester course =? FIRST_SEMESTER)%Z then
    "Рекомендуется изучать в первую очередь (1 семестр)"
  else if (Course.semester course =? SECOND_SEMESTER)%Z then
    "Изучать после освоения базовых дисциплин (2 семестр)"
  else if (Course.semester course =? THIRD_SEMESTER)%Z then
    "Изучать после освоения основных дисциплин (3 семестр)"
  else if (Course.semester course =? FOURTH_SEMESTER)%Z then
    "Изучать в завершающем семестре (4 семестр)"
  else "Можно изучать в любом порядке".

(** The loop over the career goals in
    [_generate_concrete_recommendation_reason]; [None] when the loop ends
    without a [return]. *)
Fixpoint career_reason (course_lower : string) (goals : list string) : option string :=
  match goals with
  | [] => None
  | goal :: rest =>
      let goal_lower := lower goal in
      let engineer := str_in "ml engineer" goal_lower || str_in "ai developer" goal_lower in
      if engineer && (str_in "машинное обучение" course_lower
                      || str_in "нейронные сети" course_lower) then
        Some "Обязательный курс для ML Engineer! Даст ключевые навыки для карьеры"
      else if engineer && str_in "алгоритм" course_lower then
        Some "Важно для ML Engineer: понимание алгоритмов критично для разработки моделей"
      else if str_in "data scientist" goal_lower
              && (str_in "статистика" course_lower || str_in "анализ" course_lower) then
        Some "Ключевой курс для Data Scientist! Статистика - основа анализа данных"
      else if str_in "data scientist" goal_lower
              && str_in "машинное обучение" course_lower then
        Some "Обязательно для Data Scientist! ML - основной инструмент в работе"
      else if str_in "product manager" goal_lower
              && (str_in "продукт" course_lower || str_in "менеджмент" course_lower) then
        Some "Идеально для Product Manager! Поможет управлять AI-продуктами"
      else if str_in "product manager" goal_lower && str_in "бизнес" course_lower then
        Some "Важно для PM: понимание бизнес-аспектов AI-проектов"
      else career_reason course_lower rest
  end.

(** The rules of [_generate_concrete_recommendation_reason], block by
    block; every rule ends in a [return], so a block is the first rule
    that applies, and [None] when control falls through to the next block. *)
Definition programming_reason (course_lower : string) (profile : BackgroundProfile.t)
    : option string :=
  let skills := BackgroundProfile.programming_skills profile in
  if nonempty skills then
    if elem "python" skills && (str_in "машинное обучение" course_lower
                                || str_in "нейронные сети" course_lower) then
      Some "Отличный выбор для Python-разработчиков! Этот курс даст вам практические навыки в ML"
    else if elem "python" skills && (str_in "обработка" course_lower
                                     || str_in "зрение" course_lower) then
      Some "Идеально подходит для Python-программистов. Вы сможете применить свои навыки в AI"
    else if elem "python" skills && str_in "алгоритм" course_lower then
      Some "Ваш опыт в Python поможет быстро освоить алгоритмы и структуры данных"
    else if elem "java" skills && str_in "машинное обучение" course_lower then
      Some "Отличный выбор! Java отлично подходит для enterprise ML-решений"
    else if elem "java" skills && str_in "алгоритм" course_lower then
      Some "Ваши навыки в Java помогут эффективно реализовать алгоритмы"
    else None
  else None.

Definition math_reason (course_lower : string) (profile : BackgroundProfile.t)
    : option string :=
  let skills := BackgroundProfile.math_skills profile in
  let mathematician := nonempty skills && elem "математика" skills in
  if mathematician && (str_in "машинное обучение" course_lower
                       || str_in "нейронные сети" course_lower) then
    Some "Ваша математическая база идеальна для понимания ML-алгоритмов"
  else if mathematician && str_in "статистика" course_lower then
    Some "Математическое образование поможет глубоко понять статистические методы"
  else if mathematician && str_in "оптимизация" course_lower then
    Some "Математические навыки дадут вам преимущество в изучении оптимизации"
  else None.

Definition business_reason (course_lower : string) (profile : BackgroundProfile.t)
    : option string :=
  let skills := BackgroundProfile.business_skills profile in
  let manager := nonempty skills && elem "менеджмент" skills in
  if manager && (str_in "продукт" course_lower || str_in "проект" course_lower) then
    Some "Отличный выбор для менеджеров! Курс поможет управлять AI-проектами"
  else if manager && str_in "бизнес" course_lower then
    Some "Ваш бизнес-опыт поможет понять, как применять AI в реальных проектах"
  else None.

Definition experience_reason (course_lower : string) (profile : BackgroundProfile.t)
    : option string :=
  let experienced := String.eqb (BackgroundProfile.work_experience profile) "есть опыт" in
  if experienced && (str_in "практика" course_lower || str_in "проект" course_lower) then
    Some "Ваш опыт работы поможет успешно выполнять практические задания"
  else if experienced && str_in "реальный" course_lower then
    Some "Опыт работы даст вам преимущество в понимании реальных применений"
  else None.

Definition education_reason (course_lower : string) (profile : BackgroundProfile.t)
    : option string :=
  if String.eqb (BackgroundProfile.education_level profile) "магистратура"
     && (str_in "продвинутый" course_lower || str_in "углубленный" course_lower) then
    Some "Подходит для вашего уровня! Магистратура даст вам базу для сложных курсов"
  else None.

(** The closing [if]/[elif]/[else] on the score tier. *)
Definition generic_reason (profile : BackgroundProfile.t) (compatibility_score : Q)
    : string :=
  if Qle_bool MEDIUM_SCORE_THRESHOLD compatibility_score then
    match BackgroundProfile.programming_skills profile with
    | skill :: _ =>
        "Отличный выбор для " +:+ skill
        +:+ "-разработчика! Курс идеально подходит вашему профилю"
    | [] =>
        match BackgroundProfile.math_skills profile with
        | skill :: _ =>
            "Отличный выбор! Ваши знания в " +:+ skill
            +:+ " помогут быстро освоить материал"
        | [] => "Отличный выбор! Курс хорошо соответствует вашему профилю"
        end
    end
  else if Qle_bool LOW_SCORE_THRESHOLD compatibility_score then
    if String.eqb (BackgroundProfile.work_experience profile) "есть опыт" then
      "Хороший выбор для расширения кругозора. Ваш опыт работы поможет в освоении"
    else
      "Хороший выбор для развития новых навыков. Рекомендуем дополнительную подготовку"
  else
    "Курс может быть сложным для вашего профиля, но это отличная возможность для роста!".

(** [first_some [o1; ...; on] d]: the first [Some] of the blocks, else [d]. *)
Fixpoint first_some (blocks : list (option string)) (default : string) : string :=
  match blocks with
  | [] => default
  | Some r :: _ => r
  | None :: rest => first_some rest default
  end.

Definition _generate_concrete_recommendation_reason (course : Course.t)
    (profile : BackgroundProfile.t) (compatibility_score : Q) : string :=
  let course_lower := lower (Course.name course) in
  first_some
    [ programming_reason course_lower profile;
      math_reason course_lower profile;
      business_reason course_lower profile;
      (if nonempty (BackgroundProfile.career_goals profile)
       then career_reason course_lower (BackgroundProfile.career_goals profile)
       else None);
      experience_reason course_lower profile;
      education_reason course_lower profile ]
    (generic_reason profile compatibility_score).

(** The tier chosen by the [if]/[elif]/[else] on the two thresholds. *)
Definition priority_of (score : Q) : string :=
  if Qle_bool HIGH_SCORE_THRESHOLD score then "high"
  else if Qle_bool MEDIUM_SCORE_THRESHOLD score then "medium"
  else "low".

(** [score], [compatibility_score] and [reasons] when control reaches the
    comment "Определяем приоритет": every term, the difficulty term
    included, has been added; the zero test and the clamp are still to
    come. *)
Definition accumulate (course : Course.t) (profile : BackgroundProfile.t) : Acc.t :=
  let course_lower := lower (Course.name course) in
  let acc := Acc.mk 0.0 0.0 [] in
  let acc := skill_block programming_course_keywords course_lower
               (BackgroundProfile.programming_skills profile) acc in
  let acc := skill_block math_course_keywords course_lower
               (BackgroundProfile.math_skills profile) acc in
  let acc := skill_block business_course_keywords course_lower
               (BackgroundProfile.business_skills profile) acc in
  let acc :=
    if nonempty (BackgroundProfile.career_goals profile)
    then career_loop course_lower (BackgroundProfile.career_goals profile) acc
    else acc in
  let acc :=
    if nonempty (BackgroundProfile.research_interests profile)
       && any_in ["исследование"; "наука"; "анализ"] course_lower
    then bonus 1.5 "Соответствует вашим исследовательским интересам" acc else acc in
  let acc :=
    if String.eqb (BackgroundProfile.work_experience profile) "есть опыт"
       && any_in ["практика"; "проект"; "реальный"] course_lower
    then bonus 1.0 "Подходит для специалистов с опытом работы" acc else acc in
  let acc :=
    if elem (BackgroundProfile.education_level profile) ["магистратура"; "аспирантура"]
       && any_in ["продвинутый"; "углубленный"; "исследование"] course_lower
    then bonus 1.0 "Подходит для вашего уровня образования" acc else acc in
  let difficulty_bonus := _assess_course_difficulty course profile in
  Acc.mk (Acc.score acc + difficulty_bonus) (Acc.compatibility_score acc)
         (Acc.reasons acc).

(** The floor: [if score == 0.0: score = 1.0; reasons.append(...)]. *)
Definition baseline_reason : string := "Базовый курс для всех студентов".

Definition floor (acc : Acc.t) : Acc.t :=
  if Qeq_bool (Acc.score acc) 0.0
  then Acc.mk 1.0 (Acc.compatibility_score acc) (Acc.reasons acc ++ [baseline_reason])
  else acc.

Definition _evaluate_course_intelligently (course : Course.t)
    (profile : BackgroundProfile.t) (program : Program.t) : Recommendation.t :=
  let acc := accumulate course profile in
  let priority := priority_of (Acc.score acc) in
  let acc := floor acc in
  let reason := _generate_concrete_recommendation_reason course profile (Acc.score acc) in
  let learning_path := _determine_learning_path course profile program in
  Recommendation.mk course (Qmin (Acc.score acc) 10.0) reason priority
    (Qmin (Acc.compatibility_score acc) 10.0) learning_path.

(** ** Program recommender *)

(** [recommendations.sort(key=lambda x: x.score, reverse=True)]: a stable
    sort, so a recommendation goes in front of the first one whose score
    is not strictly greater. *)
Fixpoint insert_by_score (r : Recommendation.t) (sorted : list Recommendation.t)
    : list Recommendation.t :=
  match sorted with
  | [] => [r]
  | r' :: rest =>
      if Qle_bool (Recommendation.score r') (Recommendation.score r)
      then r :: r' :: rest
      else r' :: insert_by_score r rest
  end.

Definition sort_by_score (rs : list Recommendation.t) : list Recommendation.t :=
  fold_right insert_by_score [] rs.

Definition _get_program_recommendations (program : Program.t)
    (profile : BackgroundProfile.t) : list Recommendation.t :=
  let elective_courses :=
    List.filter (fun c => elem (Course.course_type c) ["выборная"; "факультативная"])
                (Program.courses program) in
  let elective_courses :=
    if nonempty elective_courses then elective_courses
    else List.filter (fun c => negb (String.eqb (Course.course_type c) "обязательная"))
                     (Program.courses program) in
  let elective_courses :=
    if nonempty elective_courses then elective_courses else Program.courses program in
  let recommendations :=
    List.filter (fun r => negb (Qle_bool (Recommendation.score r) 0))
      (List.map (fun course => _evaluate_course_intelligently course profile program)
                elective_courses) in
  sort_by_score recommendations.

Fixpoint _find_program_by_name (programs : list Program.t) (program_name : string)
    : option Program.t :=
  let program_name_lower := lower program_name in
  match programs with
  | [] => None
  | program :: rest =>
      if str_in program_name_lower (lower (Program.name program)) then Some program
      else _find_program_by_name rest program_name
  end.

(** The line feed of the f-strings. *)
Definition nl : string := String (ascii_of_N 10) EmptyString.

Definition not_found : string := "❌ Программа не найдена".

(** The idiom [if k not in d: d[k] = []] followed by [d[k].append(x)], on a
    dictionary kept in insertion order. *)
Fixpoint group_add {K A} (same : K -> K -> bool) (k : K) (x : A)
    (groups : list (K * list A)) : list (K * list A) :=
  match groups with
  | [] => [(k, [x])]
  | (k', xs) :: rest =>
      if same k k' then (k', xs ++ [x]) :: rest
      else (k', xs) :: group_add same k x rest
  end.

Definition group_by {K A} (same : K -> K -> bool) (key : A -> K) (xs : list A)
    : list (K * list A) :=
  fold_left (fun groups x => group_add same (key x) x groups) xs [].

(** [sorted(by_semester.keys())] together with [by_semester[semester]]: the
    groups in increasing order of their (pairwise different) keys. *)
Fixpoint insert_by_key {A} (g : Z * A) (sorted : list (Z * A)) : list (Z * A) :=
  match sorted with
  | [] => [g]
  | g' :: rest =>
      if (fst g <=? fst g')%Z then g :: g' :: rest else g' :: insert_by_key g rest
  end.

Definition sorted_groups {A} (groups : list (Z * A)) : list (Z * A) :=
  fold_right insert_by_key [] groups.

Definition course_line (course : Course.t) : string :=
  "      • " +:+ Course.name course +:+ " (" +:+ str_of_int (Course.credits course)
  +:+ " кредитов)" +:+ nl.

Definition type_block (group : string * list Course.t) : string :=
  "   📖 " +:+ title (fst group) +:+ ":" +:+ nl
  +:+ concat_lines (List.map course_line (snd group)).

Definition semester_block (group : Z * list Course.t) : string :=
  "📅 " +:+ str_of_int (fst group) +:+ " семестр (" +:+ str_of_int (len (snd group))
  +:+ " дисциплин):" +:+ nl
  +:+ concat_lines (List.map type_block (group_by String.eqb Course.course_type (snd group)))
  +:+ nl.

Definition program_info (program : Program.t) : string :=
  "🎯 " +:+ Program.name program +:+ nl
  +:+ "🏛️  Институт: " +:+ Program.institute program +:+ nl
  +:+ "📖 Описание: " +:+ take_chars 200 (Program.description program) +:+ "..." +:+ nl +:+ nl
  +:+ concat_lines
        (List.map semester_block
           (sorted_groups (group_by Z.eqb Course.semester (Program.courses program)))).

Definition get_detailed_program_info (programs : list Program.t) (program_name : string)
    : string :=
  match _find_program_by_name programs program_name with
  | None => not_found
  | Some program => program_info program
  end.

(** The archetype chosen at the top of [get_course_recommendations].  The
    counters [ai_score] and [product_score] that follow it in the source
    are written and never read; they are left out. *)
Definition user_type_of (profile : BackgroundProfile.t) : string :=
  if nonempty (BackgroundProfile.programming_skills profile) then
    if elem "python" (BackgroundProfile.programming_skills profile) then "python_dev"
    else if elem "java" (BackgroundProfile.programming_skills profile) then "java_dev"
    else "tech_dev"
  else if nonempty (BackgroundProfile.math_skills profile) then "math_background"
  else if nonempty (BackgroundProfile.business_skills profile) then "business_background"
  else "beginner".

(** The two program tracks the loop knows. *)
Definition is_ai_track (program_name : string) : bool :=
  str_in "искусственный интеллект" program_name
  || (str_in "ai" program_name && negb (str_in "product" program_name)).

Definition is_product_track (program_name : string) : bool :=
  str_in "продукт" program_name || str_in "product" program_name.

Definition ai_verdict (user_type : string) : string :=
  if String.eqb user_type "python_dev" then
    "🔥 ЛУЧШИЙ ВЫБОР! Python + ML = идеальная комбинация"
  else if String.eqb user_type "java_dev" then "⭐ Хорошо подходит! Enterprise AI с Java"
  else if String.eqb user_type "tech_dev" then
    "⭐ Хорошо подходит! Ваши навыки программирования"
  else if String.eqb user_type "math_background" then
    "🔥 ЛУЧШИЙ ВЫБОР! Математика = основа ML"
  else if String.eqb user_type "business_background" then
    "💡 Можно рассмотреть, но не идеально"
  else "💡 Хороший выбор для начала".

Definition product_verdict (user_type : string) : string :=
  if String.eqb user_type "business_background" then
    "🔥 ЛУЧШИЙ ВЫБОР! Бизнес + AI = идеально"
  else if String.eqb user_type "tech_dev" then "⭐ Хорошо подходит! Техника + бизнес"
  else if elem user_type ["python_dev"; "java_dev"] then
    "⭐ Хорошо подходит! Программирование + продукт"
  else if String.eqb user_type "math_background" then
    "💡 Можно рассмотреть, но не идеально"
  else "💡 Хороший выбор для начала".

(** [f'🎯 {program.name}: {verdict}\n']. *)
Definition verdict_line (program : Program.t) (verdict : string) : string :=
  "🎯 " +:+ Program.name program +:+ ": " +:+ verdict +:+ nl.

(** One round of the loop over [self.programs]. *)
Definition recommend_step (user_type : string) (recommendations : string)
    (program : Program.t) : string :=
  let program_name := lower (Program.name program) in
  if is_ai_track program_name then
    recommendations +:+ verdict_line program (ai_verdict user_type)
  else if is_product_track program_name then
    recommendations +:+ verdict_line program (product_verdict user_type)
  else recommendations.

Definition recommendations_header : string :=
  "💡 Рекомендации по дисциплинам:" +:+ nl +:+ nl.

Definition get_course_recommendations (programs : list Program.t) (background : string)
    : string :=
  let profile := _analyze_background background in
  let user_type := user_type_of profile in
  fold_left (recommend_step user_type) programs recommendations_header.

(** ** Vocabulary of the statements *)

(** Every keyword table the scorer consults: the course keywords of the
    skill map, the three generic lists, the research, practice and level
    terms, and the two difficulty lists. *)
Definition scorer_keyword_tables : list (list string) :=
  List.map (fun item => SkillInfo.courses (snd item)) skill_mapping ++
  [ programming_course_keywords; math_course_keywords; business_course_keywords;
    ["исследование"; "наука"; "анализ"];
    ["практика"; "проект"; "реальный"];
    ["продвинутый"; "углубленный"; "исследование"];
    ["введение"; "основы"; "базовые"];
    ["продвинутый"; "углубленный"; "специальные"] ].

(** The lower-cased course name contains no keyword of any table. *)
Definition matches_no_table (course_lower : string) : bool :=
  forallb (fun table => negb (any_in table course_lower)) scorer_keyword_tables.

(** 1 when the test holds, 0 otherwise. *)
Definition indicator (b : bool) : Q := if b then 1 else 0.

(** ** Sample catalogue *)

(** The text and the course of the first end-to-end scenario, and a
    programme that offers the course. *)
Definition scenario1_text : string :=
  "У меня есть опыт в программировании на Python и математике".

Definition scenario1_course : Course.t :=
  Course.mk "Машинное обучение" 6 2 "выборная" None None.

Definition scenario1_program : Program.t :=
  Program.mk "Магистратура 'Искусственный интеллект'"
    "https://abit.itmo.ru/program/master/ai"
    "Создавайте AI-продукты и технологии, которые меняют мир."
    4 [scenario1_course] 6 "Институт прикладных компьютерных наук" "очная" "русский"
    (Some "599 000 ₽") true true true.

(** A course whose name is on no keyword table. *)
Definition philosophy_course : Course.t :=
  Course.mk "Философия" 3 1 "выборная" None None.

(** ** Vocabulary of the cluster statements *)

(** The keyword groups of the assigner, named. *)
Inductive group : Set :=
  | Introductory | MachineLearning | DeepLearning | NaturalLanguage | Vision
  | Business | Analytics.

Definition group_keywords (g : group) : list string :=
  match g with
  | Introductory => intro_keywords
  | MachineLearning => ml_keywords
  | DeepLearning => dl_keywords
  | NaturalLanguage => nlp_keywords
  | Vision => vision_keywords
  | Business => business_keywords
  | Analytics => analytics_keywords
  end.

(** The order in which the groups are checked. *)
Definition group_order : list group :=
  [Introductory; MachineLearning; DeepLearning; NaturalLanguage; Vision; Business;
   Analytics].

Definition matches_group (course_lower : string) (g : group) : bool :=
  any_in (group_keywords g) course_lower.

Definition first_matching_group (course_lower : string) : option group :=
  List.find (matches_group course_lower) group_order.

(** The keys of the cluster catalogue. *)
Definition cluster_keys : list string :=
  ["ai_core"; "machine_learning"; "deep_learning"; "nlp"; "computer_vision";
   "business_ai"; "product_management"; "data_analytics"].

Definition clusters_complete (clusters : gmap string CourseCluster.t) : Prop :=
  List.Forall (fun key => is_Some (clusters !! key)) cluster_keys.

(** [after] is [before] with [course] appended to the course list of the
    cluster [key], and with every other cluster as it was. *)
Definition appended_to (key : string) (course : Course.t)
    (before after : gmap string CourseCluster.t) : Prop :=
  (exists cluster,
     before !! key = Some cluster /\
     after !! key = Some (CourseCluster.append course cluster)) /\
  (forall key', key' <> key -> after !! key' = before !! key').

(** A course that matches the introductory group and the machine-learning
    group. *)
Definition intro_ml_course : Course.t :=
  Course.mk "Введение в машинное обучение" 4 1 "обязательная" None None.

(** ** Vocabulary of the string statements *)

(** A string that [Py.lower] leaves alone wherever it occurs: no ASCII
    capital, and every lead byte D0 is followed by a byte outside the
    range of the Cyrillic capitals. *)
Fixpoint lower_stable (s : string) : bool :=
  match s with
  | EmptyString => true
  | String c rest =>
      negb (byte_in 65 90 c)
      && (if (N_of_ascii c =? 208)%N
          then match rest with
               | String d _ => negb (byte_in 128 175 d)
               | EmptyString => false
               end
          else true)
      && lower_stable rest
  end.

(** The first byte of [s], if any, cannot complete a Cyrillic capital. *)
Definition safe_head (s : string) : bool :=
  match s with
  | EmptyString => true
  | String d _ => negb (byte_in 128 175 d)
  end.

(** The number of places of [hay] where [needle] starts. *)
Fixpoint count_sub (needle hay : string) : nat :=
  match hay with
  | EmptyString => if String.prefix needle EmptyString then 1%nat else 0%nat
  | String _ rest =>
      ((if String.prefix needle hay then 1 else 0) + count_sub needle rest)%nat
  end.

(** ** Vocabulary of the programme statements *)

(** The query is a case-insensitive substring of the programme's name. *)
Definition name_matches (query : string) (program : Program.t) : bool :=
  str_in (lower query) (lower (Program.name program)).

(** The programme is on one of the two tracks the recommender knows. *)
Definition is_tracked (program : Program.t) : bool :=
  is_ai_track (lower (Program.name program))
  || is_product_track (lower (Program.name program)).

(** The verdict of a tracked programme. *)
Definition program_verdict (user_type : string) (program : Program.t) : string :=
  if is_ai_track (lower (Program.name program)) then ai_verdict user_type
  else product_verdict user_type.

(** A programme on neither track. *)
Definition robotics_program : Program.t :=
  Program.mk "Робототехника" "https://abit.itmo.ru/program/master/robotics"
    "Роботы и системы управления." 4 [philosophy_course] 3
    "Институт прикладных компьютерных наук" "очная" "русский" None true false true.

(** The product-track programme of the self-test of the analyser. *)
Definition product_program : Program.t :=
  Program.mk "Магистратура 'AI Product Management'"
    "https://abit.itmo.ru/program/master/ai_product"
    "Управляйте AI-продуктами и бизнес-процессами."
    4 [scenario1_course] 6 "Институт прикладных компьютерных наук" "очная" "русский"
    (Some "599 000 ₽") true true true.

(** The text of the negation example. *)
Definition negation_text : string := "я не знаю питон, но хорошо пишу на java".

(** ** The remaining operations of the analyser *)

(** The double quote of the templated texts. *)
Definition dq : string := String (ascii_of_N 34) EmptyString.

(** A text given line by line, every line closed by a line feed. *)
Definition unlines (lines : list string) : string :=
  concat_lines (List.map (fun line => line +:+ nl) lines).

(** [bool(s)] for a [str | None]. *)
Definition truthy (s : option string) : bool :=
  match s with
  | Some text => negb (String.eqb text EmptyString)
  | None => false
  end.

(** [s or default] for a [str | None]. *)
Definition str_or (s : option string) (default : string) : string :=
  match s with
  | Some text => if String.eqb text EmptyString then default else text
  | None => default
  end.

(** *** The course index *)

(** One round of the inner loop of [_build_course_index]: the key is
    created with an empty list when it is new, then the pair is appended. *)
Definition index_add (program : Program.t)
    (course_index : gmap string (list (Course.t * Program.t))) (course : Course.t)
    : gmap string (list (Course.t * Program.t)) :=
  let key := lower (Course.name course) in
  let entries :=
    match course_index !! key with
    | Some entries => entries
    | None => []
    end in
  <[key := entries ++ [(course, program)]]> course_index.

Definition _build_course_index (programs : list Program.t)
    : gmap string (list (Course.t * Program.t)) :=
  fold_left
    (fun course_index program =>
       fold_left (index_add program) (Program.courses program) course_index)
    programs ∅.

(** *** The comparison report *)

Definition yes_no (flag : bool) : string := if flag then "Да" else "Нет".

(** What one round of the loop of [get_program_comparison] appends. *)
Definition comparison_paragraph (program : Program.t) : string :=
  "🎯 " +:+ Program.name program +:+ nl
  +:+ "🏛️  Институт: " +:+ Program.institute program +:+ nl
  +:+ "📚 Всего дисциплин: " +:+ str_of_int (len (Program.courses program)) +:+ nl
  +:+ "🎓 Общее количество кредитов: " +:+ str_of_int (Program.total_credits program) +:+ nl
  +:+ "⏱ Длительность: " +:+ str_of_int (Program.duration program) +:+ " семестра" +:+ nl
  +:+ "📖 Форма обучения: " +:+ Program.form program +:+ nl
  +:+ "🌍 Язык обучения: " +:+ Program.language program +:+ nl
  +:+ (if truthy (Program.cost program)
       then "💰 Стоимость: " +:+ str_or (Program.cost program) EmptyString +:+ nl
       else EmptyString)
  +:+ "🏠 Общежитие: " +:+ yes_no (Program.dormitory program) +:+ nl
  +:+ "🎖️  Военный учебный центр: " +:+ yes_no (Program.military_center program) +:+ nl
  +:+ "✅ Гос. аккредитация: " +:+ yes_no (Program.accreditation program) +:+ nl +:+ nl.

Definition comparison_header : string := "📊 Сравнение магистерских программ:" +:+ nl +:+ nl.

Definition get_program_comparison (programs : list Program.t) : string :=
  fold_left (fun comparison program => comparison +:+ comparison_paragraph program)
            programs comparison_header.

(** *** Cluster guidance *)

(** [key in self.course_clusters and self.course_clusters[key].courses]. *)
Definition cluster_has_courses (clusters : gmap string CourseCluster.t) (key : string)
    : bool :=
  match clusters !! key with
  | Some cluster => nonempty (CourseCluster.courses cluster)
  | None => false
  end.

Definition cluster_default_advice : string :=
  "      📚 Рекомендуем изучать дисциплины последовательно по семестрам" +:+ nl.

Definition _get_cluster_recommendations (clusters : gmap string CourseCluster.t)
    (program : Program.t) (profile : BackgroundProfile.t) : string :=
  let recommendations := EmptyString in
  let recommendations :=
    if nonempty (BackgroundProfile.programming_skills profile)
       && nonempty (BackgroundProfile.math_skills profile)
    then
      let recommendations :=
        if cluster_has_courses clusters "ai_core"
        then recommendations
             +:+ "      🧠 Основы ИИ - отличный старт для программистов" +:+ nl
        else recommendations in
      if cluster_has_courses clusters "machine_learning"
      then recommendations +:+ "      🤖 Машинное обучение - ключевое направление" +:+ nl
      else recommendations
    else recommendations in
  let recommendations :=
    if nonempty (BackgroundProfile.business_skills profile)
    then
      let recommendations :=
        if cluster_has_courses clusters "business_ai"
        then recommendations +:+ "      💼 AI в бизнесе - примените ИИ на практике" +:+ nl
        else recommendations in
      if cluster_has_courses clusters "product_management"
      then recommendations
           +:+ "      📊 Управление продуктами - развивайте бизнес-навыки" +:+ nl
      else recommendations
    else recommendations in
  let recommendations :=
    if nonempty (BackgroundProfile.research_interests profile)
       && cluster_has_courses clusters "deep_learning"
    then recommendations +:+ "      🔬 Глубокое обучение - для исследователей" +:+ nl
    else recommendations in
  if String.eqb recommendations EmptyString then cluster_default_advice
  else recommendations.

(** *** Formatting one recommendation *)

Definition priority_emoji : list (string * string) :=
  [("high", "🔥"); ("medium", "⭐"); ("low", "💡")].

(** [None] stands for the [KeyError] of [priority_emoji[priority]]. *)
Definition _format_recommendation (recommendation : Recommendation.t) (priority : string)
    : option string :=
  match assoc priority priority_emoji with
  | Some emoji =>
      Some ("      " +:+ emoji +:+ " "
            +:+ Course.name (Recommendation.course recommendation) +:+ nl
            +:+ "         💭 " +:+ Recommendation.reason recommendation +:+ nl +:+ nl)
  | None => None
  end.

(** *** Search by keywords *)

(** The inner loop over the courses, left by [break] at the first hit. *)
Fixpoint some_course_matches (keywords_lower : string) (courses : list Course.t) : bool :=
  match courses with
  | [] => false
  | course :: rest =>
      if str_in keywords_lower (lower (Course.name course)) then true
      else some_course_matches keywords_lower rest
  end.

Fixpoint get_program_by_keywords (programs : list Program.t) (keywords : string)
    : list Program.t :=
  let keywords_lower := lower keywords in
  match programs with
  | [] => []
  | program :: rest =>
      if str_in keywords_lower (lower (Program.name program)) then
        program :: get_program_by_keywords rest keywords
      else if str_in keywords_lower (lower (Program.description program)) then
        program :: get_program_by_keywords rest keywords
      else if some_course_matches keywords_lower (Program.courses program) then
        program :: get_program_by_keywords rest keywords
      else get_program_by_keywords rest keywords
  end.

(** *** Career paths and admission *)

Definition ai_career_info : string :=
  unlines
    [ EmptyString;
      "🎯 Карьерные пути для программы " +:+ dq +:+ "Искусственный интеллект" +:+ dq +:+ ":";
      EmptyString;
      "💼 ML Engineer (Middle уровень):";
      "   • Создает и внедряет ML-модели в продакшен";
      "   • Зарплата: 170,000 - 300,000 рублей";
      "   • Компании: Яндекс, Сбер, МТС, Ozon";
      EmptyString;
      "💼 Data Engineer:";
      "   • Выстраивает процессы сбора, хранения и обработки данных";
      "   • Зарплата: 150,000 - 280,000 рублей";
      "   • Компании: X5 Group, Норникель, Napoleon IT";
      EmptyString;
      "💼 AI Product Developer:";
      "   • Разрабатывает продукты на основе AI";
      "   • Зарплата: 180,000 - 320,000 рублей";
      "   • Компании: Genotek, Raft, AIRI";
      EmptyString;
      "💼 Data Analyst:";
      "   • Анализирует массивы данных и помогает бизнесу принимать решения";
      "   • Зарплата: 120,000 - 250,000 рублей";
      "   • Компании: Wildberries, Huawei, Tinkoff Bank" ].

Definition product_career_info : string :=
  unlines
    [ EmptyString;
      "🎯 Карьерные пути для программы " +:+ dq +:+ "AI Product Management" +:+ dq +:+ ":";
      EmptyString;
      "💼 Product Manager:";
      "   • Управляет разработкой AI-продуктов";
      "   • Зарплата: 200,000 - 400,000 рублей";
      "   • Компании: Яндекс, Сбер, МТС";
      EmptyString;
      "💼 AI Product Owner:";
      "   • Определяет требования к AI-продуктам";
      "   • Зарплата: 180,000 - 350,000 рублей";
      "   • Компании: Ozon, X5 Group, Норникель";
      EmptyString;
      "💼 Business Analyst:";
      "   • Анализирует бизнес-процессы и данные";
      "   • Зарплата: 150,000 - 300,000 рублей";
      "   • Компании: Napoleon IT, Genotek, Raft";
      EmptyString;
      "💼 Innovation Manager:";
      "   • Управляет инновационными проектами в сфере AI";
      "   • Зарплата: 160,000 - 320,000 рублей";
      "   • Компании: AIRI, DeepPavlov, Just AI" ].

Definition no_career_info : string :=
  "❌ Информация о карьерных путях недоступна для данной программы".

Definition get_career_paths (programs : list Program.t) (program_name : string) : string :=
  match _find_program_by_name programs program_name with
  | None => not_found
  | Some program =>
      if str_in "искусственный интеллект" (lower (Program.name program)) then
        ai_career_info
      else if str_in "product" (lower (Program.name program)) then product_career_info
      else no_career_info
  end.

(** The fixed middle of the admission text, from the line after the title
    to the line before the cost. *)
Definition admission_ways : string :=
  unlines
    [ EmptyString;
      "📋 Способы поступления:";
      EmptyString;
      "1️⃣ Вступительный экзамен:";
      "   • Дистанционный формат";
      "   • 100-балльная шкала";
      "   • Необходимо подать документы через личный кабинет";
      EmptyString;
      "2️⃣ Junior ML Contest:";
      "   • Конкурс проектов с применением ML";
      "   • Курс " +:+ dq +:+ "My First Data Project" +:+ dq;
      "   • Поступление без экзаменов";
      EmptyString;
      "3️⃣ Олимпиада " +:+ dq +:+ "Я-профессионал" +:+ dq +:+ ":";
      "   • Медалисты и победители поступают без экзаменов";
      "   • Действует в год победы и следующий год";
      EmptyString;
      "4️⃣ Конкурс " +:+ dq +:+ "Портфолио" +:+ dq +:+ ":";
      "   • Научные достижения и публикации";
      "   • Нужно набрать более 85 баллов";
      EmptyString;
      "5️⃣ МегаОлимпиада ИТМО:";
      "   • Победители поступают без экзаменов";
      "   • Действует в год проведения и следующий год";
      EmptyString;
      "6️⃣ МегаШкола ИТМО:";
      "   • Лекции и мастер-классы по актуальным направлениям";
      "   • Победители поступают без экзаменов";
      EmptyString;
      "📅 Даты вступительного экзамена:";
      "   • Уточняйте на официальном сайте программы";
      EmptyString ].

Definition admission_text (program : Program.t) : string :=
  nl +:+ "🎓 Информация о поступлении на программу " +:+ dq +:+ Program.name program
  +:+ dq +:+ ":" +:+ nl
  +:+ admission_ways
  +:+ "💰 Стоимость обучения: " +:+ str_or (Program.cost program) "Уточняйте на сайте" +:+ nl
  +:+ "🏠 Общежитие: " +:+ (if Program.dormitory program then "Доступно" else "Недоступно")
  +:+ nl.

Definition get_admission_info (programs : list Program.t) (program_name : string) : string :=
  match _find_program_by_name programs program_name with
  | None => not_found
  | Some program => admission_text program
  end.

(** ** The message splitter of the bot *)

(** [telegram_bot.ITMOTelegramBot.MAX_MESSAGE_LENGTH]. *)
Definition MAX_MESSAGE_LENGTH : nat := 4096.

(** [len(s)] for a [str]: the bytes that start a character. *)
Fixpoint char_len (s : string) : nat :=
  match s with
  | EmptyString => O
  | String c rest => if is_continuation c then char_len rest else S (char_len rest)
  end.

(** [s[n:]], the rest that [take_chars n] leaves. *)
Fixpoint drop_chars (n : nat) (s : string) : string :=
  match s with
  | EmptyString => EmptyString
  | String c rest =>
      if is_continuation c then drop_chars n rest
      else
        match n with
        | O => s
        | S n' => drop_chars n' rest
        end
  end.

(** [s[i:i + n]]. *)
Definition slice_chars (i n : nat) (s : string) : string :=
  take_chars n (drop_chars i s).

(** [range(0, stop, step)] for a positive step: the multiples of [step]
    below [stop], of which there are [ceil(stop / step)]. *)
Definition range_step (stop step : nat) : list nat :=
  List.map (fun k => (k * step)%nat) (List.seq 0 ((stop + step - 1) / step)).

(** The list comprehension of the handlers:
    [[text[i : i + limit] for i in range(0, len(text), limit)]]. *)
Definition message_parts (limit : nat) (text : string) : list string :=
  List.map (fun i => slice_chars i limit text) (range_step (char_len text) limit).

(** What a handler sends: the text itself when it fits, its parts
    otherwise. *)
Definition outgoing_messages (text : string) : list string :=
  if (MAX_MESSAGE_LENGTH <? char_len text)%nat
  then message_parts MAX_MESSAGE_LENGTH text
  else [text].

(** ** Vocabulary of the further statements *)

(** The cluster the assigner picks for a lower-cased course name, if any. *)
Definition cluster_target (course_lower : string) : option string :=
  match first_matching_group course_lower with
  | Some Introductory =>
      if str_in "искусственный интеллект" course_lower || str_in "ai" course_lower
      then Some "ai_core"
      else if str_in "продукт" course_lower || str_in "менеджмент" course_lower
      then Some "product_management"
      else if str_in "анализ" course_lower || str_in "данные" course_lower
      then Some "data_analytics"
      else None
  | Some MachineLearning => Some "machine_learning"
  | Some DeepLearning => Some "deep_learning"
  | Some NaturalLanguage => Some "nlp"
  | Some Vision => Some "computer_vision"
  | Some Business =>
      if str_in "ai" course_lower || str_in "искусственный интеллект" course_lower
      then Some "business_ai" else Some "product_management"
  | Some Analytics => Some "data_analytics"
  | None => None
  end.

(** The courses of a catalogue, programme after programme. *)
Definition catalogue_courses (programs : list Program.t) : list Course.t :=
  List.concat (List.map Program.courses programs).

(** The query matches the programme by name, by description or by the name
    of one of its courses, without regard to case. *)
Definition keyword_matches (keywords : string) (program : Program.t) : bool :=
  str_in (lower keywords) (lower (Program.name program))
  || str_in (lower keywords) (lower (Program.description program))
  || existsb (fun course => str_in (lower keywords) (lower (Course.name course)))
             (Program.courses program).

(** The courses [_get_program_recommendations] scores: the elective and
    optional ones, else the ones that are not required, else all. *)
Definition is_elective (course : Course.t) : bool :=
  elem (Course.course_type course) ["выборная"; "факультативная"].

Definition is_not_required (course : Course.t) : bool :=
  negb (String.eqb (Course.course_type course) "обязательная").

(** The first byte of the text, if any, starts a character. *)
Definition starts_char (s : string) : bool :=
  match s with
  | EmptyString => true
  | String c _ => negb (is_continuation c)
  end.

(** A long text for the splitter: 5000 letters. *)
Definition long_text : string :=
  concat_lines (List.repeat "я" 5000).

(** No byte of the string is an ASCII capital. *)
Fixpoint no_ascii_upper (s : string) : bool :=
  match s with
  | EmptyString => true
  | String c rest => negb (byte_in 65 90 c) && no_ascii_upper rest
  end.

(** The profile with other career goals. *)
Definition with_career_goals (goals : list string) (profile : BackgroundProfile.t)
    : BackgroundProfile.t :=
  BackgroundProfile.mk
    (BackgroundProfile.programming_skills profile)
    (BackgroundProfile.math_skills profile)
    (BackgroundProfile.business_skills profile)
    (BackgroundProfile.research_interests profile)
    (BackgroundProfile.work_experience profile)
    (BackgroundProfile.education_level profile)
    goals
    (BackgroundProfile.learning_preferences profile)
    (BackgroundProfile.time_availability profile).

(** A profile with three career goals. *)
Definition goal_profile : BackgroundProfile.t :=
  BackgroundProfile.mk ["python"] ["математика"] [] [] "есть опыт" "магистратура"
    ["ML Engineer"; "Data Scientist"; "AI Developer"] [] "стандартная".

Definition selected_courses (program : Program.t) : list Course.t :=
  let electives := List.filter is_elective (Program.courses program) in
  if nonempty electives then electives
  else
    let others := List.filter is_not_required (Program.courses program) in
    if nonempty others then others else Program.courses program.

(** One score does not exceed the other: the order of the ranking. *)
Definition ranks_before (r1 r2 : Recommendation.t) : Prop :=
  (Recommendation.score r2 <= Recommendation.score r1)%Q.

(** A programme with a required, an elective and an optional course. *)
Definition mixed_program : Program.t :=
  Program.mk "Магистратура 'Искусственный интеллект'"
    "https://abit.itmo.ru/program/master/ai"
    "Создавайте AI-продукты и технологии, которые меняют мир."
    4
    [ Course.mk "Машинное обучение" 6 2 "обязательная" None None;
      Course.mk "Обработка естественного языка" 4 2 "выборная" None None;
      Course.mk "Этика искусственного интеллекта" 2 3 "факультативная" None None ]
    12 "Институт прикладных компьютерных наук" "очная" "русский" None true true true.

(** The assigner sends the course to the cluster [key]. *)
Definition targets (key : string) (course : Course.t) : bool :=
  match cluster_target (lower (Course.name course)) with
  | Some key' => String.eqb key' key
  | None => false
  end.

(** Two clusters differ in their course lists at most. *)
Definition same_cluster_data (c1 c2 : CourseCluster.t) : Prop :=
  CourseCluster.name c1 = CourseCluster.name c2 /\
  CourseCluster.difficulty_level c1 = CourseCluster.difficulty_level c2 /\
  CourseCluster.prerequisites c1 = CourseCluster.prerequisites c2 /\
  CourseCluster.career_relevance c1 = CourseCluster.career_relevance c2.

(** The catalogue of the self-test of the analyser, in short: two
    programmes that share one course list. *)
Definition required_ml_course : Course.t :=
  Course.mk "Машинное обучение" 6 1 "обязательная" None None.

Definition shared_courses : list Course.t :=
  [ required_ml_course;
    Course.mk "Анализ данных" 4 1 "обязательная" None None;
    Course.mk "Этика ИИ" 2 3 "факультативная" None None ].

Definition shared_catalogue : list Program.t :=
  [ Program.mk "Магистратура 'Искусственный интеллект'"
      "https://abit.itmo.ru/program/master/ai"
      "Создавайте AI-продукты и технологии, которые меняют мир."
      4 shared_courses 12 "Институт прикладных компьютерных наук" "очная" "русский"
      (Some "599 000 ₽") true true true;
    Program.mk "Магистратура 'AI Product Management'"
      "https://abit.itmo.ru/program/master/ai_product"
      "Управляйте AI-продуктами и бизнес-процессами."
      4 shared_courses 12 "Институт прикладных компьютерных наук" "очная" "русский"
      (Some "599 000 ₽") true true true ].

(** The state of the cluster catalogue once the courses [seen] have been
    assigned: the keys and the data of the clusters are those of the
    start, and the course list of every cluster is the part of [seen] sent
    to it. *)
Definition built_from (seen : list Course.t) (clusters : gmap string CourseCluster.t)
    : Prop :=
  forall key,
    match empty_clusters !! key, clusters !! key with
    | Some start, Some cluster =>
        same_cluster_data cluster start /\
        CourseCluster.courses cluster = List.filter (targets key) seen
    | None, None => True
    | _, _ => False
    end.

(** The pairs of the course index, in the order the loops visit them. *)
Definition catalogue_pairs (programs : list Program.t) : list (Course.t * Program.t) :=
  List.flat_map
    (fun program => List.map (fun course => (course, program)) (Program.courses program))
    programs.

(** The pair is filed under [key]. *)
Definition filed_under (key : string) (pair : Course.t * Program.t) : bool :=
  String.eqb (lower (Course.name (fst pair))) key.

(** What the index holds under [key] once the pairs [seen] are filed. *)
Definition index_entry (seen : list (Course.t * Program.t)) (key : string)
    : option (list (Course.t * Program.t)) :=
  if nonempty (List.filter (filed_under key) seen)
  then Some (List.filter (filed_under key) seen)
  else None.

(** The groups a grouping loop has built from the items [seen]: one group
    per key, every group the items of its key in their order and not
    empty, every item in the group of its key. *)
Definition grouped {K A} (same : K -> K -> bool) (key : A -> K) (seen : list A)
    (groups : list (K * list A)) : Prop :=
  List.NoDup (List.map fst groups) /\
  List.Forall
    (fun g => snd g = List.filter (fun y => same (key y) (fst g)) seen /\ snd g <> [])
    groups /\
  (forall y, In y seen -> In (key y) (List.map fst groups)).

(** The profile without its programming, math or business skills. *)
Definition without_programming (profile : BackgroundProfile.t) : BackgroundProfile.t :=
  BackgroundProfile.mk []
    (BackgroundProfile.math_skills profile)
    (BackgroundProfile.business_skills profile)
    (BackgroundProfile.research_interests profile)
    (BackgroundProfile.work_experience profile)
    (BackgroundProfile.education_level profile)
    (BackgroundProfile.career_goals profile)
    (BackgroundProfile.learning_preferences profile)
    (BackgroundProfile.time_availability profile).

Definition without_math (profile : BackgroundProfile.t) : BackgroundProfile.t :=
  BackgroundProfile.mk
    (BackgroundProfile.programming_skills profile)
    []
    (BackgroundProfile.business_skills profile)
    (BackgroundProfile.research_interests profile)
    (BackgroundProfile.work_experience profile)
    (BackgroundProfile.education_level profile)
    (BackgroundProfile.career_goals profile)
    (BackgroundProfile.learning_preferences profile)
    (BackgroundProfile.time_availability profile).

Definition without_business (profile : BackgroundProfile.t) : BackgroundProfile.t :=
  BackgroundProfile.mk
    (BackgroundProfile.programming_skills profile)
    (BackgroundProfile.math_skills profile)
    []
    (BackgroundProfile.research_interests profile)
    (BackgroundProfile.work_experience profile)
    (BackgroundProfile.education_level profile)
    (BackgroundProfile.career_goals profile)
    (BackgroundProfile.learning_preferences profile)
    (BackgroundProfile.time_availability profile).

(** What a skill block adds, measured from the empty accumulator. *)
Definition block_gain (generic : list string) (course_lower : string)
    (skills : list string) : Q :=
  Acc.score (skill_block generic course_lower skills (Acc.mk 0.0 0.0 [])).

(** The base difficulty of a lower-cased course name. *)
Definition base_difficulty (course_lower : string) : Q :=
  if any_in ["введение"; "основы"; "базовые"] course_lower then 1.0
  else if any_in ["продвинутый"; "углубленный"; "специальные"] course_lower then 3.0
  else 2.0.

(** The three bonuses that follow the skill blocks. *)
Definition flat_bonuses (course_lower : string) (profile : BackgroundProfile.t) : Q :=
  (if nonempty (BackgroundProfile.research_interests profile)
      && any_in ["исследование"; "наука"; "анализ"] course_lower then 1.5 else 0)
  + (if String.eqb (BackgroundProfile.work_experience profile) "есть опыт"
        && any_in ["практика"; "проект"; "реальный"] course_lower then 1.0 else 0)
  + (if elem (BackgroundProfile.education_level profile) ["магистратура"; "аспирантура"]
        && any_in ["продвинутый"; "углубленный"; "исследование"] course_lower
     then 1.0 else 0).

(** The sentence of the lowest tier of the reason generator. *)
Definition hard_course_reason : string :=
  "Курс может быть сложным для вашего профиля, но это отличная возможность для роста!".

(** An introductory course for the lowest tier. *)
Definition intro_programming_course : Course.t :=
  Course.mk "Основы программирования" 3 1 "выборная" None None.

(** What the career-goal loop adds, measured from the empty accumulator. *)
Definition career_gain (course_lower : string) (goals : list string) : Q :=
  Acc.score (career_loop course_lower goals (Acc.mk 0.0 0.0 [])).

(** The opening lines of the detail report. *)
Definition report_header (program : Program.t) : string :=
  "🎯 " +:+ Program.name program +:+ nl
  +:+ "🏛️  Институт: " +:+ Program.institute program +:+ nl
  +:+ "📖 Описание: " +:+ take_chars 200 (Program.description program) +:+ "..."
  +:+ nl +:+ nl.

(** The distinct items of a list in the order of their first occurrence:
    the keys of a [dict] that a loop over the list has filled. *)
Fixpoint first_occurrences {K} (same : K -> K -> bool) (seen xs : list K) : list K :=
  match xs with
  | [] => []
  | x :: rest =>
      if existsb (same x) seen then first_occurrences same seen rest
      else x :: first_occurrences same (x :: seen) rest
  end.

(** The courses of one semester, and the courses of one type, in their
    order. *)
Definition courses_of_semester (semester : Z) (courses : list Course.t) : list Course.t :=
  List.filter (fun course => (Course.semester course =? semester)%Z) courses.

Definition courses_of_type (course_type : string) (courses : list Course.t)
    : list Course.t :=
  List.filter (fun course => String.eqb (Course.course_type course) course_type) courses.

(** * Properties *)

(** ** Keyword tests *)

Lemma any_in_incl (ks1 ks2 : list string) (s : string) :
  incl ks1 ks2 -> any_in ks1 s = true -> any_in ks2 s = true.
Proof.
  unfold any_in. intros Hincl H.
  apply existsb_exists in H as (k & Hk & Hin).
  apply existsb_exists. exists k. split; [apply Hincl, Hk | exact Hin].
Qed.

Lemma assoc_In {A} (key : string) (table : list (string * A)) (v : A) :
  assoc key table = Some v -> In v (List.map snd table).
Proof.
  induction table as [|[k w] rest IH]; simpl; [discriminate|].
  destruct (String.eqb key k).
  - intros [= ->]. now left.
  - intros H. right. exact (IH H).
Qed.

(** ** The scorer: bounds on the accumulated score *)

Section ScorerBounds.

Local Open Scope Q_scope.

(** Every weight of the skill map is at least 1.5. *)
Lemma skill_weights_at_least :
  Forall (fun info => 1.5 <= SkillInfo.weight info) (List.map snd skill_mapping).
Proof. repeat constructor; cbn; lra. Qed.

Lemma assoc_weight (skill : string) (info : SkillInfo.t) :
  assoc skill skill_mapping = Some info -> 1.5 <= SkillInfo.weight info.
Proof.
  intros H. apply assoc_In in H.
  exact (proj1 (List.Forall_forall _ _) skill_weights_at_least info H).
Qed.

(** One round of the loop, without unfolding the skill map. *)
Lemma skill_loop_cons (generic : list string) (cl skill : string)
    (rest : list string) (acc : Acc.t) :
  skill_loop generic cl (skill :: rest) acc =
  match assoc skill skill_mapping with
  | Some skill_info =>
      if any_in (SkillInfo.courses skill_info) cl
      then skill_hit (SkillInfo.weight skill_info) skill acc
      else if any_in generic cl then skill_hit 2.0 skill acc
      else skill_loop generic cl rest acc
  | None =>
      if any_in generic cl then skill_hit 2.0 skill acc
      else skill_loop generic cl rest acc
  end.
Proof. reflexivity. Qed.

(** A skill block adds the same non-negative amount to both scores, and at
    least 1.5 as soon as the profile has a skill of the category and the
    generic list of the category matches the course. *)
Lemma skill_loop_gain (generic : list string) (cl : string) (skills : list string)
    (acc : Acc.t) :
  exists w : Q,
    Acc.score (skill_loop generic cl skills acc) == Acc.score acc + w /\
    Acc.compatibility_score (skill_loop generic cl skills acc)
      == Acc.compatibility_score acc + w /\
    0 <= w /\
    (skills <> [] -> any_in generic cl = true -> 1.5 <= w).
Proof.
  induction skills as [|skill rest IH].
  - exists 0. simpl. repeat split; first [lra | congruence].
  - rewrite skill_loop_cons.
    destruct (assoc skill skill_mapping) as [info|] eqn:Hinfo.
    + apply assoc_weight in Hinfo.
      destruct (any_in (SkillInfo.courses info) cl).
      * exists (SkillInfo.weight info). cbn. repeat split; intros; lra.
      * destruct (any_in generic cl).
        -- exists 2.0. cbn. repeat split; intros; lra.
        -- destruct IH as (w & H1 & H2 & H3 & _). exists w.
           repeat split; try assumption. discriminate.
    + destruct (any_in generic cl).
      * exists 2.0. cbn. repeat split; intros; lra.
      * destruct IH as (w & H1 & H2 & H3 & _). exists w.
        repeat split; try assumption. discriminate.
Qed.

Lemma skill_block_gain (generic : list string) (cl : string) (skills : list string)
    (acc : Acc.t) :
  exists w : Q,
    Acc.score (skill_block generic cl skills acc) == Acc.score acc + w /\
    Acc.compatibility_score (skill_block generic cl skills acc)
      == Acc.compatibility_score acc + w /\
    0 <= w /\
    (nonempty skills && any_in generic cl = true -> 1.5 <= w).
Proof.
  unfold skill_block. destruct skills as [|skill rest]; simpl nonempty; cbv iota.
  - exists 0. repeat split; first [lra | discriminate].
  - destruct (skill_loop_gain generic cl (skill :: rest) acc) as (w & H1 & H2 & H3 & H4).
    exists w. repeat split; try assumption.
    intros H. apply H4; [discriminate | exact H].
Qed.

Lemma career_loop_cons (cl goal : string) (rest : list string) (acc : Acc.t) :
  career_loop cl (goal :: rest) acc =
  career_loop cl rest
    (if career_match (lower goal) cl skill_mapping
     then Acc.mk (Acc.score acc + 1.5) (Acc.compatibility_score acc)
            (Acc.reasons acc ++ ["Соответствует вашей карьерной цели: " +:+ goal])
     else acc).
Proof. reflexivity. Qed.

(** The career loop only adds to the score and leaves the compatibility
    sub-score alone. *)
Lemma career_loop_gain (cl : string) (goals : list string) (acc : Acc.t) :
  Acc.score acc <= Acc.score (career_loop cl goals acc) /\
  Acc.compatibility_score (career_loop cl goals acc) = Acc.compatibility_score acc.
Proof.
  revert acc. induction goals as [|goal rest IH]; intros acc.
  - simpl. split; [lra | reflexivity].
  - rewrite career_loop_cons.
    destruct (career_match (lower goal) cl skill_mapping).
    + destruct (IH (Acc.mk (Acc.score acc + 1.5) (Acc.compatibility_score acc)
                      (Acc.reasons acc ++ ["Соответствует вашей карьерной цели: " +:+ goal])))
        as [H1 H2].
      cbn [Acc.score Acc.compatibility_score] in H1, H2. split; [lra | exact H2].
    + apply IH.
Qed.

(** The difficulty term: a base of at least 1.0, less 1.0 for every skill
    category whose reduction fires. *)
Lemma difficulty_lower_bound (course : Course.t) (profile : BackgroundProfile.t) :
  let cl := lower (Course.name course) in
  1.0
  - indicator (nonempty (BackgroundProfile.programming_skills profile)
               && any_in ["программирование"; "код"; "разработка"] cl)
  - indicator (nonempty (BackgroundProfile.math_skills profile)
               && any_in ["математика"; "алгебра"; "статистика"] cl)
  - indicator (nonempty (BackgroundProfile.business_skills profile)
               && any_in ["бизнес"; "менеджмент"; "управление"] cl)
  <= _assess_course_difficulty course profile.
Proof.
  intros cl. unfold _assess_course_difficulty. fold cl.
  destruct (any_in ["введение"; "основы"; "базовые"] cl);
    [|destruct (any_in ["продвинутый"; "углубленный"; "специальные"] cl)];
    destruct (nonempty (BackgroundProfile.programming_skills profile)
              && any_in ["программирование"; "код"; "разработка"] cl);
    destruct (nonempty (BackgroundProfile.math_skills profile)
              && any_in ["математика"; "алгебра"; "статистика"] cl);
    destruct (nonempty (BackgroundProfile.business_skills profile)
              && any_in ["бизнес"; "менеджмент"; "управление"] cl);
    unfold indicator; lra.
Qed.

(** A reduction fires only where the generic list of the same category
    matches, because its three keywords are on that list. *)
Lemma reduction_implies_generic (skills : list string) (cl : string)
    (reduction generic : list string) :
  incl reduction generic ->
  nonempty skills && any_in reduction cl = true ->
  nonempty skills && any_in generic cl = true.
Proof.
  intros Hincl H. apply andb_true_iff in H as [H1 H2].
  apply andb_true_iff. split; [exact H1 | exact (any_in_incl _ _ _ Hincl H2)].
Qed.

Lemma programming_reduction_incl :
  incl ["программирование"; "код"; "разработка"] programming_course_keywords.
Proof. intros k Hk. simpl in Hk. unfold programming_course_keywords. simpl. tauto. Qed.

Lemma math_reduction_incl :
  incl ["математика"; "алгебра"; "статистика"] math_course_keywords.
Proof. intros k Hk. simpl in Hk. unfold math_course_keywords. simpl. tauto. Qed.

Lemma business_reduction_incl :
  incl ["бизнес"; "менеджмент"; "управление"] business_course_keywords.
Proof. intros k Hk. simpl in Hk. unfold business_course_keywords. simpl. tauto. Qed.

Lemma indicator_gain (reduction generic : bool) (w : Q) :
  (reduction = true -> generic = true) -> 0 <= w -> (generic = true -> 1.5 <= w) ->
  indicator reduction <= w.
Proof.
  intros Himp Hw Hgain. unfold indicator. destruct reduction; [|exact Hw].
  specialize (Hgain (Himp eq_refl)). lra.
Qed.

(** The heart of the lower bound: both accumulated values. *)
Lemma accumulate_bounds (course : Course.t) (profile : BackgroundProfile.t) :
  1.0 <= Acc.score (accumulate course profile) /\
  0 <= Acc.compatibility_score (accumulate course profile).
Proof.
  pose proof (difficulty_lower_bound course profile) as Hd. cbv zeta in Hd.
  unfold accumulate.
  set (cl := lower (Course.name course)) in *.
  set (acc0 := Acc.mk 0.0 0.0 []).
  destruct (skill_block_gain programming_course_keywords cl
              (BackgroundProfile.programming_skills profile) acc0)
    as (w1 & Hs1 & Hc1 & Hw1 & Hg1).
  set (acc1 := skill_block programming_course_keywords cl _ acc0) in *.
  destruct (skill_block_gain math_course_keywords cl
              (BackgroundProfile.math_skills profile) acc1)
    as (w2 & Hs2 & Hc2 & Hw2 & Hg2).
  set (acc2 := skill_block math_course_keywords cl _ acc1) in *.
  destruct (skill_block_gain business_course_keywords cl
              (BackgroundProfile.business_skills profile) acc2)
    as (w3 & Hs3 & Hc3 & Hw3 & Hg3).
  set (acc3 := skill_block business_course_keywords cl _ acc2) in *.
  pose proof (indicator_gain _ _ w1
                (reduction_implies_generic _ cl _ _ programming_reduction_incl) Hw1 Hg1) as Hi1.
  pose proof (indicator_gain _ _ w2
                (reduction_implies_generic _ cl _ _ math_reduction_incl) Hw2 Hg2) as Hi2.
  pose proof (indicator_gain _ _ w3
                (reduction_implies_generic _ cl _ _ business_reduction_incl) Hw3 Hg3) as Hi3.
  assert (Hcareer :
    exists acc4, (if nonempty (BackgroundProfile.career_goals profile)
                  then career_loop cl (BackgroundProfile.career_goals profile) acc3
                  else acc3) = acc4 /\
      Acc.score acc3 <= Acc.score acc4 /\
      Acc.compatibility_score acc4 = Acc.compatibility_score acc3).
  { eexists; split; [reflexivity|].
    destruct (nonempty (BackgroundProfile.career_goals profile)).
    - apply career_loop_gain.
    - split; [lra | reflexivity]. }
  destruct Hcareer as (acc4 & -> & Hs4 & Hc4).
  cbn [Acc.score Acc.compatibility_score acc0] in Hs1, Hc1.
  repeat match goal with
  | |- context [if ?b then bonus _ _ _ else _] => destruct b
  end; cbn [bonus Acc.score Acc.compatibility_score]; rewrite ?Hc4; split; lra.
Qed.

End ScorerBounds.

(** ** The scorer: the floor, the clamp and the priority tier *)

Section ScorerClaims.

Local Open Scope Q_scope.

Lemma floor_unreachable (course : Course.t) (profile : BackgroundProfile.t) :
  floor (accumulate course profile) = accumulate course profile.
Proof.
  unfold floor.
  destruct (Qeq_bool (Acc.score (accumulate course profile)) 0.0) eqn:Hzero;
    [|reflexivity].
  apply Qeq_bool_iff in Hzero.
  pose proof (proj1 (accumulate_bounds course profile)). lra.
Qed.

(** C10.  For every course and every profile the score accumulated before
    the zero test is at least 1.0, so the floor branch is never taken and
    the score of the recommendation is at least 1.0. *)
Theorem floor_branch_unreachable (course : Course.t) (profile : BackgroundProfile.t)
    (program : Program.t) :
  1.0 <= Acc.score (accumulate course profile) /\
  Qeq_bool (Acc.score (accumulate course profile)) 0.0 = false /\
  floor (accumulate course profile) = accumulate course profile /\
  1.0 <= Recommendation.score (_evaluate_course_intelligently course profile program).
Proof.
  pose proof (proj1 (accumulate_bounds course profile)) as Hlow.
  repeat split.
  - exact Hlow.
  - destruct (Qeq_bool _ _) eqn:Hzero; [|reflexivity].
    apply Qeq_bool_iff in Hzero. lra.
  - apply floor_unreachable.
  - unfold _evaluate_course_intelligently. cbn [Recommendation.score].
    rewrite floor_unreachable. apply Q.min_glb; lra.
Qed.

(** C3.  The score and the compatibility sub-score of every recommendation
    lie between 0 and 10. *)
Theorem scores_clamped (course : Course.t) (profile : BackgroundProfile.t)
    (program : Program.t) :
  let r := _evaluate_course_intelligently course profile program in
  0 <= Recommendation.score r /\ Recommendation.score r <= 10 /\
  0 <= Recommendation.compatibility_score r /\
  Recommendation.compatibility_score r <= 10.
Proof.
  destruct (accumulate_bounds course profile) as [Hs Hc].
  unfold _evaluate_course_intelligently.
  cbn [Recommendation.score Recommendation.compatibility_score].
  rewrite floor_unreachable.
  repeat split.
  - apply Q.min_glb; lra.
  - eapply Qle_trans; [apply Q.le_min_r | lra].
  - apply Q.min_glb; lra.
  - eapply Qle_trans; [apply Q.le_min_r | lra].
Qed.

Lemma priority_of_high (s : Q) : priority_of s = "high" <-> 7.0 <= s.
Proof.
  unfold priority_of, HIGH_SCORE_THRESHOLD, MEDIUM_SCORE_THRESHOLD.
  destruct (Qle_bool 7.0 s) eqn:H7.
  - apply Qle_bool_iff in H7. tauto.
  - assert (~ 7.0 <= s) by (rewrite <- Qle_bool_iff; congruence).
    destruct (Qle_bool 4.0 s); split; (discriminate || tauto).
Qed.

Lemma priority_of_medium (s : Q) : priority_of s = "medium" <-> 4.0 <= s /\ s < 7.0.
Proof.
  unfold priority_of, HIGH_SCORE_THRESHOLD, MEDIUM_SCORE_THRESHOLD.
  destruct (Qle_bool 7.0 s) eqn:H7.
  - apply Qle_bool_iff in H7. split; [discriminate | lra].
  - assert (~ 7.0 <= s) by (rewrite <- Qle_bool_iff; congruence).
    destruct (Qle_bool 4.0 s) eqn:H4.
    + apply Qle_bool_iff in H4. split; [lra | reflexivity].
    + assert (~ 4.0 <= s) by (rewrite <- Qle_bool_iff; congruence).
      split; [discriminate | lra].
Qed.

Lemma priority_of_low (s : Q) : priority_of s = "low" <-> s < 4.0.
Proof.
  unfold priority_of, HIGH_SCORE_THRESHOLD, MEDIUM_SCORE_THRESHOLD.
  destruct (Qle_bool 7.0 s) eqn:H7.
  - apply Qle_bool_iff in H7. split; [discriminate | lra].
  - destruct (Qle_bool 4.0 s) eqn:H4.
    + apply Qle_bool_iff in H4. split; [discriminate | lra].
    + assert (~ 4.0 <= s) by (rewrite <- Qle_bool_iff; congruence).
      split; [lra | reflexivity].
Qed.

(** C7.  The priority tier of every recommendation follows the final score
    before the clamp, the value that [min(score, 10.0)] is applied to:
    high from 7.0 on, medium from 4.0 up to but not including 7.0, low
    below 4.0; 6.999 is medium and 7.0 is high. *)
Theorem priority_follows_final_score (course : Course.t) (profile : BackgroundProfile.t)
    (program : Program.t) :
  let r := _evaluate_course_intelligently course profile program in
  let final := Acc.score (floor (accumulate course profile)) in
  Recommendation.score r = Qmin final 10.0 /\
  Recommendation.priority r = priority_of final /\
  (Recommendation.priority r = "high" <-> 7.0 <= final) /\
  (Recommendation.priority r = "medium" <-> 4.0 <= final /\ final < 7.0) /\
  (Recommendation.priority r = "low" <-> final < 4.0) /\
  priority_of 6.999 = "medium" /\ priority_of 7.0 = "high".
Proof.
  cbv zeta. unfold _evaluate_course_intelligently.
  cbn [Recommendation.score Recommendation.priority].
  rewrite floor_unreachable.
  split; [reflexivity|]. split; [reflexivity|].
  split; [apply priority_of_high|].
  split; [apply priority_of_medium|].
  split; [apply priority_of_low|].
  split; reflexivity.
Qed.

End ScorerClaims.

(** ** The scorer: a course that matches no keyword table *)

Section UnmatchedCourse.

Local Open Scope Q_scope.

Variable cl : string.
Hypothesis no_table : matches_no_table cl = true.

Lemma no_table_In (table : list string) :
  In table scorer_keyword_tables -> any_in table cl = false.
Proof using no_table.
  intros Hin. unfold matches_no_table in no_table.
  rewrite List.forallb_forall in no_table.
  apply negb_true_iff. exact (no_table table Hin).
Qed.

Lemma no_table_skill (info : SkillInfo.t) :
  In info (List.map snd skill_mapping) -> any_in (SkillInfo.courses info) cl = false.
Proof using no_table.
  intros Hin. apply no_table_In. unfold scorer_keyword_tables.
  apply in_or_app. left.
  apply in_map_iff in Hin as (item & <- & Hitem).
  apply in_map_iff. exists item. split; [reflexivity | exact Hitem].
Qed.

Lemma no_table_generic (table : list string) :
  In table
    [ programming_course_keywords; math_course_keywords; business_course_keywords;
      ["исследование"; "наука"; "анализ"];
      ["практика"; "проект"; "реальный"];
      ["продвинутый"; "углубленный"; "исследование"];
      ["введение"; "основы"; "базовые"];
      ["продвинутый"; "углубленный"; "специальные"] ] ->
  any_in table cl = false.
Proof using no_table.
  intros Hin. apply no_table_In. unfold scorer_keyword_tables.
  apply in_or_app. right. exact Hin.
Qed.

Lemma no_table_sublist (sub table : list string) :
  incl sub table -> any_in table cl = false -> any_in sub cl = false.
Proof.
  intros Hincl Hnone. destruct (any_in sub cl) eqn:Hsub; [|reflexivity].
  rewrite (any_in_incl _ _ _ Hincl Hsub) in Hnone. discriminate.
Qed.

Lemma skill_loop_unmatched (generic : list string) (skills : list string) (acc : Acc.t) :
  any_in generic cl = false -> skill_loop generic cl skills acc = acc.
Proof using no_table.
  intros Hgen. induction skills as [|skill rest IH]; [reflexivity|].
  rewrite skill_loop_cons, Hgen.
  destruct (assoc skill skill_mapping) as [info|] eqn:Hinfo; [|exact IH].
  rewrite (no_table_skill info (assoc_In _ _ _ Hinfo)). exact IH.
Qed.

Lemma skill_block_unmatched (generic : list string) (skills : list string) (acc : Acc.t) :
  any_in generic cl = false -> skill_block generic cl skills acc = acc.
Proof using no_table.
  intros Hgen. unfold skill_block.
  destruct (nonempty skills); [apply skill_loop_unmatched, Hgen | reflexivity].
Qed.

Lemma career_match_unmatched (goal_lower : string) (items : list (string * SkillInfo.t)) :
  incl (List.map snd items) (List.map snd skill_mapping) ->
  career_match goal_lower cl items = false.
Proof using no_table.
  induction items as [|[key info] rest IH]; intros Hincl; [reflexivity|].
  cbn [career_match].
  rewrite (no_table_skill info), andb_false_r.
  - apply IH. intros x Hx. apply Hincl. right. exact Hx.
  - apply Hincl. left. reflexivity.
Qed.

Lemma career_loop_unmatched (goals : list string) (acc : Acc.t) :
  career_loop cl goals acc = acc.
Proof using no_table.
  induction goals as [|goal rest IH]; [reflexivity|].
  rewrite career_loop_cons, career_match_unmatched; [exact IH | apply incl_refl].
Qed.

End UnmatchedCourse.

Lemma accumulate_unmatched (course : Course.t) (profile : BackgroundProfile.t) :
  matches_no_table (lower (Course.name course)) = true ->
  accumulate course profile = Acc.mk (0.0 + (2.0 + 0.0))%Q 0.0%Q [].
Proof.
  intros Hno. set (cl := lower (Course.name course)) in *.
  pose proof (no_table_generic cl Hno) as Hgen.
  unfold accumulate, _assess_course_difficulty. fold cl.
  rewrite !(skill_block_unmatched cl Hno) by (apply Hgen; simpl; tauto).
  rewrite (career_loop_unmatched cl Hno).
  rewrite (Hgen ["исследование"; "наука"; "анализ"]) by (simpl; tauto).
  rewrite (Hgen ["практика"; "проект"; "реальный"]) by (simpl; tauto).
  rewrite (Hgen ["продвинутый"; "углубленный"; "исследование"]) by (simpl; tauto).
  rewrite (Hgen ["введение"; "основы"; "базовые"]) by (simpl; tauto).
  rewrite (Hgen ["продвинутый"; "углубленный"; "специальные"]) by (simpl; tauto).
  rewrite (no_table_sublist cl _ _ programming_reduction_incl)
    by (apply Hgen; simpl; tauto).
  rewrite (no_table_sublist cl _ _ math_reduction_incl) by (apply Hgen; simpl; tauto).
  rewrite (no_table_sublist cl _ _ business_reduction_incl)
    by (apply Hgen; simpl; tauto).
  rewrite !andb_false_r.
  destruct (nonempty (BackgroundProfile.career_goals profile)); reflexivity.
Qed.

(** ** The reason generator never returns the baseline reason *)

Ltac split_ifs :=
  repeat match goal with
  | |- context [if ?b then _ else _] => destruct b
  end.

Ltac not_baseline :=
  split_ifs; try discriminate; intros [= <-]; unfold baseline_reason; discriminate.

Lemma programming_reason_not_baseline (cl : string) (profile : BackgroundProfile.t)
    (r : string) :
  programming_reason cl profile = Some r -> r <> baseline_reason.
Proof. unfold programming_reason. not_baseline. Qed.

Lemma math_reason_not_baseline (cl : string) (profile : BackgroundProfile.t) (r : string) :
  math_reason cl profile = Some r -> r <> baseline_reason.
Proof. unfold math_reason. not_baseline. Qed.

Lemma business_reason_not_baseline (cl : string) (profile : BackgroundProfile.t)
    (r : string) :
  business_reason cl profile = Some r -> r <> baseline_reason.
Proof. unfold business_reason. not_baseline. Qed.

Lemma experience_reason_not_baseline (cl : string) (profile : BackgroundProfile.t)
    (r : string) :
  experience_reason cl profile = Some r -> r <> baseline_reason.
Proof. unfold experience_reason. not_baseline. Qed.

Lemma education_reason_not_baseline (cl : string) (profile : BackgroundProfile.t)
    (r : string) :
  education_reason cl profile = Some r -> r <> baseline_reason.
Proof. unfold education_reason. not_baseline. Qed.

Lemma career_reason_not_baseline (cl : string) (goals : list string) (r : string) :
  career_reason cl goals = Some r -> r <> baseline_reason.
Proof.
  induction goals as [|goal rest IH]; [discriminate|].
  cbn [career_reason]. cbv zeta.
  split_ifs; try exact IH; intros [= <-]; unfold baseline_reason; discriminate.
Qed.

Lemma generic_reason_not_baseline (profile : BackgroundProfile.t) (s : Q) :
  generic_reason profile s <> baseline_reason.
Proof.
  unfold generic_reason, baseline_reason.
  destruct (Qle_bool MEDIUM_SCORE_THRESHOLD s).
  - destruct (BackgroundProfile.programming_skills profile);
      [destruct (BackgroundProfile.math_skills profile)|]; discriminate.
  - split_ifs; discriminate.
Qed.

Lemma reason_not_baseline (course : Course.t) (profile : BackgroundProfile.t) (s : Q) :
  _generate_concrete_recommendation_reason course profile s <> baseline_reason.
Proof.
  unfold _generate_concrete_recommendation_reason.
  set (cl := lower (Course.name course)).
  destruct (programming_reason cl profile) eqn:H1;
    [exact (programming_reason_not_baseline _ _ _ H1)|].
  destruct (math_reason cl profile) eqn:H2;
    [exact (math_reason_not_baseline _ _ _ H2)|].
  destruct (business_reason cl profile) eqn:H3;
    [exact (business_reason_not_baseline _ _ _ H3)|].
  cbn [first_some].
  destruct (nonempty (BackgroundProfile.career_goals profile)).
  - destruct (career_reason cl (BackgroundProfile.career_goals profile)) eqn:H4;
      [exact (career_reason_not_baseline _ _ _ H4)|].
    destruct (experience_reason cl profile) eqn:H5;
      [exact (experience_reason_not_baseline _ _ _ H5)|].
    destruct (education_reason cl profile) eqn:H6;
      [exact (education_reason_not_baseline _ _ _ H6)|].
    apply generic_reason_not_baseline.
  - destruct (experience_reason cl profile) eqn:H5;
      [exact (experience_reason_not_baseline _ _ _ H5)|].
    destruct (education_reason cl profile) eqn:H6;
      [exact (education_reason_not_baseline _ _ _ H6)|].
    apply generic_reason_not_baseline.
Qed.

(** C1, as the code has it.  A course whose name matches no keyword table
    receives, for every profile, the default base difficulty as its score:
    exactly 2.0, not 1.0.  Its compatibility sub-score is 0, its priority
    is low, the floor branch is not taken, so no reason is collected, and
    the reason of the recommendation is not the baseline reason. *)
Theorem unmatched_course_scores_two (course : Course.t) (profile : BackgroundProfile.t)
    (program : Program.t) :
  matches_no_table (lower (Course.name course)) = true ->
  let r := _evaluate_course_intelligently course profile program in
  (Recommendation.score r == 2.0)%Q /\
  (Recommendation.compatibility_score r == 0)%Q /\
  Recommendation.priority r = "low" /\
  Acc.reasons (floor (accumulate course profile)) = [] /\
  Recommendation.reason r <> baseline_reason.
Proof.
  intros Hno r. subst r. unfold _evaluate_course_intelligently.
  cbn [Recommendation.score Recommendation.compatibility_score Recommendation.priority
       Recommendation.reason].
  rewrite floor_unreachable, (accumulate_unmatched course profile Hno).
  cbn [Acc.score Acc.compatibility_score Acc.reasons].
  repeat split; try reflexivity.
  apply reason_not_baseline.
Qed.

(** ** Cluster assignment *)

Section ClusterAssignment.

Implicit Types (clusters : gmap string CourseCluster.t) (course : Course.t).

Lemma empty_clusters_complete : clusters_complete empty_clusters.
Proof. repeat constructor; vm_compute; eexists; reflexivity. Qed.

Lemma complete_lookup clusters key :
  clusters_complete clusters -> In key cluster_keys ->
  exists cluster, clusters !! key = Some cluster.
Proof.
  intros Hall Hkey.
  exact (proj1 (List.Forall_forall _ _) Hall key Hkey).
Qed.

Lemma insert_complete clusters key cluster :
  clusters_complete clusters -> clusters_complete (<[key := cluster]> clusters).
Proof.
  unfold clusters_complete. intros Hall.
  apply List.Forall_forall. intros k Hk.
  pose proof (proj1 (List.Forall_forall _ _) Hall k Hk) as Hsome.
  destruct (decide (key = k)) as [->|Hne].
  - rewrite lookup_insert_eq. eexists; reflexivity.
  - rewrite lookup_insert_ne by exact Hne. exact Hsome.
Qed.

(** An append to a cluster of the catalogue succeeds, touches that cluster
    only, and keeps the catalogue complete. *)
Lemma cluster_append_spec clusters course key :
  clusters_complete clusters -> In key cluster_keys ->
  exists clusters',
    cluster_append key course clusters = Some clusters' /\
    clusters_complete clusters' /\
    appended_to key course clusters clusters'.
Proof.
  intros Hall Hkey.
  destruct (complete_lookup clusters key Hall Hkey) as [cluster Hcluster].
  unfold cluster_append. rewrite Hcluster.
  eexists. split; [reflexivity|]. split; [apply insert_complete, Hall|].
  split.
  - exists cluster. split; [exact Hcluster | apply lookup_insert_eq].
  - intros key' Hne. apply lookup_insert_ne. congruence.
Qed.

(** Two appends of one course to different clusters never give the same
    catalogue: the append is to exactly one cluster. *)
Lemma appended_to_unique clusters clusters' course key1 key2 :
  appended_to key1 course clusters clusters' ->
  appended_to key2 course clusters clusters' -> key1 = key2.
Proof.
  intros [(c1 & Hb1 & Ha1) Hother1] [(c2 & Hb2 & Ha2) Hother2].
  destruct (decide (key1 = key2)) as [|Hne]; [assumption|].
  rewrite (Hother2 key1 Hne), Hb1 in Ha1.
  injection Ha1 as Heq.
  apply (f_equal (fun c => List.length (CourseCluster.courses c))) in Heq.
  unfold CourseCluster.append in Heq. cbn [CourseCluster.courses] in Heq.
  rewrite List.length_app in Heq. simpl in Heq. lia.
Qed.

Lemma appended_to_changes clusters clusters' course key :
  appended_to key course clusters clusters' -> clusters' <> clusters.
Proof.
  intros [(c & Hb & Ha) _] ->. rewrite Hb in Ha. injection Ha as Heq.
  apply (f_equal (fun c => List.length (CourseCluster.courses c))) in Heq.
  unfold CourseCluster.append in Heq. cbn [CourseCluster.courses] in Heq.
  rewrite List.length_app in Heq. simpl in Heq. lia.
Qed.

End ClusterAssignment.

Ltac cluster_key := unfold cluster_keys; simpl; tauto.

(** One assignment on a complete catalogue succeeds and leaves it
    complete. *)
Lemma assign_course_total (course : Course.t) (clusters : gmap string CourseCluster.t) :
  clusters_complete clusters ->
  exists clusters',
    _assign_course_to_cluster course clusters = Some clusters' /\
    clusters_complete clusters'.
Proof.
  intros Hall.
  assert (Happend : forall key, In key cluster_keys -> exists clusters',
    cluster_append key course clusters = Some clusters' /\ clusters_complete clusters').
  { intros key Hkey.
    destruct (cluster_append_spec clusters course key Hall Hkey) as (m & H1 & H2 & _).
    exists m. split; assumption. }
  assert (Hkeep : exists clusters',
    Some clusters = Some clusters' /\ clusters_complete clusters').
  { exists clusters. split; [reflexivity | exact Hall]. }
  unfold _assign_course_to_cluster.
  repeat match goal with
  | |- context [if ?b then _ else _] => destruct b
  end; first [exact Hkeep | apply Happend; cluster_key].
Qed.

(** C4, as the code has it.  On a complete catalogue the assignment never
    fails, keeps the catalogue complete and appends the course to at most
    one cluster, decided by the first matching group in the fixed order
    alone.  A first match in the machine-learning, deep-learning, NLP,
    vision or analytics group appends to that group's cluster; a first
    match in the business group appends to business_ai or to
    product_management; a match of the introductory group appends to
    ai_core, product_management or data_analytics by the sub-topic
    keywords and to no cluster when there is none, whatever later group
    the name also matches; a name that matches no group is appended
    nowhere. *)
Theorem cluster_assignment_first_match (course : Course.t)
    (clusters : gmap string CourseCluster.t) :
  clusters_complete clusters ->
  let cl := lower (Course.name course) in
  exists clusters',
    _assign_course_to_cluster course clusters = Some clusters' /\
    clusters_complete clusters' /\
    (clusters' = clusters \/
     exists key, appended_to key course clusters clusters' /\
       forall key', appended_to key' course clusters clusters' -> key' = key) /\
    match first_matching_group cl with
    | Some Introductory =>
        if str_in "искусственный интеллект" cl || str_in "ai" cl
        then appended_to "ai_core" course clusters clusters'
        else if str_in "продукт" cl || str_in "менеджмент" cl
        then appended_to "product_management" course clusters clusters'
        else if str_in "анализ" cl || str_in "данные" cl
        then appended_to "data_analytics" course clusters clusters'
        else clusters' = clusters
    | Some MachineLearning => appended_to "machine_learning" course clusters clusters'
    | Some DeepLearning => appended_to "deep_learning" course clusters clusters'
    | Some NaturalLanguage => appended_to "nlp" course clusters clusters'
    | Some Vision => appended_to "computer_vision" course clusters clusters'
    | Some Business =>
        if str_in "ai" cl || str_in "искусственный интеллект" cl
        then appended_to "business_ai" course clusters clusters'
        else appended_to "product_management" course clusters clusters'
    | Some Analytics => appended_to "data_analytics" course clusters clusters'
    | None => clusters' = clusters
    end.
Proof.
  intros Hall cl.
  assert (Hkeep : exists clusters',
    Some clusters = Some clusters' /\ clusters_complete clusters' /\
    (clusters' = clusters \/
     exists key, appended_to key course clusters clusters' /\
       forall key', appended_to key' course clusters clusters' -> key' = key) /\
    clusters' = clusters).
  { exists clusters. split; [reflexivity|]. split; [exact Hall|].
    split; [now left | reflexivity]. }
  assert (Happend : forall key, In key cluster_keys -> exists clusters',
    cluster_append key course clusters = Some clusters' /\ clusters_complete clusters' /\
    (clusters' = clusters \/
     exists key0, appended_to key0 course clusters clusters' /\
       forall key', appended_to key' course clusters clusters' -> key' = key0) /\
    appended_to key course clusters clusters').
  { intros key Hkey.
    destruct (cluster_append_spec clusters course key Hall Hkey) as (m & H1 & H2 & H3).
    exists m. split; [exact H1|]. split; [exact H2|]. split; [|exact H3].
    right. exists key. split; [exact H3|].
    intros key' H'. exact (appended_to_unique _ _ _ _ _ H' H3). }
  unfold _assign_course_to_cluster, first_matching_group, group_order, matches_group.
  fold cl. cbn [List.find group_keywords].
  destruct (any_in intro_keywords cl).
  { destruct (str_in "искусственный интеллект" cl || str_in "ai" cl);
      [apply Happend; cluster_key|].
    destruct (str_in "продукт" cl || str_in "менеджмент" cl);
      [apply Happend; cluster_key|].
    destruct (str_in "анализ" cl || str_in "данные" cl);
      [apply Happend; cluster_key | exact Hkeep]. }
  destruct (any_in ml_keywords cl); [apply Happend; cluster_key|].
  destruct (any_in dl_keywords cl); [apply Happend; cluster_key|].
  destruct (any_in nlp_keywords cl); [apply Happend; cluster_key|].
  destruct (any_in vision_keywords cl); [apply Happend; cluster_key|].
  destruct (any_in business_keywords cl).
  { destruct (str_in "ai" cl || str_in "искусственный интеллект" cl);
      apply Happend; cluster_key. }
  destruct (any_in analytics_keywords cl); [apply Happend; cluster_key | exact Hkeep].
Qed.

(** The catalogue is built for every list of programmes: no append ever
    misses its key. *)
Lemma assign_courses_total (courses : list Course.t)
    (clusters : gmap string CourseCluster.t) :
  clusters_complete clusters ->
  exists clusters', assign_courses courses clusters = Some clusters' /\
                    clusters_complete clusters'.
Proof.
  revert clusters. induction courses as [|course rest IH]; intros clusters Hall.
  - exists clusters. split; [reflexivity | exact Hall].
  - destruct (assign_course_total course clusters Hall) as (m & Hrun & Hm).
    cbn [assign_courses]. rewrite Hrun. apply IH, Hm.
Qed.

Lemma build_course_clusters_total (programs : list Program.t) :
  exists clusters, _build_course_clusters programs = Some clusters /\
                   clusters_complete clusters.
Proof.
  unfold _build_course_clusters.
  generalize empty_clusters empty_clusters_complete.
  induction programs as [|program rest IH]; intros clusters Hall.
  - exists clusters. split; [reflexivity | exact Hall].
  - destruct (assign_courses_total (Program.courses program) clusters Hall)
      as (m & Hrun & Hm).
    cbn [assign_programs]. rewrite Hrun. apply IH, Hm.
Qed.

(** ** Substrings *)

Section Substrings.

Lemma append_cons (x : ascii) (a b : string) : String x a +:+ b = String x (a +:+ b).
Proof. reflexivity. Qed.

Lemma append_nil_l (b : string) : "" +:+ b = b.
Proof. reflexivity. Qed.

Lemma append_assoc (a b c : string) : (a +:+ b) +:+ c = a +:+ (b +:+ c).
Proof.
  induction a as [|x a IH]; [reflexivity|].
  rewrite !append_cons. f_equal. exact IH.
Qed.

Lemma append_nil_r (a : string) : a +:+ "" = a.
Proof.
  induction a as [|x a IH]; [reflexivity|].
  rewrite append_cons. f_equal. exact IH.
Qed.

Lemma prefix_app (n post : string) : String.prefix n (n +:+ post) = true.
Proof.
  induction n as [|c n IH]; [now destruct post|].
  rewrite append_cons. cbn [String.prefix].
  destruct (ascii_dec c c); [exact IH | congruence].
Qed.

Lemma prefix_split (n h : string) :
  String.prefix n h = true -> exists post, h = n +:+ post.
Proof.
  revert h. induction n as [|c n IH]; intros h H.
  - exists h. reflexivity.
  - destruct h as [|d h]; simpl in H; [discriminate|].
    destruct (ascii_dec c d) as [->|]; [|discriminate].
    destruct (IH h H) as [post ->]. exists post. reflexivity.
Qed.

Lemma str_in_unfold (n h : string) :
  str_in n h =
  String.prefix n h || match h with
                       | EmptyString => false
                       | String _ rest => str_in n rest
                       end.
Proof. destruct h; reflexivity. Qed.

(** [n in h] holds exactly when [h] is [pre + n + post]. *)
Lemma str_in_app (n pre post : string) : str_in n (pre +:+ (n +:+ post)) = true.
Proof.
  induction pre as [|c pre IH]; rewrite str_in_unfold.
  - rewrite ?append_cons, ?append_nil_l. now rewrite prefix_app.
  - rewrite ?append_cons, ?append_nil_l. rewrite IH. apply orb_true_r.
Qed.

Lemma str_in_split (n h : string) :
  str_in n h = true -> exists pre post, h = pre +:+ (n +:+ post).
Proof.
  induction h as [|c h IH]; rewrite str_in_unfold; intros H.
  - rewrite orb_false_r in H. destruct (prefix_split _ _ H) as [post ->].
    exists "", post. reflexivity.
  - apply orb_true_iff in H as [H|H].
    + destruct (prefix_split _ _ H) as [post ->]. exists "", post. reflexivity.
    + destruct (IH H) as (pre & post & ->). exists (String c pre), post. reflexivity.
Qed.

Lemma byte_in_subrange (lo hi lo' hi' : N) (d : ascii) :
  (lo <= lo')%N -> (hi' <= hi)%N -> byte_in lo hi d = false -> byte_in lo' hi' d = false.
Proof.
  unfold byte_in. intros Hlo Hhi H.
  apply andb_false_iff in H. apply andb_false_iff.
  destruct H as [H|H]; [left | right]; apply N.leb_gt in H; apply N.leb_gt; lia.
Qed.

End Substrings.

(** ** Negation in the profile extractor *)

(** With a negation phrase in the lower-cased text the programming loop
    appends nothing. *)
Lemma negated_tags_empty (table : list (string * list string)) (text_lower : string) :
  any_in negations text_lower = true ->
  matching_tags_not_negated table text_lower = [].
Proof.
  intros Hneg. induction table as [|[tag keywords] rest IH]; [reflexivity|].
  cbn [matching_tags_not_negated]. rewrite Hneg, andb_false_r. exact IH.
Qed.

(** The phrase is found in any letter case, as the test is on the
    lower-cased text. *)
Lemma negation_in_lower_text (text : string) :
  any_in negations (lower text) = true ->
  BackgroundProfile.programming_skills (_analyze_background text) = [].
Proof.
  intros Hneg. unfold _analyze_background. cbn [BackgroundProfile.programming_skills].
  apply negated_tags_empty, Hneg.
Qed.

(** ** Looking a programme up by name *)

Section ProgramLookup.

Implicit Types (programs : list Program.t) (program : Program.t) (query : string).

Lemma find_program_cons programs program query :
  _find_program_by_name (program :: programs) query =
  if name_matches query program then Some program
  else _find_program_by_name programs query.
Proof. reflexivity. Qed.

Lemma find_program_none programs query :
  _find_program_by_name programs query = None <->
  forall program, In program programs -> name_matches query program = false.
Proof.
  induction programs as [|p rest IH].
  - split; [intros _ program [] | reflexivity].
  - rewrite find_program_cons. destruct (name_matches query p) eqn:Hp.
    + split; [discriminate|]. intros H.
      rewrite (H p (or_introl eq_refl)) in Hp. discriminate.
    + rewrite IH. split.
      * intros H program [<-|Hin]; [exact Hp | exact (H program Hin)].
      * intros H program Hin. apply H. right. exact Hin.
Qed.

(** The look-up returns the first programme, in catalogue order, whose
    name matches. *)
Lemma find_program_first programs query before program after :
  programs = before ++ program :: after ->
  (forall earlier, In earlier before -> name_matches query earlier = false) ->
  name_matches query program = true ->
  _find_program_by_name programs query = Some program.
Proof.
  intros -> Hbefore Hmatch. induction before as [|p before IH].
  - simpl app. rewrite find_program_cons, Hmatch. reflexivity.
  - simpl app. rewrite find_program_cons, (Hbefore p (or_introl eq_refl)).
    apply IH. intros earlier Hin. apply Hbefore. right. exact Hin.
Qed.

Lemma find_program_some programs query program :
  _find_program_by_name programs query = Some program ->
  exists before after,
    programs = before ++ program :: after /\
    (forall earlier, In earlier before -> name_matches query earlier = false) /\
    name_matches query program = true.
Proof.
  induction programs as [|p rest IH]; [discriminate|].
  rewrite find_program_cons. destruct (name_matches query p) eqn:Hp.
  - intros [= <-]. exists [], rest. split; [reflexivity|]. split; [intros ? []|exact Hp].
  - intros H. destruct (IH H) as (before & after & -> & Hbefore & Hmatch).
    exists (p :: before), after. split; [reflexivity|]. split; [|exact Hmatch].
    intros earlier [<-|Hin]; [exact Hp | exact (Hbefore earlier Hin)].
Qed.

(** A report on a programme is never the sentinel: it opens with another
    sign. *)
Lemma program_info_not_sentinel program : program_info program <> not_found.
Proof. unfold program_info, not_found. rewrite !append_cons. discriminate. Qed.

End ProgramLookup.

(** C8.  The detail operation is a total function that returns the
    not-found sentinel exactly when no programme of the catalogue has a
    name containing the query as a case-insensitive substring; when some
    name does, the report is that of the first such programme in
    catalogue order. *)
Theorem detail_not_found_iff (programs : list Program.t) (query : string) :
  (get_detailed_program_info programs query = not_found <->
   forall program, In program programs -> name_matches query program = false) /\
  (forall before program after,
     programs = before ++ program :: after ->
     (forall earlier, In earlier before -> name_matches query earlier = false) ->
     name_matches query program = true ->
     get_detailed_program_info programs query = program_info program).
Proof.
  unfold get_detailed_program_info. split.
  - rewrite <- find_program_none.
    destruct (_find_program_by_name programs query) as [program|].
    + split; [intros H; destruct (program_info_not_sentinel program H) | discriminate].
    + split; reflexivity.
  - intros before program after Hsplit Hbefore Hmatch.
    rewrite (find_program_first programs query before program after Hsplit Hbefore Hmatch).
    reflexivity.
Qed.

(** ** Verdict lines of the recommend operation *)

Section VerdictLines.

Variable user_type : string.

Lemma recommend_step_tracked (report : string) (program : Program.t) :
  recommend_step user_type report program =
  if is_tracked program
  then report +:+ verdict_line program (program_verdict user_type program)
  else report.
Proof.
  unfold recommend_step, is_tracked, program_verdict.
  destruct (is_ai_track (lower (Program.name program))); [reflexivity|].
  destruct (is_product_track (lower (Program.name program))); reflexivity.
Qed.

Lemma recommend_loop (programs : list Program.t) (report : string) :
  fold_left (recommend_step user_type) programs report =
  report +:+ concat_lines
    (List.map (fun program => verdict_line program (program_verdict user_type program))
              (List.filter is_tracked programs)).
Proof.
  revert report. induction programs as [|program rest IH]; intros report.
  - simpl. now rewrite append_nil_r.
  - cbn [fold_left List.filter]. rewrite IH, recommend_step_tracked.
    destruct (is_tracked program); [|reflexivity].
    cbn [List.map concat_lines fold_right]. now rewrite append_assoc.
Qed.

End VerdictLines.

(** The lines the loop writes.  The report of the recommend operation is
    the header followed by one verdict line for every programme of the
    catalogue whose lower-cased name is on the AI track or on the product
    track, in catalogue order, and by nothing else: the [if]/[elif] of the
    loop has no [else], so a programme on neither track is passed over,
    against the comment of the loop, which announces a recommendation for
    every programme. *)
Lemma one_verdict_line_per_tracked_program (programs : list Program.t)
    (background : string) :
  let user_type := user_type_of (_analyze_background background) in
  let lines :=
    List.map (fun program => verdict_line program (program_verdict user_type program))
             (List.filter is_tracked programs) in
  get_course_recommendations programs background
    = recommendations_header +:+ concat_lines lines /\
  List.length lines = List.length (List.filter is_tracked programs) /\
  (List.length lines <= List.length programs)%nat.
Proof.
  cbv zeta. unfold get_course_recommendations.
  split; [apply recommend_loop|]. split; [apply List.length_map|].
  rewrite List.length_map. apply List.filter_length_le.
Qed.

(** * Further properties *)

(** ** Upper bounds of the scorer *)

Section ScorerUpperBounds.

Local Open Scope Q_scope.

Lemma skill_weights_at_most :
  List.Forall (fun info => SkillInfo.weight info <= 2.5) (List.map snd skill_mapping).
Proof. repeat constructor; cbn; lra. Qed.

Lemma skill_loop_gain_le (generic : list string) (cl : string) (skills : list string)
    (acc : Acc.t) :
  Acc.score (skill_loop generic cl skills acc) <= Acc.score acc + 2.5 /\
  Acc.compatibility_score (skill_loop generic cl skills acc)
    <= Acc.compatibility_score acc + 2.5.
Proof.
  induction skills as [|skill rest IH]; [simpl; split; lra|].
  rewrite skill_loop_cons.
  destruct (assoc skill skill_mapping) as [info|] eqn:Hinfo.
  - pose proof (proj1 (List.Forall_forall _ _) skill_weights_at_most info
                  (assoc_In _ _ _ Hinfo)) as Hw. cbv beta in Hw.
    destruct (any_in (SkillInfo.courses info) cl); [cbn; split; lra|].
    destruct (any_in generic cl); [cbn; split; lra | exact IH].
  - destruct (any_in generic cl); [cbn; split; lra | exact IH].
Qed.

Lemma skill_block_gain_le (generic : list string) (cl : string) (skills : list string)
    (acc : Acc.t) :
  Acc.score (skill_block generic cl skills acc) <= Acc.score acc + 2.5 /\
  Acc.compatibility_score (skill_block generic cl skills acc)
    <= Acc.compatibility_score acc + 2.5.
Proof.
  unfold skill_block. destruct (nonempty skills); [apply skill_loop_gain_le|].
  split; lra.
Qed.

Lemma difficulty_upper_bound (course : Course.t) (profile : BackgroundProfile.t) :
  _assess_course_difficulty course profile <= 3.0.
Proof.
  unfold _assess_course_difficulty.
  repeat match goal with
  | |- context [if ?b then _ else _] => destruct b
  end; lra.
Qed.

End ScorerUpperBounds.

(** ** Extracted profiles and the skill map *)

Section ExtractedTags.

Lemma matching_tags_keys (table : list (string * list string)) (text tag : string) :
  In tag (matching_tags table text) -> In tag (List.map fst table).
Proof.
  induction table as [|[key keywords] rest IH]; [intros []|].
  cbn [matching_tags List.map fst].
  destruct (any_in keywords text);
    [intros [<-|H]; [now left | right; exact (IH H)] | intros H; right; exact (IH H)].
Qed.

Lemma matching_tags_not_negated_keys (table : list (string * list string))
    (text tag : string) :
  In tag (matching_tags_not_negated table text) -> In tag (List.map fst table).
Proof.
  induction table as [|[key keywords] rest IH]; [intros []|].
  cbn [matching_tags_not_negated List.map fst].
  destruct (any_in keywords text && negb (any_in negations text));
    [intros [<-|H]; [now left | right; exact (IH H)] | intros H; right; exact (IH H)].
Qed.

Lemma programming_keys_mapped :
  List.Forall (fun tag => assoc tag skill_mapping <> None)
    (List.map fst programming_keywords).
Proof. repeat constructor; discriminate. Qed.

Lemma math_keys_unmapped :
  List.Forall (fun tag => assoc tag skill_mapping = None) (List.map fst math_keywords).
Proof. repeat constructor. Qed.

Lemma business_keys_unmapped :
  List.Forall (fun tag => assoc tag skill_mapping = None)
    (List.map fst business_skill_keywords).
Proof. repeat constructor. Qed.

(** With skills that are not keys of the skill map a block adds the
    generic 2.0 for the first skill, or nothing. *)
Lemma skill_block_unmapped (generic : list string) (cl : string) (skills : list string)
    (acc : Acc.t) :
  List.Forall (fun tag => assoc tag skill_mapping = None) skills ->
  skill_block generic cl skills acc =
  match skills with
  | skill :: _ => if any_in generic cl then skill_hit 2.0%Q skill acc else acc
  | [] => acc
  end.
Proof.
  intros Hall. unfold skill_block. destruct skills as [|skill rest]; [reflexivity|].
  cbn [nonempty]. destruct (any_in generic cl) eqn:Hgen.
  - rewrite skill_loop_cons, Hgen.
    rewrite (List.Forall_inv Hall). reflexivity.
  - induction Hall as [|tag tags Htag Htags IH]; [reflexivity|].
    rewrite skill_loop_cons, Hgen, Htag. exact IH.
Qed.

End ExtractedTags.

(** X3.  For the profile extracted from any text, every programming tag
    is a key of the skill map, while no math tag and no business tag is
    one: for such a profile the math block and the business block of the
    scorer add the generic 2.0 or nothing, never a skill-map weight. *)
Theorem extracted_tags_and_skill_map (text : string) (course : Course.t) (acc : Acc.t) :
  let profile := _analyze_background text in
  let cl := lower (Course.name course) in
  (forall tag, In tag (BackgroundProfile.programming_skills profile) ->
     assoc tag skill_mapping <> None) /\
  (forall tag, In tag (BackgroundProfile.math_skills profile) ->
     assoc tag skill_mapping = None) /\
  (forall tag, In tag (BackgroundProfile.business_skills profile) ->
     assoc tag skill_mapping = None) /\
  skill_block math_course_keywords cl (BackgroundProfile.math_skills profile) acc =
    match BackgroundProfile.math_skills profile with
    | skill :: _ =>
        if any_in math_course_keywords cl then skill_hit 2.0%Q skill acc else acc
    | [] => acc
    end /\
  skill_block business_course_keywords cl (BackgroundProfile.business_skills profile) acc =
    match BackgroundProfile.business_skills profile with
    | skill :: _ =>
        if any_in business_course_keywords cl then skill_hit 2.0%Q skill acc else acc
    | [] => acc
    end.
Proof.
  cbv zeta. unfold _analyze_background.
  cbn [BackgroundProfile.programming_skills BackgroundProfile.math_skills
       BackgroundProfile.business_skills].
  assert (Hmath : List.Forall (fun tag => assoc tag skill_mapping = None)
                    (matching_tags math_keywords (lower text))).
  { apply List.Forall_forall. intros tag Hin.
    exact (proj1 (List.Forall_forall _ _) math_keys_unmapped tag
             (matching_tags_keys _ _ _ Hin)). }
  assert (Hbusiness : List.Forall (fun tag => assoc tag skill_mapping = None)
                        (matching_tags business_skill_keywords (lower text))).
  { apply List.Forall_forall. intros tag Hin.
    exact (proj1 (List.Forall_forall _ _) business_keys_unmapped tag
             (matching_tags_keys _ _ _ Hin)). }
  split.
  { intros tag Hin.
    exact (proj1 (List.Forall_forall _ _) programming_keys_mapped tag
             (matching_tags_not_negated_keys _ _ _ Hin)). }
  split; [exact (proj1 (List.Forall_forall _ _) Hmath)|].
  split; [exact (proj1 (List.Forall_forall _ _) Hbusiness)|].
  split; apply skill_block_unmapped; assumption.
Qed.

(** ** Formatting a recommendation *)

Lemma priority_of_cases (s : Q) :
  priority_of s = "high" \/ priority_of s = "medium" \/ priority_of s = "low".
Proof.
  unfold priority_of.
  destruct (Qle_bool HIGH_SCORE_THRESHOLD s); [now left|].
  destruct (Qle_bool MEDIUM_SCORE_THRESHOLD s); [right; now left | right; now right].
Qed.

(** X4.  Formatting fails exactly for a priority other than high, medium
    and low; with the priority the scorer itself assigned it never fails,
    for any course and profile. *)
Theorem format_recommendation_total (course : Course.t) (profile : BackgroundProfile.t)
    (program : Program.t) (other : Recommendation.t) (priority : string) :
  let r := _evaluate_course_intelligently course profile program in
  _format_recommendation r (Recommendation.priority r) <> None /\
  (_format_recommendation other priority = None <->
   ~ In priority ["high"; "medium"; "low"]).
Proof.
  cbv zeta. split.
  - unfold _evaluate_course_intelligently. cbn [Recommendation.priority].
    destruct (priority_of_cases (Acc.score (accumulate course profile)))
      as [-> | [-> | ->]]; discriminate.
  - unfold _format_recommendation, priority_emoji. cbn [assoc].
    destruct (String.eqb_spec priority "high") as [->|H1].
    { split; [discriminate | intros H; exfalso; apply H; simpl; tauto]. }
    destruct (String.eqb_spec priority "medium") as [->|H2].
    { split; [discriminate | intros H; exfalso; apply H; simpl; tauto]. }
    destruct (String.eqb_spec priority "low") as [->|H3].
    { split; [discriminate | intros H; exfalso; apply H; simpl; tauto]. }
    split; [|reflexivity]. intros _ [H|[H|[H|[]]]]; congruence.
Qed.

(** ** Ranking the courses of a programme *)

Section Ranking.

Implicit Types (r : Recommendation.t) (rs : list Recommendation.t).

Lemma insert_by_score_perm r rs : Permutation (insert_by_score r rs) (r :: rs).
Proof.
  induction rs as [|r' rs IH]; [reflexivity|].
  cbn [insert_by_score].
  destruct (Qle_bool (Recommendation.score r') (Recommendation.score r)); [reflexivity|].
  rewrite IH. apply perm_swap.
Qed.

Lemma sort_by_score_perm rs : Permutation (sort_by_score rs) rs.
Proof.
  induction rs as [|r rs IH]; [reflexivity|].
  unfold sort_by_score in *. cbn [fold_right].
  rewrite insert_by_score_perm. now rewrite IH.
Qed.

Lemma insert_by_score_sorted r rs :
  Sorted ranks_before rs -> Sorted ranks_before (insert_by_score r rs).
Proof.
  induction rs as [|r' rs IH]; intros Hsorted.
  - repeat constructor.
  - cbn [insert_by_score].
    destruct (Qle_bool (Recommendation.score r') (Recommendation.score r)) eqn:Hle.
    + constructor; [exact Hsorted|]. constructor. apply Qle_bool_iff. exact Hle.
    + assert (Hgt : ranks_before r' r).
      { unfold ranks_before. destruct (Qlt_le_dec (Recommendation.score r)
                                         (Recommendation.score r')) as [Hlt|Hge].
        - apply Qlt_le_weak. exact Hlt.
        - apply Qle_bool_iff in Hge. congruence. }
      apply Sorted_inv in Hsorted as [Htail Hhd].
      constructor; [exact (IH Htail)|].
      destruct rs as [|r'' rs]; cbn [insert_by_score].
      * constructor. exact Hgt.
      * destruct (Qle_bool (Recommendation.score r'') (Recommendation.score r)).
        -- constructor. exact Hgt.
        -- constructor. exact (HdRel_inv Hhd).
Qed.

Lemma sort_by_score_sorted rs : Sorted ranks_before (sort_by_score rs).
Proof.
  induction rs as [|r rs IH]; [constructor|].
  unfold sort_by_score in *. cbn [fold_right]. apply insert_by_score_sorted, IH.
Qed.

(** Recommendations of one score keep their order. *)
Lemma insert_by_score_stable (q : Q) r rs :
  List.filter (fun x => Qeq_bool (Recommendation.score x) q) (insert_by_score r rs) =
  List.filter (fun x => Qeq_bool (Recommendation.score x) q) (r :: rs).
Proof.
  induction rs as [|r' rs IH]; [reflexivity|].
  cbn [insert_by_score].
  destruct (Qle_bool (Recommendation.score r') (Recommendation.score r)) eqn:Hle;
    [reflexivity|].
  cbn [List.filter] in *. rewrite IH.
  destruct (Qeq_bool (Recommendation.score r) q) eqn:Hr; [|reflexivity].
  destruct (Qeq_bool (Recommendation.score r') q) eqn:Hr'; [|reflexivity].
  apply Qeq_bool_iff in Hr, Hr'.
  assert (Hle' : Qle_bool (Recommendation.score r') (Recommendation.score r) = true).
  { apply Qle_bool_iff. rewrite Hr, Hr'. apply Qle_refl. }
  congruence.
Qed.

Lemma sort_by_score_stable (q : Q) rs :
  List.filter (fun x => Qeq_bool (Recommendation.score x) q) (sort_by_score rs) =
  List.filter (fun x => Qeq_bool (Recommendation.score x) q) rs.
Proof.
  induction rs as [|r rs IH]; [reflexivity|].
  unfold sort_by_score in *. cbn [fold_right].
  rewrite insert_by_score_stable. cbn [List.filter]. now rewrite IH.
Qed.

(** No recommendation is dropped by the test [recommendation.score > 0]. *)
Lemma evaluated_score_positive (course : Course.t) (profile : BackgroundProfile.t)
    (program : Program.t) :
  negb (Qle_bool (Recommendation.score
                    (_evaluate_course_intelligently course profile program)) 0) = true.
Proof.
  apply negb_true_iff.
  destruct (Qle_bool _ 0) eqn:Hle; [|reflexivity].
  apply Qle_bool_iff in Hle.
  unfold _evaluate_course_intelligently in Hle. cbn [Recommendation.score] in Hle.
  rewrite floor_unreachable in Hle.
  pose proof (proj1 (accumulate_bounds course profile)) as Hlow.
  assert (Hmin : (1 <= Qmin (Acc.score (accumulate course profile)) 10.0)%Q)
    by (apply Q.min_glb; lra).
  lra.
Qed.

Lemma filter_all_true {A} (f : A -> bool) (xs : list A) :
  (forall x, In x xs -> f x = true) -> List.filter f xs = xs.
Proof.
  induction xs as [|x xs IH]; intros H; [reflexivity|].
  cbn [List.filter]. rewrite (H x (or_introl eq_refl)).
  f_equal. apply IH. intros y Hy. apply H. now right.
Qed.

(** The operation is the stable sort of the scored selection. *)
Lemma program_recommendations_unfold (program : Program.t)
    (profile : BackgroundProfile.t) :
  _get_program_recommendations program profile =
  sort_by_score
    (List.map (fun course => _evaluate_course_intelligently course profile program)
              (selected_courses program)).
Proof.
  unfold _get_program_recommendations. cbv zeta.
  fold is_elective.
  change (fun c : Course.t => negb (String.eqb (Course.course_type c) "обязательная"))
    with is_not_required.
  assert (Hsel :
    (if nonempty (if nonempty (List.filter is_elective (Program.courses program))
                  then List.filter is_elective (Program.courses program)
                  else List.filter is_not_required (Program.courses program))
     then (if nonempty (List.filter is_elective (Program.courses program))
           then List.filter is_elective (Program.courses program)
           else List.filter is_not_required (Program.courses program))
     else Program.courses program) = selected_courses program).
  { unfold selected_courses. cbv zeta.
    destruct (nonempty (List.filter is_elective (Program.courses program))) eqn:H1;
      [rewrite H1|]; reflexivity. }
  rewrite Hsel. f_equal. apply filter_all_true.
  intros r Hr. apply in_map_iff in Hr as (course & <- & _).
  apply evaluated_score_positive.
Qed.

Lemma evaluated_course (course : Course.t) (profile : BackgroundProfile.t)
    (program : Program.t) :
  Recommendation.course (_evaluate_course_intelligently course profile program) = course.
Proof. reflexivity. Qed.

Lemma selected_courses_incl (program : Program.t) :
  incl (selected_courses program) (Program.courses program).
Proof.
  unfold selected_courses. intros c Hc.
  destruct (nonempty (List.filter is_elective (Program.courses program)));
    [apply filter_In in Hc; tauto|].
  destruct (nonempty (List.filter is_not_required (Program.courses program)));
    [apply filter_In in Hc; tauto | exact Hc].
Qed.

Lemma nonempty_false {A} (xs : list A) : nonempty xs = false -> xs = [].
Proof. destruct xs; [reflexivity | discriminate]. Qed.

End Ranking.

(** X5.  For every programme and profile the ranking contains every
    selected course exactly once: the recommended courses are a
    permutation of the selection (the elective and optional courses if
    there are any, else the courses that are not required, else all
    courses), no course is dropped by the positive-score test, and a
    programme with courses always gets a recommendation. *)
Theorem ranking_covers_selection (program : Program.t) (profile : BackgroundProfile.t) :
  let ranking := _get_program_recommendations program profile in
  Permutation (List.map Recommendation.course ranking) (selected_courses program) /\
  List.length ranking = List.length (selected_courses program) /\
  (Program.courses program <> [] -> ranking <> []).
Proof.
  cbv zeta. rewrite program_recommendations_unfold.
  set (scored := List.map _ (selected_courses program)).
  assert (Hcourses : List.map Recommendation.course scored = selected_courses program).
  { unfold scored. rewrite List.map_map.
    rewrite (List.map_ext _ (fun c => c)) by (intros; apply evaluated_course).
    apply List.map_id. }
  assert (Hlen : List.length (sort_by_score scored)
                 = List.length (selected_courses program)).
  { rewrite (Permutation_length (sort_by_score_perm scored)).
    unfold scored. apply List.length_map. }
  split; [|split].
  - rewrite <- Hcourses. apply Permutation_map, sort_by_score_perm.
  - exact Hlen.
  - intros Hne Hnil. rewrite Hnil in Hlen. cbn [List.length] in Hlen.
    apply Hne. unfold selected_courses in Hlen.
    destruct (nonempty (List.filter is_elective (Program.courses program))) eqn:H1.
    { destruct (List.filter is_elective (Program.courses program));
        [discriminate H1 | discriminate Hlen]. }
    destruct (nonempty (List.filter is_not_required (Program.courses program))) eqn:H2.
    { destruct (List.filter is_not_required (Program.courses program));
        [discriminate H2 | discriminate Hlen]. }
    destruct (Program.courses program); [reflexivity | discriminate Hlen].
Qed.

(** X6.  The ranking is in descending order of score, and recommendations
    of equal score keep the order their courses have in the catalogue. *)
Theorem ranking_sorted_and_stable (program : Program.t) (profile : BackgroundProfile.t)
    (q : Q) :
  let ranking := _get_program_recommendations program profile in
  Sorted ranks_before ranking /\
  List.filter (fun r => Qeq_bool (Recommendation.score r) q) ranking =
  List.filter (fun r => Qeq_bool (Recommendation.score r) q)
    (List.map (fun course => _evaluate_course_intelligently course profile program)
              (selected_courses program)).
Proof.
  cbv zeta. rewrite program_recommendations_unfold.
  split; [apply sort_by_score_sorted | apply sort_by_score_stable].
Qed.

(** X7.  Every recommended course is a course of the programme, and a
    required course is recommended only when every course of the
    programme is required. *)
Theorem required_courses_last_resort (program : Program.t)
    (profile : BackgroundProfile.t) (r : Recommendation.t) :
  In r (_get_program_recommendations program profile) ->
  In (Recommendation.course r) (Program.courses program) /\
  (Course.course_type (Recommendation.course r) = "обязательная" ->
   forall course, In course (Program.courses program) ->
     Course.course_type course = "обязательная").
Proof.
  intros Hr. rewrite program_recommendations_unfold in Hr.
  apply (Permutation_in _ (sort_by_score_perm _)) in Hr.
  apply in_map_iff in Hr as (c & <- & Hc). rewrite evaluated_course.
  split; [exact (selected_courses_incl program c Hc)|].
  intros Hrequired course Hcourse.
  unfold selected_courses in Hc.
  destruct (nonempty (List.filter is_elective (Program.courses program))) eqn:H1.
  { apply filter_In in Hc as [_ Hel]. unfold is_elective in Hel.
    rewrite Hrequired in Hel. discriminate Hel. }
  destruct (nonempty (List.filter is_not_required (Program.courses program))) eqn:H2.
  { apply filter_In in Hc as [_ Hnr]. unfold is_not_required in Hnr.
    rewrite Hrequired in Hnr. discriminate Hnr. }
  apply nonempty_false in H2.
  destruct (String.eqb_spec (Course.course_type course) "обязательная") as [|Hne];
    [assumption|].
  assert (Hin : In course (List.filter is_not_required (Program.courses program))).
  { apply filter_In. split; [exact Hcourse|]. unfold is_not_required.
    apply negb_true_iff. apply String.eqb_neq. exact Hne. }
  rewrite H2 in Hin. destruct Hin.
Qed.

(** ** Search by keywords and the look-ups by name *)

Section KeywordSearch.

Implicit Types (programs : list Program.t) (program : Program.t) (keywords : string).

Lemma some_course_matches_existsb (keywords_lower : string) (courses : list Course.t) :
  some_course_matches keywords_lower courses =
  existsb (fun course => str_in keywords_lower (lower (Course.name course))) courses.
Proof.
  induction courses as [|course rest IH]; [reflexivity|].
  cbn [some_course_matches existsb]. rewrite IH.
  destruct (str_in keywords_lower (lower (Course.name course))); reflexivity.
Qed.

Lemma program_by_keywords_cons programs program keywords :
  get_program_by_keywords (program :: programs) keywords =
  if keyword_matches keywords program
  then program :: get_program_by_keywords programs keywords
  else get_program_by_keywords programs keywords.
Proof.
  cbn [get_program_by_keywords]. unfold keyword_matches.
  rewrite some_course_matches_existsb.
  destruct (str_in (lower keywords) (lower (Program.name program))); [reflexivity|].
  destruct (str_in (lower keywords) (lower (Program.description program)));
    reflexivity.
Qed.

Lemma name_match_is_keyword_match keywords program :
  name_matches keywords program = true -> keyword_matches keywords program = true.
Proof. unfold name_matches, keyword_matches. intros ->. reflexivity. Qed.

End KeywordSearch.

(** X8.  The keyword search returns, in catalogue order and each at most
    once, exactly the programmes whose name, description or some course
    name contains the query without regard to case. *)
Theorem keyword_search_is_filter (programs : list Program.t) (keywords : string) :
  get_program_by_keywords programs keywords
  = List.filter (keyword_matches keywords) programs.
Proof.
  induction programs as [|program rest IH]; [reflexivity|].
  rewrite program_by_keywords_cons. cbn [List.filter].
  destruct (keyword_matches keywords program); now rewrite IH.
Qed.

(** X9.  The look-up by name agrees with the keyword search: the
    programme it finds is the first programme of the search result whose
    name matches, so when the search finds nothing the detail, career and
    admission operations all answer with the not-found sentinel. *)
Theorem lookup_within_keyword_search (programs : list Program.t) (query : string) :
  _find_program_by_name programs query
    = List.find (name_matches query) (get_program_by_keywords programs query) /\
  (get_program_by_keywords programs query = [] ->
   get_detailed_program_info programs query = not_found /\
   get_career_paths programs query = not_found /\
   get_admission_info programs query = not_found).
Proof.
  assert (Hfind : _find_program_by_name programs query
                  = List.find (name_matches query)
                      (get_program_by_keywords programs query)).
  { induction programs as [|program rest IH]; [reflexivity|].
    rewrite find_program_cons, program_by_keywords_cons.
    destruct (name_matches query program) eqn:Hname.
    - rewrite (name_match_is_keyword_match _ _ Hname). cbn [List.find].
      now rewrite Hname.
    - destruct (keyword_matches query program); [cbn [List.find]; rewrite Hname|];
        exact IH. }
  split; [exact Hfind|].
  intros Hnone. rewrite Hnone in Hfind. cbn [List.find] in Hfind.
  unfold get_detailed_program_info, get_career_paths, get_admission_info.
  rewrite Hfind. repeat split.
Qed.

(** ** Career paths and admission *)

Section Sentinel.

Lemma ai_career_info_not_sentinel : ai_career_info <> not_found.
Proof.
  intros H. apply (f_equal (String.get 0)) in H. vm_compute in H. discriminate.
Qed.

Lemma product_career_info_not_sentinel : product_career_info <> not_found.
Proof.
  intros H. apply (f_equal (String.get 0)) in H. vm_compute in H. discriminate.
Qed.

Lemma no_career_info_not_sentinel : no_career_info <> not_found.
Proof.
  intros H. apply (f_equal String.length) in H. vm_compute in H. discriminate.
Qed.

Lemma admission_text_not_sentinel (program : Program.t) :
  admission_text program <> not_found.
Proof. unfold admission_text, nl, not_found. rewrite !append_cons. discriminate. Qed.

End Sentinel.

(** X10.  The detail, career-path and admission operations answer with
    the not-found sentinel for exactly the same queries: those that no
    programme name contains, without regard to case. *)
Theorem lookups_agree_on_not_found (programs : list Program.t) (query : string) :
  let unmatched :=
    forall program, In program programs -> name_matches query program = false in
  (get_career_paths programs query = not_found <-> unmatched) /\
  (get_admission_info programs query = not_found <-> unmatched) /\
  (get_detailed_program_info programs query = not_found <-> unmatched).
Proof.
  cbv zeta. rewrite <- find_program_none.
  unfold get_career_paths, get_admission_info, get_detailed_program_info.
  destruct (_find_program_by_name programs query) as [program|].
  - assert (Hcareer :
      (if str_in "искусственный интеллект" (lower (Program.name program))
       then ai_career_info
       else if str_in "product" (lower (Program.name program))
            then product_career_info else no_career_info) <> not_found).
    { destruct (str_in "искусственный интеллект" (lower (Program.name program)));
        [exact ai_career_info_not_sentinel|].
      destruct (str_in "product" (lower (Program.name program)));
        [exact product_career_info_not_sentinel | exact no_career_info_not_sentinel]. }
    split; [|split]; (split; [intros H; exfalso | discriminate]).
    + exact (Hcareer H).
    + exact (admission_text_not_sentinel program H).
    + exact (program_info_not_sentinel program H).
  - split; [|split]; split; reflexivity.
Qed.

(** ** The comparison report *)

(** X11.  The comparison report is the header followed by one paragraph
    per programme in catalogue order: the bare header for the empty
    catalogue, and the report of a concatenated catalogue is the report of
    the first part followed by the paragraphs of the second. *)
Theorem comparison_is_paragraphs (programs more : list Program.t) :
  get_program_comparison [] = comparison_header /\
  get_program_comparison programs
    = comparison_header +:+ concat_lines (List.map comparison_paragraph programs) /\
  get_program_comparison (programs ++ more)
    = get_program_comparison programs
      +:+ concat_lines (List.map comparison_paragraph more).
Proof.
  assert (Hfold : forall ps report,
    fold_left (fun comparison program => comparison +:+ comparison_paragraph program)
              ps report
    = report +:+ concat_lines (List.map comparison_paragraph ps)).
  { induction ps as [|p ps IH]; intros report.
    - cbn. now rewrite append_nil_r.
    - cbn [fold_left List.map concat_lines fold_right]. rewrite IH.
      now rewrite append_assoc. }
  unfold get_program_comparison.
  split; [reflexivity|]. split; [apply Hfold|].
  rewrite List.fold_left_app. apply Hfold.
Qed.

(** ** The cluster catalogue after construction *)

Section BuiltClusters.

Implicit Types (clusters : gmap string CourseCluster.t) (course : Course.t).

(** The assignment is an append to the target cluster, or nothing. *)
Lemma assign_by_target course clusters :
  _assign_course_to_cluster course clusters =
  match cluster_target (lower (Course.name course)) with
  | Some key => cluster_append key course clusters
  | None => Some clusters
  end.
Proof.
  unfold _assign_course_to_cluster, cluster_target, first_matching_group, group_order,
    matches_group.
  cbn [List.find group_keywords].
  repeat match goal with
  | |- context [if ?b then _ else _] => destruct b
  end; reflexivity.
Qed.

Lemma cluster_target_key (cl key : string) :
  cluster_target cl = Some key -> In key cluster_keys.
Proof.
  unfold cluster_target.
  repeat match goal with
  | |- context [match ?b with _ => _ end] => destruct b
  end; intros [= <-]; cluster_key.
Qed.

Lemma empty_clusters_no_courses (key : string) (cluster : CourseCluster.t) :
  empty_clusters !! key = Some cluster -> CourseCluster.courses cluster = [].
Proof.
  intros Hk.
  destruct (decide (key = "ai_core")) as [->|?]; [vm_compute in Hk; now inversion Hk|].
  destruct (decide (key = "machine_learning")) as [->|?];
    [vm_compute in Hk; now inversion Hk|].
  destruct (decide (key = "deep_learning")) as [->|?];
    [vm_compute in Hk; now inversion Hk|].
  destruct (decide (key = "nlp")) as [->|?]; [vm_compute in Hk; now inversion Hk|].
  destruct (decide (key = "computer_vision")) as [->|?];
    [vm_compute in Hk; now inversion Hk|].
  destruct (decide (key = "business_ai")) as [->|?];
    [vm_compute in Hk; now inversion Hk|].
  destruct (decide (key = "product_management")) as [->|?];
    [vm_compute in Hk; now inversion Hk|].
  destruct (decide (key = "data_analytics")) as [->|?];
    [vm_compute in Hk; now inversion Hk|].
  unfold empty_clusters in Hk.
  rewrite !lookup_insert_ne, lookup_empty in Hk by congruence. discriminate.
Qed.

Lemma built_from_start : built_from [] empty_clusters.
Proof.
  intros key. destruct (empty_clusters !! key) as [start|] eqn:Hstart; [|exact I].
  split; [repeat split | exact (empty_clusters_no_courses key start Hstart)].
Qed.

Lemma targets_none course key :
  cluster_target (lower (Course.name course)) = None -> targets key course = false.
Proof. unfold targets. now intros ->. Qed.

Lemma targets_some course key key' :
  cluster_target (lower (Course.name course)) = Some key ->
  targets key' course = String.eqb key key'.
Proof. unfold targets. now intros ->. Qed.

Lemma built_from_keep seen course clusters :
  cluster_target (lower (Course.name course)) = None ->
  built_from seen clusters -> built_from (seen ++ [course]) clusters.
Proof.
  intros Htarget Hinv key. specialize (Hinv key).
  destruct (empty_clusters !! key), (clusters !! key); try exact Hinv.
  destruct Hinv as [Hdata Hcourses]. split; [exact Hdata|].
  rewrite List.filter_app. cbn [List.filter]. rewrite (targets_none _ _ Htarget).
  now rewrite List.app_nil_r.
Qed.

Lemma built_from_append seen course clusters key cluster :
  cluster_target (lower (Course.name course)) = Some key ->
  clusters !! key = Some cluster ->
  built_from seen clusters ->
  built_from (seen ++ [course]) (<[key := CourseCluster.append course cluster]> clusters).
Proof.
  intros Htarget Hcluster Hinv key'. pose proof (Hinv key') as Hkey'.
  destruct (decide (key = key')) as [<-|Hne].
  - rewrite lookup_insert_eq. rewrite Hcluster in Hkey'.
    destruct (empty_clusters !! key) as [start|]; [|exact Hkey'].
    destruct Hkey' as [Hdata Hcourses]. split; [exact Hdata|].
    unfold CourseCluster.append. cbn [CourseCluster.courses].
    rewrite List.filter_app, Hcourses. cbn [List.filter].
    rewrite (targets_some _ _ key Htarget), String.eqb_refl. reflexivity.
  - rewrite lookup_insert_ne by exact Hne.
    destruct (empty_clusters !! key'), (clusters !! key'); try exact Hkey'.
    destruct Hkey' as [Hdata Hcourses]. split; [exact Hdata|].
    rewrite List.filter_app. cbn [List.filter]. rewrite (targets_some _ _ key' Htarget).
    destruct (String.eqb_spec key key') as [Heq|_]; [contradiction|].
    now rewrite List.app_nil_r.
Qed.

Lemma built_from_lookup seen clusters key :
  built_from seen clusters -> In key cluster_keys ->
  exists cluster, clusters !! key = Some cluster.
Proof.
  intros Hinv Hkey. specialize (Hinv key).
  destruct (complete_lookup empty_clusters key empty_clusters_complete Hkey)
    as [start Hstart].
  rewrite Hstart in Hinv.
  destruct (clusters !! key) as [cluster|]; [now exists cluster | destruct Hinv].
Qed.

Lemma assign_course_built seen course clusters :
  built_from seen clusters ->
  exists clusters',
    _assign_course_to_cluster course clusters = Some clusters' /\
    built_from (seen ++ [course]) clusters'.
Proof.
  intros Hinv. rewrite assign_by_target.
  destruct (cluster_target (lower (Course.name course))) as [key|] eqn:Htarget.
  - destruct (built_from_lookup seen clusters key Hinv (cluster_target_key _ _ Htarget))
      as [cluster Hcluster].
    unfold cluster_append. rewrite Hcluster. eexists. split; [reflexivity|].
    exact (built_from_append seen course clusters key cluster Htarget Hcluster Hinv).
  - exists clusters. split; [reflexivity|].
    exact (built_from_keep seen course clusters Htarget Hinv).
Qed.

Lemma assign_courses_built (courses seen : list Course.t) clusters :
  built_from seen clusters ->
  exists clusters',
    assign_courses courses clusters = Some clusters' /\
    built_from (seen ++ courses) clusters'.
Proof.
  revert seen clusters. induction courses as [|course rest IH]; intros seen clusters Hinv.
  - exists clusters. rewrite List.app_nil_r. split; [reflexivity | exact Hinv].
  - destruct (assign_course_built seen course clusters Hinv) as (m & Hrun & Hm).
    cbn [assign_courses]. rewrite Hrun.
    destruct (IH (seen ++ [course]) m Hm) as (m' & Hrun' & Hm').
    exists m'. split; [exact Hrun'|]. now rewrite <- List.app_assoc in Hm'.
Qed.

Lemma assign_programs_built (programs : list Program.t) (seen : list Course.t) clusters :
  built_from seen clusters ->
  exists clusters',
    assign_programs programs clusters = Some clusters' /\
    built_from (seen ++ catalogue_courses programs) clusters'.
Proof.
  revert seen clusters.
  induction programs as [|program rest IH]; intros seen clusters Hinv.
  - exists clusters. unfold catalogue_courses. cbn [List.map List.concat].
    rewrite List.app_nil_r. split; [reflexivity | exact Hinv].
  - destruct (assign_courses_built (Program.courses program) seen clusters Hinv)
      as (m & Hrun & Hm).
    cbn [assign_programs]. rewrite Hrun.
    destruct (IH (seen ++ Program.courses program) m Hm) as (m' & Hrun' & Hm').
    exists m'. split; [exact Hrun'|].
    unfold catalogue_courses in *. cbn [List.map List.concat].
    now rewrite <- List.app_assoc in Hm'.
Qed.

End BuiltClusters.

(** X12.  Building the cluster catalogue never fails, and afterwards the
    course list of each of the eight clusters is exactly the sequence of
    catalogue courses that the assigner sends to that cluster, in
    catalogue order and with a course repeated as often as the catalogue
    lists it; the name, difficulty level, prerequisites and career titles
    of the clusters are those of the initial catalogue, and no key is
    added or removed. *)
Theorem built_clusters_characterised (programs : list Program.t) :
  exists clusters,
    _build_course_clusters programs = Some clusters /\
    (forall key, clusters !! key = None <-> empty_clusters !! key = None) /\
    (forall key cluster, clusters !! key = Some cluster ->
       CourseCluster.courses cluster
         = List.filter (targets key) (catalogue_courses programs) /\
       exists start, empty_clusters !! key = Some start /\
                     same_cluster_data cluster start).
Proof.
  destruct (assign_programs_built programs [] empty_clusters built_from_start)
    as (clusters & Hrun & Hinv).
  exists clusters. split; [exact Hrun|]. cbn [app] in Hinv. split.
  - intros key. specialize (Hinv key).
    destruct (empty_clusters !! key), (clusters !! key); try destruct Hinv;
      split; congruence.
  - intros key cluster Hcluster. specialize (Hinv key). rewrite Hcluster in Hinv.
    destruct (empty_clusters !! key) as [start|]; [|destruct Hinv].
    destruct Hinv as [Hdata Hcourses]. split; [exact Hcourses|].
    exists start. split; [reflexivity | exact Hdata].
Qed.

(** X13.  After construction the clusters are pairwise disjoint and hold
    catalogue courses only: a course found in the lists of two clusters is
    found under one and the same key, and every course of a cluster is a
    course of some programme. *)
Theorem built_clusters_disjoint (programs : list Program.t)
    (clusters : gmap string CourseCluster.t) (key1 key2 : string)
    (cluster1 cluster2 : CourseCluster.t) (course : Course.t) :
  _build_course_clusters programs = Some clusters ->
  clusters !! key1 = Some cluster1 ->
  clusters !! key2 = Some cluster2 ->
  In course (CourseCluster.courses cluster1) ->
  In course (CourseCluster.courses cluster2) ->
  key1 = key2 /\
  exists program, In program programs /\ In course (Program.courses program).
Proof.
  intros Hrun H1 H2 Hin1 Hin2.
  destruct (assign_programs_built programs [] empty_clusters built_from_start)
    as (clusters' & Hrun' & Hinv).
  unfold _build_course_clusters in Hrun. rewrite Hrun in Hrun'.
  injection Hrun' as <-. cbn [app] in Hinv.
  pose proof (Hinv key1) as Hk1. pose proof (Hinv key2) as Hk2.
  rewrite H1 in Hk1. rewrite H2 in Hk2.
  destruct (empty_clusters !! key1); [|destruct Hk1].
  destruct (empty_clusters !! key2); [|destruct Hk2].
  destruct Hk1 as [_ Hc1]. destruct Hk2 as [_ Hc2].
  rewrite Hc1 in Hin1. rewrite Hc2 in Hin2.
  apply filter_In in Hin1 as [Hcat Ht1]. apply filter_In in Hin2 as [_ Ht2].
  unfold targets in Ht1, Ht2.
  destruct (cluster_target (lower (Course.name course))) as [key|]; [|discriminate].
  apply String.eqb_eq in Ht1, Ht2. split; [congruence|].
  unfold catalogue_courses in Hcat. apply in_concat in Hcat as (cs & Hcs & Hc).
  apply in_map_iff in Hcs as (program & <- & Hprogram).
  exists program. split; assumption.
Qed.

(** ** Cluster guidance *)

(** X14.  The cluster guidance is never the empty string, and when no
    cluster of the catalogue has a course it is the default advice,
    whatever the profile. *)
Theorem cluster_guidance_never_empty (clusters : gmap string CourseCluster.t)
    (program : Program.t) (profile : BackgroundProfile.t) :
  _get_cluster_recommendations clusters program profile <> EmptyString /\
  ((forall key, cluster_has_courses clusters key = false) ->
   _get_cluster_recommendations clusters program profile = cluster_default_advice).
Proof.
  split.
  - unfold _get_cluster_recommendations. cbv zeta.
    match goal with
    | |- (if String.eqb ?r _ then _ else _) <> _ =>
        destruct (String.eqb_spec r EmptyString) as [_|Hne];
        [unfold cluster_default_advice; rewrite append_cons; discriminate | exact Hne]
    end.
  - intros Hnone. unfold _get_cluster_recommendations. cbv zeta.
    rewrite !Hnone, andb_false_r.
    destruct (nonempty (BackgroundProfile.programming_skills profile)
              && nonempty (BackgroundProfile.math_skills profile)),
      (nonempty (BackgroundProfile.business_skills profile)); reflexivity.
Qed.

Lemma cluster_guidance_never_empty_witness :
  (forall key, cluster_has_courses empty_clusters key = false) /\
  _get_cluster_recommendations empty_clusters scenario1_program goal_profile
  = cluster_default_advice.
Proof.
  assert (Hnone : forall key, cluster_has_courses empty_clusters key = false).
  { intros key. unfold cluster_has_courses.
    destruct (empty_clusters !! key) as [cluster|] eqn:Hcluster; [|reflexivity].
    now rewrite (empty_clusters_no_courses key cluster Hcluster). }
  split; [exact Hnone|].
  apply (cluster_guidance_never_empty empty_clusters scenario1_program goal_profile).
  exact Hnone.
Defined.

(** ** The course index *)

Section CourseIndex.

Implicit Types (index : gmap string (list (Course.t * Program.t)))
  (seen : list (Course.t * Program.t)) (program : Program.t) (course : Course.t).

Lemma index_entry_entries seen key :
  match index_entry seen key with
  | Some entries => entries
  | None => []
  end = List.filter (filed_under key) seen.
Proof.
  unfold index_entry. destruct (List.filter (filed_under key) seen); reflexivity.
Qed.

Lemma filed_under_self program course :
  filed_under (lower (Course.name course)) (course, program) = true.
Proof. unfold filed_under. cbn [fst]. apply String.eqb_refl. Qed.

Lemma filed_under_other program course key :
  lower (Course.name course) <> key -> filed_under key (course, program) = false.
Proof. unfold filed_under. cbn [fst]. intros H. now apply String.eqb_neq. Qed.

Lemma index_add_entry index seen program course :
  (forall key, index !! key = index_entry seen key) ->
  forall key, index_add program index course !! key
              = index_entry (seen ++ [(course, program)]) key.
Proof.
  intros Hinv key. unfold index_add. cbv zeta.
  destruct (decide (lower (Course.name course) = key)) as [<-|Hne].
  - rewrite lookup_insert_eq, Hinv, index_entry_entries.
    unfold index_entry. rewrite List.filter_app. cbn [List.filter].
    rewrite filed_under_self.
    destruct (List.filter _ seen); reflexivity.
  - rewrite lookup_insert_ne by exact Hne. rewrite Hinv.
    unfold index_entry. rewrite List.filter_app. cbn [List.filter].
    rewrite (filed_under_other _ _ _ Hne).
    now rewrite List.app_nil_r.
Qed.

Lemma index_courses_entry (courses : list Course.t) index seen program :
  (forall key, index !! key = index_entry seen key) ->
  forall key, fold_left (index_add program) courses index !! key
              = index_entry (seen ++ List.map (fun c => (c, program)) courses) key.
Proof.
  revert index seen. induction courses as [|course rest IH]; intros index seen Hinv key.
  - cbn. now rewrite List.app_nil_r.
  - cbn [fold_left List.map].
    rewrite (IH _ (seen ++ [(course, program)]) (index_add_entry _ _ _ _ Hinv)).
    now rewrite <- List.app_assoc.
Qed.

Lemma index_programs_entry (programs : list Program.t) index seen :
  (forall key, index !! key = index_entry seen key) ->
  forall key,
    fold_left (fun index program =>
                 fold_left (index_add program) (Program.courses program) index)
              programs index !! key
    = index_entry (seen ++ catalogue_pairs programs) key.
Proof.
  revert index seen. induction programs as [|program rest IH]; intros index seen Hinv key.
  - cbn. now rewrite List.app_nil_r.
  - cbn [fold_left]. unfold catalogue_pairs. cbn [List.flat_map].
    rewrite List.app_assoc.
    apply IH. apply index_courses_entry, Hinv.
Qed.

Lemma in_catalogue_pairs (programs : list Program.t) program course :
  In (course, program) (catalogue_pairs programs) <->
  In program programs /\ In course (Program.courses program).
Proof.
  unfold catalogue_pairs. rewrite in_flat_map. split.
  - intros (p & Hp & Hin). apply in_map_iff in Hin as (c & [= -> ->] & Hc). tauto.
  - intros [Hp Hc]. exists program. split; [exact Hp|].
    apply in_map_iff. exists course. tauto.
Qed.

End CourseIndex.

(** X15.  The course index files every course of every programme under
    its lower-cased name and nothing else: a key is present exactly when
    some course has that lower-cased name, its entry lists the (course,
    programme) pairs with that name in catalogue order, and so looking up
    the lower-cased name of any catalogue course finds the course with its
    programme. *)
Theorem course_index_complete (programs : list Program.t) :
  (forall key,
     _build_course_index programs !! key = index_entry (catalogue_pairs programs) key) /\
  (forall program course,
     In program programs -> In course (Program.courses program) ->
     exists entries,
       _build_course_index programs !! lower (Course.name course) = Some entries /\
       In (course, program) entries) /\
  (forall key entries course program,
     _build_course_index programs !! key = Some entries ->
     In (course, program) entries ->
     key = lower (Course.name course) /\
     In program programs /\ In course (Program.courses program)).
Proof.
  assert (Hentry : forall key,
    _build_course_index programs !! key = index_entry (catalogue_pairs programs) key).
  { intros key. unfold _build_course_index.
    rewrite (index_programs_entry programs ∅ []); [reflexivity|].
    intros k. rewrite lookup_empty. reflexivity. }
  split; [exact Hentry|]. split.
  - intros program course Hp Hc. rewrite Hentry. unfold index_entry.
    assert (Hin : In (course, program)
                    (List.filter (filed_under (lower (Course.name course)))
                                 (catalogue_pairs programs))).
    { apply filter_In. split; [now apply in_catalogue_pairs|].
      apply filed_under_self. }
    destruct (List.filter _ (catalogue_pairs programs)) as [|e es]; [destruct Hin|].
    exists (e :: es). split; [reflexivity | exact Hin].
  - intros key entries course program Hlookup Hin.
    rewrite Hentry in Hlookup. unfold index_entry in Hlookup.
    destruct (nonempty _); [|discriminate]. injection Hlookup as <-.
    apply filter_In in Hin as [Hpair Hkey].
    unfold filed_under in Hkey. cbn [fst] in Hkey. apply String.eqb_eq in Hkey.
    split; [now symmetry | now apply in_catalogue_pairs].
Qed.

(** ** Splitting a long message *)

Section Splitting.

Implicit Types (s text : string) (n limit : nat).

Lemma take_chars_cons n (c : ascii) s :
  take_chars n (String c s) =
  if is_continuation c then String c (take_chars n s)
  else match n with
       | O => EmptyString
       | S n' => String c (take_chars n' s)
       end.
Proof. destruct n; reflexivity. Qed.

Lemma drop_chars_cons n (c : ascii) s :
  drop_chars n (String c s) =
  if is_continuation c then drop_chars n s
  else match n with
       | O => String c s
       | S n' => drop_chars n' s
       end.
Proof. destruct n; reflexivity. Qed.

Lemma char_len_cons (c : ascii) s :
  char_len (String c s) = if is_continuation c then char_len s else S (char_len s).
Proof. reflexivity. Qed.

(** A slice and the rest make up the text. *)
Lemma take_drop_chars n s : take_chars n s +:+ drop_chars n s = s.
Proof.
  revert n. induction s as [|c s IH]; intros n; [now destruct n|].
  rewrite take_chars_cons, drop_chars_cons.
  destruct (is_continuation c); [rewrite append_cons; now rewrite IH|].
  destruct n; [reflexivity|]. rewrite append_cons. now rewrite IH.
Qed.

Lemma starts_char_drop n s : starts_char (drop_chars n s) = true.
Proof.
  revert n. induction s as [|c s IH]; intros n; [now destruct n|].
  rewrite drop_chars_cons. destruct (is_continuation c) eqn:Hc; [apply IH|].
  destruct n; [cbn [starts_char]; now rewrite Hc | apply IH].
Qed.

Lemma take_chars_zero s : starts_char s = true -> take_chars 0 s = EmptyString.
Proof.
  destruct s as [|c s]; [reflexivity|]. cbn [starts_char]. intros H.
  apply negb_true_iff in H. rewrite take_chars_cons, H. reflexivity.
Qed.

Lemma drop_chars_zero s : starts_char s = true -> drop_chars 0 s = s.
Proof.
  destruct s as [|c s]; [reflexivity|]. cbn [starts_char]. intros H.
  apply negb_true_iff in H. rewrite drop_chars_cons, H. reflexivity.
Qed.

Lemma char_len_take n s : char_len (take_chars n s) = Nat.min n (char_len s).
Proof.
  revert n. induction s as [|c s IH]; intros n; [now destruct n|].
  rewrite take_chars_cons, char_len_cons.
  destruct (is_continuation c) eqn:Hc.
  - rewrite char_len_cons, Hc. apply IH.
  - destruct n; [reflexivity|]. rewrite char_len_cons, Hc, IH. reflexivity.
Qed.

Lemma char_len_drop n s : char_len (drop_chars n s) = (char_len s - n)%nat.
Proof.
  revert n. induction s as [|c s IH]; intros n; [now destruct n|].
  rewrite drop_chars_cons, char_len_cons.
  destruct (is_continuation c) eqn:Hc; [apply IH|].
  destruct n; [rewrite char_len_cons, Hc; reflexivity | apply IH].
Qed.

Lemma take_chars_all n s : (char_len s <= n)%nat -> take_chars n s = s.
Proof.
  revert n. induction s as [|c s IH]; intros n Hlen; [now destruct n|].
  rewrite take_chars_cons. rewrite char_len_cons in Hlen.
  destruct (is_continuation c); [now rewrite IH|].
  destruct n; [lia|]. rewrite IH by lia. reflexivity.
Qed.

Lemma drop_chars_add a b s : drop_chars b (drop_chars a s) = drop_chars (a + b) s.
Proof.
  revert a. induction s as [|c s IH]; intros a; [now destruct a, b|].
  rewrite (drop_chars_cons a), (drop_chars_cons (a + b)).
  destruct (is_continuation c) eqn:Hc; [apply IH|].
  destruct a; [|apply IH]. cbn [Nat.add]. rewrite drop_chars_cons, Hc. reflexivity.
Qed.

Lemma take_chars_add a b s :
  take_chars (a + b) s = take_chars a s +:+ take_chars b (drop_chars a s).
Proof.
  revert a. induction s as [|c s IH]; intros a; [now destruct a, b|].
  rewrite (take_chars_cons (a + b)), (take_chars_cons a), (drop_chars_cons a).
  destruct (is_continuation c) eqn:Hc; [rewrite append_cons; now rewrite IH|].
  destruct a.
  - cbn [Nat.add]. rewrite append_nil_l, take_chars_cons, Hc. reflexivity.
  - cbn [Nat.add]. rewrite append_cons. now rewrite IH.
Qed.

(** The parts from the [k0]-th on, [count] of them, make up one slice. *)
Lemma parts_concat limit text (count k0 : nat) :
  concat_lines
    (List.map (fun i => slice_chars i limit text)
              (List.map (fun k => (k * limit)%nat) (List.seq k0 count)))
  = take_chars (count * limit) (drop_chars (k0 * limit) text).
Proof.
  revert k0. induction count as [|count IH]; intros k0.
  - cbn. symmetry. apply take_chars_zero, starts_char_drop.
  - cbn [List.seq List.map concat_lines fold_right].
    change (fold_right String.append EmptyString ?l) with (concat_lines l).
    rewrite IH. unfold slice_chars.
    replace (S count * limit)%nat with (limit + count * limit)%nat by lia.
    rewrite take_chars_add, drop_chars_add.
    replace (S k0 * limit)%nat with (k0 * limit + limit)%nat by lia.
    reflexivity.
Qed.

Lemma range_covers (stop step : nat) :
  (0 < step)%nat -> (stop <= (stop + step - 1) / step * step)%nat.
Proof.
  intros Hstep.
  pose proof (Nat.div_mod_eq (stop + step - 1) step) as Hdiv.
  pose proof (Nat.mod_upper_bound (stop + step - 1) step) as Hmod.
  nia.
Qed.

Lemma range_below (stop step k : nat) :
  (0 < step)%nat -> (k < (stop + step - 1) / step)%nat -> (k * step < stop)%nat.
Proof.
  intros Hstep Hk.
  pose proof (Nat.div_mod_eq (stop + step - 1) step) as Hdiv.
  nia.
Qed.

End Splitting.

(** X17.  For a positive limit the parts of a text, put together again in
    order, are the text, and every part has at least one and at most
    [limit] characters. *)
Theorem message_parts_rebuild (limit : nat) (text : string) :
  (0 < limit)%nat -> starts_char text = true ->
  concat_lines (message_parts limit text) = text /\
  List.Forall (fun part => (1 <= char_len part <= limit)%nat) (message_parts limit text).
Proof.
  intros Hlimit Hstart. unfold message_parts, range_step. split.
  - rewrite parts_concat. cbn [Nat.mul]. rewrite (drop_chars_zero text Hstart).
    apply take_chars_all, range_covers, Hlimit.
  - apply List.Forall_forall. intros part Hpart.
    apply in_map_iff in Hpart as (i & <- & Hi).
    apply in_map_iff in Hi as (k & <- & Hk). apply in_seq in Hk.
    pose proof (range_below (char_len text) limit k Hlimit ltac:(lia)) as Hbelow.
    unfold slice_chars. rewrite char_len_take, char_len_drop. lia.
Qed.

Lemma message_parts_rebuild_witness :
  (0 < 4096)%nat /\ starts_char long_text = true /\
  concat_lines (message_parts 4096 long_text) = long_text.
Proof.
  split; [lia|]. split; [reflexivity|].
  apply (message_parts_rebuild 4096 long_text); [lia | reflexivity].
Defined.

(** X18.  What a handler sends for a report, put together again, is the
    report, and no message has more than 4096 characters. *)
Theorem outgoing_messages_rebuild (text : string) :
  starts_char text = true ->
  concat_lines (outgoing_messages text) = text /\
  List.Forall (fun message => (char_len message <= MAX_MESSAGE_LENGTH)%nat)
              (outgoing_messages text).
Proof.
  intros Hstart. unfold outgoing_messages.
  destruct (Nat.ltb_spec MAX_MESSAGE_LENGTH (char_len text)) as [Hlong|Hfits].
  - assert (Hlimit : (0 < MAX_MESSAGE_LENGTH)%nat) by (unfold MAX_MESSAGE_LENGTH; lia).
    unfold message_parts, range_step. split.
    + rewrite parts_concat. cbn [Nat.mul]. rewrite (drop_chars_zero text Hstart).
      apply take_chars_all, range_covers, Hlimit.
    + apply List.Forall_forall. intros part Hpart.
      apply in_map_iff in Hpart as (i & <- & _).
      unfold slice_chars. rewrite char_len_take. lia.
  - split; [cbn; apply append_nil_r|]. constructor; [exact Hfits | constructor].
Qed.

Lemma outgoing_messages_rebuild_witness :
  starts_char long_text = true /\
  concat_lines (outgoing_messages long_text) = long_text.
Proof.
  split; [reflexivity|].
  apply (outgoing_messages_rebuild long_text). reflexivity.
Defined.

(** ** The blocks of the detail report *)

Section Grouping.

Context {K A : Type} (same : K -> K -> bool) (key : A -> K).
Hypothesis same_eq : forall k k', same k k' = true <-> k = k'.

Implicit Types (groups : list (K * list A)) (seen xs : list A).

Lemma same_false (k k' : K) : k <> k' -> same k k' = false.
Proof using same_eq.
  intros Hne. destruct (same k k') eqn:Hs; [|reflexivity].
  apply same_eq in Hs. contradiction.
Qed.

Lemma filter_key_snoc seen (x : A) (k : K) :
  List.filter (fun y => same (key y) k) (seen ++ [x]) =
  List.filter (fun y => same (key y) k) seen ++ (if same (key x) k then [x] else []).
Proof. rewrite List.filter_app. reflexivity. Qed.

Lemma group_add_keys (x : A) groups :
  List.map fst (group_add same (key x) x groups) =
  if existsb (same (key x)) (List.map fst groups) then List.map fst groups
  else List.map fst groups ++ [key x].
Proof.
  induction groups as [|[k' ys] rest IH]; [reflexivity|].
  cbn [group_add List.map fst existsb].
  destruct (same (key x) k'); [reflexivity|]. cbn [List.map fst orb]. rewrite IH.
  destruct (existsb (same (key x)) (List.map fst rest)); reflexivity.
Qed.

Lemma existsb_same_In (k : K) (ks : list K) : existsb (same k) ks = true <-> In k ks.
Proof using same_eq.
  rewrite existsb_exists. split.
  - intros (k' & Hin & Hs). apply same_eq in Hs. now subst.
  - intros Hin. exists k. split; [exact Hin | now apply same_eq].
Qed.

Lemma group_add_content (x : A) groups seen :
  List.NoDup (List.map fst groups) ->
  (~ In (key x) (List.map fst groups) ->
   List.filter (fun y => same (key y) (key x)) seen = []) ->
  List.Forall
    (fun g => snd g = List.filter (fun y => same (key y) (fst g)) seen /\ snd g <> [])
    groups ->
  List.Forall
    (fun g => snd g = List.filter (fun y => same (key y) (fst g)) (seen ++ [x])
              /\ snd g <> [])
    (group_add same (key x) x groups).
Proof using same_eq.
  induction groups as [|[k' ys] rest IH]; intros Hnodup Hfresh Hall.
  - cbn [group_add]. constructor; [|constructor]. cbn [fst snd]. split; [|discriminate].
    rewrite filter_key_snoc, (Hfresh (fun H => H)), (proj2 (same_eq _ _) eq_refl).
    reflexivity.
  - cbn [List.map fst] in Hnodup. apply List.NoDup_cons_iff in Hnodup as [Hk' Hrest].
    apply List.Forall_cons_iff in Hall as [[Hys Hne] Hall]. cbn [fst snd] in Hys, Hne.
    cbn [group_add]. destruct (same (key x) k') eqn:Hsame.
    + apply same_eq in Hsame. subst k'. constructor.
      * cbn [fst snd]. split.
        -- rewrite filter_key_snoc, Hys, (proj2 (same_eq _ _) eq_refl). reflexivity.
        -- destruct ys; discriminate.
      * apply List.Forall_forall. intros g Hg.
        destruct (proj1 (List.Forall_forall _ _) Hall g Hg) as [Hcontent Hnonempty].
        split; [|exact Hnonempty].
        rewrite filter_key_snoc, same_false, List.app_nil_r; [exact Hcontent|].
        intros Heq. apply Hk'. rewrite Heq. apply in_map. exact Hg.
    + constructor.
      * cbn [fst snd]. split; [|exact Hne].
        rewrite filter_key_snoc, Hsame, List.app_nil_r. exact Hys.
      * apply IH; [exact Hrest | | exact Hall].
        intros Hnot. apply Hfresh. cbn [List.map fst]. intros [Heq|Hin]; [|tauto].
        subst k'. rewrite (proj2 (same_eq _ _) eq_refl) in Hsame. discriminate.
Qed.

Lemma group_add_grouped (x : A) groups seen :
  grouped same key seen groups ->
  grouped same key (seen ++ [x]) (group_add same (key x) x groups).
Proof using same_eq.
  intros (Hnodup & Hall & Hcover). split; [|split].
  - rewrite group_add_keys.
    destruct (existsb (same (key x)) (List.map fst groups)) eqn:Hex; [exact Hnodup|].
    apply List.NoDup_app; [exact Hnodup | repeat constructor; intros [] |].
    intros k Hk [<-|[]]. apply existsb_same_In in Hk. congruence.
  - apply group_add_content; [exact Hnodup | | exact Hall].
    intros Hnot.
    destruct (List.filter (fun y => same (key y) (key x)) seen) as [|y ys] eqn:Hf;
      [reflexivity|].
    assert (Hy : In y (List.filter (fun y => same (key y) (key x)) seen))
      by (rewrite Hf; now left).
    apply filter_In in Hy as [Hseen Hsame]. apply same_eq in Hsame.
    exfalso. apply Hnot. rewrite <- Hsame. exact (Hcover y Hseen).
  - intros y Hy. rewrite group_add_keys.
    apply in_app_iff in Hy as [Hy|[<-|[]]].
    + destruct (existsb (same (key x)) (List.map fst groups));
        [|apply in_or_app; left]; exact (Hcover y Hy).
    + destruct (existsb (same (key x)) (List.map fst groups)) eqn:Hex.
      * now apply existsb_same_In.
      * apply in_or_app. right. now left.
Qed.

Lemma fold_grouped xs groups seen :
  grouped same key seen groups ->
  grouped same key (seen ++ xs)
    (fold_left (fun groups x => group_add same (key x) x groups) xs groups).
Proof using same_eq.
  revert groups seen. induction xs as [|x xs IH]; intros groups seen Hinv.
  - cbn. now rewrite List.app_nil_r.
  - cbn [fold_left]. rewrite (List.app_assoc seen [x] xs : seen ++ x :: xs = _).
    apply IH, group_add_grouped, Hinv.
Qed.

Lemma group_by_grouped xs : grouped same key xs (group_by same key xs).
Proof using same_eq.
  unfold group_by. apply (fold_grouped xs [] []).
  split; [apply List.NoDup_nil|]. split; [constructor | intros y []].
Qed.

End Grouping.

Section SemesterOrder.

Context {A : Type}.
Implicit Types (g : Z * A) (gs : list (Z * A)).

Lemma insert_by_key_perm g gs : Permutation (insert_by_key g gs) (g :: gs).
Proof.
  induction gs as [|g' gs IH]; [reflexivity|].
  cbn [insert_by_key]. destruct (fst g <=? fst g')%Z; [reflexivity|].
  rewrite IH. apply perm_swap.
Qed.

Lemma sorted_groups_perm gs : Permutation (sorted_groups gs) gs.
Proof.
  induction gs as [|g gs IH]; [reflexivity|].
  unfold sorted_groups in *. cbn [fold_right].
  rewrite insert_by_key_perm. now rewrite IH.
Qed.

Lemma insert_by_key_sorted g gs :
  Sorted (fun a b => (fst a <= fst b)%Z) gs ->
  Sorted (fun a b => (fst a <= fst b)%Z) (insert_by_key g gs).
Proof.
  induction gs as [|g' gs IH]; intros Hsorted.
  - repeat constructor.
  - cbn [insert_by_key]. destruct (Z.leb_spec (fst g) (fst g')) as [Hle|Hgt].
    + constructor; [exact Hsorted | constructor; exact Hle].
    + apply Sorted_inv in Hsorted as [Htail Hhd].
      constructor; [exact (IH Htail)|].
      destruct gs as [|g'' gs]; cbn [insert_by_key].
      * constructor. lia.
      * destruct (fst g <=? fst g'')%Z; constructor; [lia | exact (HdRel_inv Hhd)].
Qed.

Lemma sorted_groups_sorted gs :
  Sorted (fun a b => (fst a <= fst b)%Z) (sorted_groups gs).
Proof.
  induction gs as [|g gs IH]; [constructor|].
  unfold sorted_groups in *. cbn [fold_right]. apply insert_by_key_sorted, IH.
Qed.

Lemma strictly_sorted_keys (ks : list Z) :
  StronglySorted Z.le ks -> List.NoDup ks -> StronglySorted Z.lt ks.
Proof.
  induction 1 as [|k ks Hsorted IH Hall]; intros Hnodup; [constructor|].
  apply List.NoDup_cons_iff in Hnodup as [Hk Hrest].
  constructor; [exact (IH Hrest)|].
  apply List.Forall_forall. intros k' Hk'.
  pose proof (proj1 (List.Forall_forall _ _) Hall k' Hk') as Hle.
  assert (k <> k') by (intros ->; contradiction). lia.
Qed.

Lemma sorted_groups_strict gs :
  List.NoDup (List.map fst gs) -> StronglySorted Z.lt (List.map fst (sorted_groups gs)).
Proof.
  intros Hnodup. apply strictly_sorted_keys.
  - apply Sorted_StronglySorted; [intros a b c; apply Z.le_trans|].
    pose proof (sorted_groups_sorted gs) as Hsorted.
    induction Hsorted as [|g l Hl IH Hhd]; [constructor|].
    cbn [List.map]. constructor; [exact IH|].
    destruct Hhd; constructor. assumption.
  - apply (Permutation_NoDup (l := List.map fst gs)); [|exact Hnodup].
    symmetry. apply Permutation_map, sorted_groups_perm.
Qed.

End SemesterOrder.

Section ReportBlocks.

Context {K A : Type} (same : K -> K -> bool) (key : A -> K).
Hypothesis same_eq : forall k k', same k k' = true <-> k = k'.

Implicit Types (groups : list (K * list A)) (seen ks : list K) (xs : list A).

Lemma first_occurrences_ext seen seen' ks :
  (forall k, existsb (same k) seen = existsb (same k) seen') ->
  first_occurrences same seen ks = first_occurrences same seen' ks.
Proof.
  revert seen seen'. induction ks as [|k ks IH]; intros seen seen' Hsame; [reflexivity|].
  cbn [first_occurrences]. rewrite <- (Hsame k).
  destruct (existsb (same k) seen); [exact (IH _ _ Hsame)|].
  f_equal. apply IH. intros k'. cbn [existsb]. now rewrite Hsame.
Qed.

Lemma fold_group_keys xs groups :
  List.map fst (fold_left (fun groups x => group_add same (key x) x groups) xs groups)
  = List.map fst groups
    ++ first_occurrences same (List.map fst groups) (List.map key xs).
Proof.
  revert groups. induction xs as [|x xs IH]; intros groups.
  - cbn. now rewrite List.app_nil_r.
  - cbn [fold_left List.map first_occurrences]. rewrite IH, group_add_keys.
    destruct (existsb (same (key x)) (List.map fst groups)); [reflexivity|].
    rewrite <- List.app_assoc. cbn [app]. do 2 f_equal.
    apply first_occurrences_ext. intros k.
    rewrite existsb_app. cbn [existsb]. rewrite orb_false_r. apply orb_comm.
Qed.

(** The keys of the groups come in the order of their first occurrence. *)
Lemma group_by_keys xs :
  List.map fst (group_by same key xs) = first_occurrences same [] (List.map key xs).
Proof. unfold group_by. now rewrite fold_group_keys. Qed.

(** A group is determined by its key. *)
Lemma group_by_content xs (g : K * list A) :
  In g (group_by same key xs) ->
  g = (fst g, List.filter (fun y => same (key y) (fst g)) xs).
Proof using same_eq.
  intros Hg. destruct (group_by_grouped same key same_eq xs) as (_ & Hall & _).
  destruct (proj1 (List.Forall_forall _ _) Hall g Hg) as [Hcontent _].
  destruct g as [k ys]. cbn [fst snd] in *. now rewrite Hcontent.
Qed.

Lemma group_by_key_iff xs (k : K) :
  In k (List.map fst (group_by same key xs)) <-> exists x, In x xs /\ key x = k.
Proof using same_eq.
  destruct (group_by_grouped same key same_eq xs) as (_ & Hall & Hcover). split.
  - intros Hk. apply in_map_iff in Hk as (g & <- & Hg).
    destruct (proj1 (List.Forall_forall _ _) Hall g Hg) as [Hcontent Hnonempty].
    destruct (snd g) as [|x ys] eqn:Hsnd; [congruence|].
    assert (Hx : In x (List.filter (fun y => same (key y) (fst g)) xs))
      by (rewrite <- Hcontent; now left).
    apply filter_In in Hx as [Hx Hsame]. apply same_eq in Hsame. now exists x.
  - intros (x & Hx & <-). exact (Hcover x Hx).
Qed.

End ReportBlocks.

(** X19.  The detail report is its header followed by one block per
    semester that occurs among the courses of the programme, the semesters
    strictly increasing; the block of a semester is built from exactly the
    courses of that semester, in catalogue order.  So every course is in
    one block and no block is empty. *)
Theorem semester_blocks (program : Program.t) :
  exists semesters : list Z,
    StronglySorted Z.lt semesters /\
    (forall semester,
       In semester semesters <->
       exists course, In course (Program.courses program)
                      /\ Course.semester course = semester) /\
    program_info program
    = report_header program
      +:+ concat_lines
            (List.map
               (fun semester =>
                  semester_block
                    (semester, courses_of_semester semester (Program.courses program)))
               semesters).
Proof.
  set (courses := Program.courses program).
  set (groups := group_by Z.eqb Course.semester courses).
  pose proof (sorted_groups_perm groups) as Hperm.
  destruct (group_by_grouped Z.eqb Course.semester Z.eqb_eq courses) as (Hnodup & _ & _).
  exists (List.map fst (sorted_groups groups)). split; [|split].
  - exact (sorted_groups_strict _ Hnodup).
  - intros semester.
    rewrite <- (group_by_key_iff Z.eqb Course.semester Z.eqb_eq courses semester).
    fold groups. split; apply Permutation_in; [|symmetry]; apply Permutation_map, Hperm.
  - assert (Hmap :
      List.map semester_block (sorted_groups groups)
      = List.map (fun semester =>
                    semester_block (semester, courses_of_semester semester courses))
                 (List.map fst (sorted_groups groups))).
    { rewrite List.map_map. apply List.map_ext_in. intros g Hg.
      apply (Permutation_in _ Hperm) in Hg.
      rewrite (group_by_content Z.eqb Course.semester Z.eqb_eq courses g Hg) at 1.
      reflexivity. }
    unfold program_info, report_header. fold courses. fold groups.
    rewrite Hmap, !append_assoc. reflexivity.
Qed.

(** X20.  The block of a semester is its heading, with the number of
    courses, followed by one group per course type that occurs among the
    courses, the types in the order of their first occurrence and each
    once; the group of a type is built from exactly the courses of that
    type, in their order.  So every course is in one group and no group
    is empty. *)
Theorem type_groups (semester : Z) (courses : list Course.t) :
  let types := first_occurrences String.eqb [] (List.map Course.course_type courses) in
  semester_block (semester, courses)
  = "📅 " +:+ str_of_int semester +:+ " семестр (" +:+ str_of_int (len courses)
    +:+ " дисциплин):" +:+ nl
    +:+ concat_lines
          (List.map (fun course_type =>
                       type_block (course_type, courses_of_type course_type courses))
                    types)
    +:+ nl /\
  List.NoDup types /\
  (forall course_type,
     In course_type types <->
     exists course, In course courses /\ Course.course_type course = course_type).
Proof.
  intros types.
  set (groups := group_by String.eqb Course.course_type courses).
  assert (Hkeys : List.map fst groups = types)
    by apply (group_by_keys String.eqb Course.course_type).
  destruct (group_by_grouped String.eqb Course.course_type String.eqb_eq courses)
    as (Hnodup & _ & _).
  fold groups in Hnodup. rewrite Hkeys in Hnodup.
  split; [|split; [exact Hnodup|]].
  - assert (Hmap :
      List.map type_block groups
      = List.map (fun course_type =>
                    type_block (course_type, courses_of_type course_type courses))
                 types).
    { rewrite <- Hkeys, List.map_map. apply List.map_ext_in. intros g Hg.
      rewrite (group_by_content String.eqb Course.course_type String.eqb_eq courses g Hg)
        at 1.
      reflexivity. }
    unfold semester_block. cbn [fst snd]. fold groups. rewrite Hmap. reflexivity.
  - intros course_type. rewrite <- Hkeys.
    apply (group_by_key_iff String.eqb Course.course_type String.eqb_eq).
Qed.

(** ** The score as a sum *)

Section ScoreFormula.

Local Open Scope Q_scope.

Lemma skill_loop_shift (generic : list string) (cl : string) (skills : list string)
    (acc : Acc.t) :
  Acc.score (skill_loop generic cl skills acc)
  == Acc.score acc + Acc.score (skill_loop generic cl skills (Acc.mk 0.0 0.0 [])).
Proof.
  induction skills as [|skill rest IH]; [cbn; lra|].
  rewrite !skill_loop_cons.
  destruct (assoc skill skill_mapping) as [info|].
  - destruct (any_in (SkillInfo.courses info) cl); [cbn; lra|].
    destruct (any_in generic cl); [cbn; lra | exact IH].
  - destruct (any_in generic cl); [cbn; lra | exact IH].
Qed.

Lemma skill_block_shift (generic : list string) (cl : string) (skills : list string)
    (acc : Acc.t) :
  Acc.score (skill_block generic cl skills acc)
  == Acc.score acc + block_gain generic cl skills.
Proof.
  unfold block_gain, skill_block.
  destruct (nonempty skills); [apply skill_loop_shift | cbn; lra].
Qed.

Lemma block_gain_nil (generic : list string) (cl : string) :
  block_gain generic cl [] == 0.
Proof. reflexivity. Qed.

Lemma block_gain_covers_reduction (reduction generic : list string) (cl : string)
    (skills : list string) :
  incl reduction generic ->
  indicator (nonempty skills && any_in reduction cl) <= block_gain generic cl skills.
Proof.
  intros Hincl. unfold block_gain.
  destruct (skill_block_gain generic cl skills (Acc.mk 0.0 0.0 []))
    as (w & Hs & _ & Hw & Hgain).
  cbn [Acc.score] in Hs. rewrite Hs.
  pose proof (indicator_gain _ _ w
                (reduction_implies_generic skills cl reduction generic Hincl) Hw Hgain).
  lra.
Qed.

Lemma career_loop_shift (cl : string) (goals : list string) (acc : Acc.t) :
  Acc.score (career_loop cl goals acc) == Acc.score acc + career_gain cl goals.
Proof.
  unfold career_gain. revert acc. induction goals as [|goal rest IH]; intros acc.
  - cbn. lra.
  - rewrite !career_loop_cons.
    destruct (career_match (lower goal) cl skill_mapping); [|apply IH].
    rewrite IH.
    rewrite (IH (Acc.mk (0.0 + 1.5) _ _)). cbn [Acc.score]. lra.
Qed.

Lemma career_gain_nonneg (cl : string) (goals : list string) : 0 <= career_gain cl goals.
Proof.
  unfold career_gain.
  destruct (career_loop_gain cl goals (Acc.mk 0.0 0.0 [])) as [H _].
  cbn [Acc.score] in H. lra.
Qed.

Lemma difficulty_formula (course : Course.t) (profile : BackgroundProfile.t) :
  let cl := lower (Course.name course) in
  _assess_course_difficulty course profile
  == base_difficulty cl
     - indicator (nonempty (BackgroundProfile.programming_skills profile)
                  && any_in ["программирование"; "код"; "разработка"] cl)
     - indicator (nonempty (BackgroundProfile.math_skills profile)
                  && any_in ["математика"; "алгебра"; "статистика"] cl)
     - indicator (nonempty (BackgroundProfile.business_skills profile)
                  && any_in ["бизнес"; "менеджмент"; "управление"] cl).
Proof.
  intros cl. unfold _assess_course_difficulty, base_difficulty, indicator. fold cl.
  destruct (any_in ["введение"; "основы"; "базовые"] cl);
    [|destruct (any_in ["продвинутый"; "углубленный"; "специальные"] cl)];
    destruct (nonempty (BackgroundProfile.programming_skills profile)
              && any_in ["программирование"; "код"; "разработка"] cl);
    destruct (nonempty (BackgroundProfile.math_skills profile)
              && any_in ["математика"; "алгебра"; "статистика"] cl);
    destruct (nonempty (BackgroundProfile.business_skills profile)
              && any_in ["бизнес"; "менеджмент"; "управление"] cl);
    lra.
Qed.

Lemma accumulate_score_sum (course : Course.t) (profile : BackgroundProfile.t) :
  let cl := lower (Course.name course) in
  Acc.score (accumulate course profile)
  == block_gain programming_course_keywords cl
       (BackgroundProfile.programming_skills profile)
     + block_gain math_course_keywords cl (BackgroundProfile.math_skills profile)
     + block_gain business_course_keywords cl (BackgroundProfile.business_skills profile)
     + career_gain cl (BackgroundProfile.career_goals profile)
     + flat_bonuses cl profile
     + _assess_course_difficulty course profile.
Proof.
  intros cl. unfold accumulate, flat_bonuses. fold cl.
  set (acc0 := Acc.mk 0.0 0.0 []).
  pose proof (skill_block_shift programming_course_keywords cl
                (BackgroundProfile.programming_skills profile) acc0) as H1.
  set (acc1 := skill_block programming_course_keywords cl _ acc0) in *.
  pose proof (skill_block_shift math_course_keywords cl
                (BackgroundProfile.math_skills profile) acc1) as H2.
  set (acc2 := skill_block math_course_keywords cl _ acc1) in *.
  pose proof (skill_block_shift business_course_keywords cl
                (BackgroundProfile.business_skills profile) acc2) as H3.
  set (acc3 := skill_block business_course_keywords cl _ acc2) in *.
  pose proof (career_loop_shift cl (BackgroundProfile.career_goals profile) acc3) as H4.
  assert (Hcareer :
    (if nonempty (BackgroundProfile.career_goals profile)
     then career_loop cl (BackgroundProfile.career_goals profile) acc3
     else acc3)
    = career_loop cl (BackgroundProfile.career_goals profile) acc3).
  { destruct (BackgroundProfile.career_goals profile); reflexivity. }
  rewrite Hcareer.
  set (acc4 := career_loop cl _ acc3) in *.
  cbn [Acc.score acc0] in H1.
  repeat match goal with
  | |- context [if ?b then bonus _ _ _ else _] => destruct b
  end; cbn [bonus Acc.score]; lra.
Qed.

End ScoreFormula.

(** X21.  The score before the clamp is a plain sum: the base difficulty
    of the course name (1.0, 2.0 or 3.0), plus for each of the three skill
    categories what its block adds less the 1.0 of its difficulty
    reduction, plus what the career-goal loop adds, plus the research,
    experience and education bonuses; the order of the blocks plays no
    part. *)
Theorem score_is_sum (course : Course.t) (profile : BackgroundProfile.t) :
  let cl := lower (Course.name course) in
  (Acc.score (accumulate course profile)
   == base_difficulty cl
      + (block_gain programming_course_keywords cl
           (BackgroundProfile.programming_skills profile)
         - indicator (nonempty (BackgroundProfile.programming_skills profile)
                      && any_in ["программирование"; "код"; "разработка"] cl))
      + (block_gain math_course_keywords cl (BackgroundProfile.math_skills profile)
         - indicator (nonempty (BackgroundProfile.math_skills profile)
                      && any_in ["математика"; "алгебра"; "статистика"] cl))
      + (block_gain business_course_keywords cl
           (BackgroundProfile.business_skills profile)
         - indicator (nonempty (BackgroundProfile.business_skills profile)
                      && any_in ["бизнес"; "менеджмент"; "управление"] cl))
      + career_gain cl (BackgroundProfile.career_goals profile)
      + flat_bonuses cl profile)%Q.
Proof.
  intros cl.
  pose proof (accumulate_score_sum course profile) as Hsum.
  pose proof (difficulty_formula course profile) as Hdiff.
  cbv zeta in Hsum, Hdiff. fold cl in Hsum, Hdiff.
  rewrite Hsum, Hdiff. ring.
Qed.

(** X22.  Declaring skills never lowers a score: for every course, the
    score of a profile is at least the score of the same profile without
    its programming skills, without its math skills, or without its
    business skills. *)
Theorem skills_never_lower_score (course : Course.t) (profile : BackgroundProfile.t) :
  (Acc.score (accumulate course (without_programming profile))
   <= Acc.score (accumulate course profile))%Q /\
  (Acc.score (accumulate course (without_math profile))
   <= Acc.score (accumulate course profile))%Q /\
  (Acc.score (accumulate course (without_business profile))
   <= Acc.score (accumulate course profile))%Q.
Proof.
  set (cl := lower (Course.name course)).
  pose proof (block_gain_covers_reduction _ _ cl
                (BackgroundProfile.programming_skills profile)
                programming_reduction_incl) as Hp.
  pose proof (block_gain_covers_reduction _ _ cl
                (BackgroundProfile.math_skills profile) math_reduction_incl) as Hm.
  pose proof (block_gain_covers_reduction _ _ cl
                (BackgroundProfile.business_skills profile)
                business_reduction_incl) as Hb.
  pose proof (accumulate_score_sum course profile) as Hsum.
  pose proof (difficulty_formula course profile) as Hdiff.
  cbv zeta in Hsum, Hdiff. fold cl in Hsum, Hdiff.
  repeat split.
  - pose proof (accumulate_score_sum course (without_programming profile)) as Hsum0.
    pose proof (difficulty_formula course (without_programming profile)) as Hdiff0.
    cbv zeta in Hsum0, Hdiff0. fold cl in Hsum0, Hdiff0.
    unfold without_programming, flat_bonuses in *.
    cbn [BackgroundProfile.programming_skills BackgroundProfile.math_skills
         BackgroundProfile.business_skills BackgroundProfile.research_interests
         BackgroundProfile.work_experience BackgroundProfile.education_level
         BackgroundProfile.career_goals nonempty andb] in Hsum0, Hdiff0.
    rewrite block_gain_nil in Hsum0. unfold indicator at 1 in Hdiff0.
    rewrite Hsum, Hsum0, Hdiff, Hdiff0. lra.
  - pose proof (accumulate_score_sum course (without_math profile)) as Hsum0.
    pose proof (difficulty_formula course (without_math profile)) as Hdiff0.
    cbv zeta in Hsum0, Hdiff0. fold cl in Hsum0, Hdiff0.
    unfold without_math, flat_bonuses in *.
    cbn [BackgroundProfile.programming_skills BackgroundProfile.math_skills
         BackgroundProfile.business_skills BackgroundProfile.research_interests
         BackgroundProfile.work_experience BackgroundProfile.education_level
         BackgroundProfile.career_goals nonempty andb] in Hsum0, Hdiff0.
    rewrite block_gain_nil in Hsum0. unfold indicator at 2 in Hdiff0.
    rewrite Hsum, Hsum0, Hdiff, Hdiff0. lra.
  - pose proof (accumulate_score_sum course (without_business profile)) as Hsum0.
    pose proof (difficulty_formula course (without_business profile)) as Hdiff0.
    cbv zeta in Hsum0, Hdiff0. fold cl in Hsum0, Hdiff0.
    unfold without_business, flat_bonuses in *.
    cbn [BackgroundProfile.programming_skills BackgroundProfile.math_skills
         BackgroundProfile.business_skills BackgroundProfile.research_interests
         BackgroundProfile.work_experience BackgroundProfile.education_level
         BackgroundProfile.career_goals nonempty andb] in Hsum0, Hdiff0.
    rewrite block_gain_nil in Hsum0. unfold indicator at 3 in Hdiff0.
    rewrite Hsum, Hsum0, Hdiff, Hdiff0. lra.
Qed.

(** ** The lowest tier of the reason generator *)

Section HardCourse.

Local Open Scope Q_scope.

Ltac not_hard :=
  split_ifs; try discriminate; intros [= <-]; unfold hard_course_reason; discriminate.

Lemma programming_reason_not_hard (cl : string) (profile : BackgroundProfile.t)
    (r : string) :
  programming_reason cl profile = Some r -> r <> hard_course_reason.
Proof. unfold programming_reason. not_hard. Qed.

Lemma math_reason_not_hard (cl : string) (profile : BackgroundProfile.t) (r : string) :
  math_reason cl profile = Some r -> r <> hard_course_reason.
Proof. unfold math_reason. not_hard. Qed.

Lemma business_reason_not_hard (cl : string) (profile : BackgroundProfile.t)
    (r : string) :
  business_reason cl profile = Some r -> r <> hard_course_reason.
Proof. unfold business_reason. not_hard. Qed.

Lemma experience_reason_not_hard (cl : string) (profile : BackgroundProfile.t)
    (r : string) :
  experience_reason cl profile = Some r -> r <> hard_course_reason.
Proof. unfold experience_reason. not_hard. Qed.

Lemma education_reason_not_hard (cl : string) (profile : BackgroundProfile.t)
    (r : string) :
  education_reason cl profile = Some r -> r <> hard_course_reason.
Proof. unfold education_reason. not_hard. Qed.

Lemma career_reason_not_hard (cl : string) (goals : list string) (r : string) :
  career_reason cl goals = Some r -> r <> hard_course_reason.
Proof.
  induction goals as [|goal rest IH]; [discriminate|].
  cbn [career_reason]. cbv zeta.
  split_ifs; try exact IH; intros [= <-]; unfold hard_course_reason; discriminate.
Qed.

Lemma generic_reason_hard (profile : BackgroundProfile.t) (s : Q) :
  generic_reason profile s = hard_course_reason -> s < 2.0.
Proof.
  unfold generic_reason, hard_course_reason, MEDIUM_SCORE_THRESHOLD, LOW_SCORE_THRESHOLD.
  destruct (Qle_bool 4.0 s).
  - destruct (BackgroundProfile.programming_skills profile);
      [destruct (BackgroundProfile.math_skills profile)|]; discriminate.
  - destruct (Qle_bool 2.0 s) eqn:Hlow.
    + split_ifs; discriminate.
    + intros _. apply Qnot_le_lt. rewrite <- Qle_bool_iff. congruence.
Qed.

(** A reason that is the lowest-tier sentence comes from the closing
    tier test, with a score below 2.0. *)
Lemma reason_hard (course : Course.t) (profile : BackgroundProfile.t) (s : Q) :
  _generate_concrete_recommendation_reason course profile s = hard_course_reason ->
  s < 2.0.
Proof.
  unfold _generate_concrete_recommendation_reason.
  set (cl := lower (Course.name course)).
  destruct (programming_reason cl profile) eqn:H1;
    [intros H; destruct (programming_reason_not_hard _ _ _ H1 H)|].
  destruct (math_reason cl profile) eqn:H2;
    [intros H; destruct (math_reason_not_hard _ _ _ H2 H)|].
  destruct (business_reason cl profile) eqn:H3;
    [intros H; destruct (business_reason_not_hard _ _ _ H3 H)|].
  cbn [first_some].
  destruct (nonempty (BackgroundProfile.career_goals profile)).
  - destruct (career_reason cl (BackgroundProfile.career_goals profile)) eqn:H4;
      [intros H; destruct (career_reason_not_hard _ _ _ H4 H)|].
    destruct (experience_reason cl profile) eqn:H5;
      [intros H; destruct (experience_reason_not_hard _ _ _ H5 H)|].
    destruct (education_reason cl profile) eqn:H6;
      [intros H; destruct (education_reason_not_hard _ _ _ H6 H)|].
    apply generic_reason_hard.
  - destruct (experience_reason cl profile) eqn:H5;
      [intros H; destruct (experience_reason_not_hard _ _ _ H5 H)|].
    destruct (education_reason cl profile) eqn:H6;
      [intros H; destruct (education_reason_not_hard _ _ _ H6 H)|].
    apply generic_reason_hard.
Qed.

Lemma flat_bonuses_nonneg (cl : string) (profile : BackgroundProfile.t) :
  0 <= flat_bonuses cl profile.
Proof. unfold flat_bonuses. split_ifs; lra. Qed.

(** The score is at least the base difficulty. *)
Lemma score_at_least_base (course : Course.t) (profile : BackgroundProfile.t) :
  base_difficulty (lower (Course.name course)) <= Acc.score (accumulate course profile).
Proof.
  set (cl := lower (Course.name course)).
  pose proof (block_gain_covers_reduction _ _ cl
                (BackgroundProfile.programming_skills profile)
                programming_reduction_incl) as Hp.
  pose proof (block_gain_covers_reduction _ _ cl
                (BackgroundProfile.math_skills profile) math_reduction_incl) as Hm.
  pose proof (block_gain_covers_reduction _ _ cl
                (BackgroundProfile.business_skills profile)
                business_reduction_incl) as Hb.
  pose proof (accumulate_score_sum course profile) as Hsum.
  pose proof (difficulty_formula course profile) as Hdiff.
  pose proof (flat_bonuses_nonneg cl profile) as Hflat.
  pose proof (career_gain_nonneg cl (BackgroundProfile.career_goals profile)) as Hcareer.
  cbv zeta in Hsum, Hdiff. fold cl in Hsum, Hdiff.
  rewrite Hsum, Hdiff. lra.
Qed.

End HardCourse.

(** X23.  The scorer tells a user that a course may be hard for the
    profile only for an introductory course: whenever the reason of a
    recommendation is the lowest-tier sentence, the course name contains
    one of the introductory keywords and the score is below 2.0. *)
Theorem hard_reason_only_for_introductory (course : Course.t)
    (profile : BackgroundProfile.t) (program : Program.t) :
  let r := _evaluate_course_intelligently course profile program in
  Recommendation.reason r = hard_course_reason ->
  any_in ["введение"; "основы"; "базовые"] (lower (Course.name course)) = true /\
  (Recommendation.score r < 2.0)%Q.
Proof.
  cbv zeta. unfold _evaluate_course_intelligently.
  cbn [Recommendation.reason Recommendation.score]. rewrite floor_unreachable.
  intros Hreason. apply reason_hard in Hreason.
  pose proof (score_at_least_base course profile) as Hbase.
  split.
  - unfold base_difficulty in Hbase.
    destruct (any_in ["введение"; "основы"; "базовые"] (lower (Course.name course)));
      [reflexivity|].
    destruct (any_in ["продвинутый"; "углубленный"; "специальные"]
                (lower (Course.name course))); lra.
  - eapply Qle_lt_trans; [apply Q.le_min_l | exact Hreason].
Qed.

End Engine.

(** * The engine on ASCII and Russian Cyrillic text

    From here on the engine runs with [Py.lower] and [Py.title].  The
    statements below are about concrete catalogues and texts written in
    the two alphabets, where the two functions are [str.lower] and
    [str.title], or they rest on one of two facts that [Py.lower] shares
    with [str.lower]: a lower-case Cyrillic phrase is kept wherever it
    occurs, and the result has no ASCII capital. *)

Local Open Scope Q_scope.

(** ** Lower-casing *)

Section LowerCasing.

Lemma lower_unfold (c : ascii) (rest : string) :
  Py.lower (String c rest) =
  if byte_in 65 90 c then String (shift_up 32 c) (Py.lower rest)
  else if (N_of_ascii c =? 208)%N then
    match rest with
    | String d rest' =>
        if byte_in 144 159 d then String lead_D0 (String (shift_up 32 d) (Py.lower rest'))
        else if byte_in 160 175 d then
          String lead_D1 (String (shift_down 32 d) (Py.lower rest'))
        else if byte_in 128 143 d then
          String lead_D1 (String (shift_up 16 d) (Py.lower rest'))
        else String c (Py.lower rest)
    | EmptyString => String c EmptyString
    end
  else String c (Py.lower rest).
Proof. reflexivity. Qed.

(** A lead byte in front of a safe head is kept. *)
Lemma lower_cons_safe (c : ascii) (s : string) :
  byte_in 65 90 c = false -> safe_head s = true ->
  Py.lower (String c s) = String c (Py.lower s).
Proof.
  intros Hc Hs. rewrite lower_unfold, Hc.
  destruct (N_of_ascii c =? 208)%N; [|reflexivity].
  destruct s as [|d s]; [reflexivity|].
  unfold safe_head in Hs. apply negb_true_iff in Hs.
  rewrite (byte_in_subrange 128 175 144 159 d), (byte_in_subrange 128 175 160 175 d),
    (byte_in_subrange 128 175 128 143 d) by (lia || exact Hs).
  reflexivity.
Qed.

(** Lower-casing splits at every point whose right-hand side has a safe
    head. *)
Lemma lower_app_bounded (k : nat) (pre s : string) :
  (String.length pre <= k)%nat -> safe_head s = true ->
  Py.lower (pre +:+ s) = Py.lower pre +:+ Py.lower s.
Proof.
  revert pre. induction k as [|k IH]; intros pre Hlen Hs.
  - destruct pre; [reflexivity | simpl in Hlen; lia].
  - destruct pre as [|c rest]; [reflexivity|].
    simpl in Hlen. rewrite ?append_cons, ?append_nil_l.
    rewrite (lower_unfold c rest), (lower_unfold c (rest +:+ s)).
    destruct (byte_in 65 90 c) eqn:Hupper.
    { rewrite IH by (lia || exact Hs). reflexivity. }
    destruct (N_of_ascii c =? 208)%N.
    2:{ rewrite IH by (lia || exact Hs). reflexivity. }
    destruct rest as [|d rest'].
    { rewrite ?append_cons, ?append_nil_l.
      destruct s as [|d s]; [reflexivity|].
      unfold safe_head in Hs. apply negb_true_iff in Hs.
      rewrite (byte_in_subrange 128 175 144 159 d), (byte_in_subrange 128 175 160 175 d),
        (byte_in_subrange 128 175 128 143 d) by (lia || exact Hs).
      reflexivity. }
    simpl in Hlen. rewrite ?append_cons, ?append_nil_l.
    destruct (byte_in 144 159 d);
      [rewrite IH by (lia || exact Hs); reflexivity|].
    destruct (byte_in 160 175 d);
      [rewrite IH by (lia || exact Hs); reflexivity|].
    destruct (byte_in 128 143 d);
      [rewrite IH by (lia || exact Hs); reflexivity|].
    rewrite <- (append_cons d rest' s).
    rewrite (IH (String d rest')) by (simpl; lia || exact Hs). reflexivity.
Qed.

Lemma lower_app (pre s : string) :
  safe_head s = true -> Py.lower (pre +:+ s) = Py.lower pre +:+ Py.lower s.
Proof. apply (lower_app_bounded (String.length pre)). lia. Qed.

(** A stable string is copied by [lower], whatever follows it. *)
Lemma lower_stable_app (n post : string) :
  lower_stable n = true -> Py.lower (n +:+ post) = n +:+ Py.lower post.
Proof.
  induction n as [|c rest IH]; intros H; [reflexivity|].
  cbn [lower_stable] in H.
  apply andb_true_iff in H as [H Hrest].
  apply andb_true_iff in H as [Hupper Hlead].
  apply negb_true_iff in Hupper.
  rewrite ?append_cons, ?append_nil_l. rewrite lower_unfold, Hupper.
  destruct (N_of_ascii c =? 208)%N.
  - destruct rest as [|d rest']; [discriminate|].
    apply negb_true_iff in Hlead. rewrite ?append_cons, ?append_nil_l.
    rewrite (byte_in_subrange 128 175 144 159 d), (byte_in_subrange 128 175 160 175 d),
      (byte_in_subrange 128 175 128 143 d) by (lia || exact Hlead).
    rewrite <- (append_cons d rest' post).
    now rewrite (IH Hrest).
  - now rewrite (IH Hrest).
Qed.

(** Lower-casing the text keeps every occurrence of a stable phrase that
    starts a character. *)
Lemma str_in_lower (n text : string) :
  lower_stable n = true -> safe_head n = true -> n <> EmptyString ->
  str_in n text = true -> str_in n (Py.lower text) = true.
Proof.
  intros Hstable Hhead Hne H.
  destruct (str_in_split _ _ H) as (pre & post & ->).
  rewrite lower_app.
  - rewrite lower_stable_app by exact Hstable. apply str_in_app.
  - destruct n as [|d n]; [congruence | exact Hhead].
Qed.

End LowerCasing.

(** ** Negation in the profile extractor *)

Lemma negations_stable :
  List.Forall (fun n => lower_stable n = true /\ safe_head n = true /\ n <> EmptyString)
    negations.
Proof. repeat constructor; discriminate. Qed.

Lemma any_in_negations_lower (text : string) :
  any_in negations text = true -> any_in negations (Py.lower text) = true.
Proof.
  unfold any_in. intros H.
  apply existsb_exists in H as (n & Hn & Hin).
  apply existsb_exists. exists n. split; [exact Hn|].
  destruct (proj1 (List.Forall_forall _ _) negations_stable n Hn) as (H1 & H2 & H3).
  exact (str_in_lower n text H1 H2 H3 Hin).
Qed.

(** C5.  Whenever the text contains one of the five negation phrases, the
    extracted profile has no programming skill at all; the text "я не знаю
    питон, но хорошо пишу на java" is such a text (the phrase is "не
    знаю"), so its profile has no python tag, and no java tag either. *)
Theorem negation_suppresses_programming_skills (text : string) :
  any_in negations text = true ->
  BackgroundProfile.programming_skills (_analyze_background Py.lower text) = [] /\
  (str_in "не знаю" negation_text = true /\
   ~ In "python" (BackgroundProfile.programming_skills
                    (_analyze_background Py.lower negation_text)) /\
   ~ In "java" (BackgroundProfile.programming_skills
                  (_analyze_background Py.lower negation_text))).
Proof.
  intros Hneg. split.
  - unfold _analyze_background. cbn [BackgroundProfile.programming_skills].
    apply negated_tags_empty, any_in_negations_lower, Hneg.
  - assert (Hempty :
      BackgroundProfile.programming_skills (_analyze_background Py.lower negation_text)
      = []).
    { unfold _analyze_background. cbn [BackgroundProfile.programming_skills].
      apply negated_tags_empty, any_in_negations_lower. reflexivity. }
    rewrite Hempty. split; [reflexivity|]. split; intros [].
Qed.

(** The text of the claim. *)
Lemma negation_suppresses_programming_skills_witness :
  any_in negations negation_text = true /\
  BackgroundProfile.programming_skills (_analyze_background Py.lower negation_text) = [].
Proof.
  split; [reflexivity|].
  apply (negation_suppresses_programming_skills negation_text). reflexivity.
Defined.

(** The same text without the negation would carry the java tag: the
    suppression is not scoped to the phrase it follows. *)
Example java_tag_without_negation :
  BackgroundProfile.programming_skills (_analyze_background Py.lower "хорошо пишу на java")
  = ["java"].
Proof. reflexivity. Qed.

(** X16.  A text with a negation phrase is never given a developer
    archetype: its archetype is the math one, the business one or
    beginner, whatever programming words the text contains. *)
Theorem negation_excludes_developer_archetype (text : string) :
  any_in negations text = true ->
  In (user_type_of (_analyze_background Py.lower text))
     ["math_background"; "business_background"; "beginner"].
Proof.
  intros Hneg. unfold user_type_of.
  set (profile := _analyze_background Py.lower text).
  assert (Hnone : BackgroundProfile.programming_skills profile = []).
  { unfold profile, _analyze_background. cbn [BackgroundProfile.programming_skills].
    apply negated_tags_empty, any_in_negations_lower, Hneg. }
  rewrite Hnone. cbn [nonempty].
  destruct (nonempty (BackgroundProfile.math_skills profile)); [now left|].
  destruct (nonempty (BackgroundProfile.business_skills profile));
    [right; now left | right; right; now left].
Qed.

(** A text with a negation phrase and a programming word. *)
Lemma negation_excludes_developer_archetype_witness :
  any_in negations "я не знаю питон" = true /\
  In (user_type_of (_analyze_background Py.lower "я не знаю питон"))
     ["math_background"; "business_background"; "beginner"].
Proof.
  split; [reflexivity|].
  apply (negation_excludes_developer_archetype "я не знаю питон"). reflexivity.
Defined.

(** ** The career-goal term of the scorer *)

Section CareerTerm.

Lemma byte_in_shift_upper (c : ascii) :
  byte_in 65 90 c = true -> byte_in 65 90 (shift_up 32 c) = false.
Proof. destruct c as [[] [] [] [] [] [] [] []]; vm_compute; congruence. Qed.

Lemma byte_in_shift_144 (d : ascii) :
  byte_in 144 159 d = true -> byte_in 65 90 (shift_up 32 d) = false.
Proof. destruct d as [[] [] [] [] [] [] [] []]; vm_compute; congruence. Qed.

Lemma byte_in_shift_160 (d : ascii) :
  byte_in 160 175 d = true -> byte_in 65 90 (shift_down 32 d) = false.
Proof. destruct d as [[] [] [] [] [] [] [] []]; vm_compute; congruence. Qed.

Lemma byte_in_shift_128 (d : ascii) :
  byte_in 128 143 d = true -> byte_in 65 90 (shift_up 16 d) = false.
Proof. destruct d as [[] [] [] [] [] [] [] []]; vm_compute; congruence. Qed.

Lemma no_ascii_upper_cons (c : ascii) (s : string) :
  no_ascii_upper (String c s) = negb (byte_in 65 90 c) && no_ascii_upper s.
Proof. reflexivity. Qed.

(** A lower-cased string has no ASCII capital. *)
Lemma lower_no_ascii_upper_bounded (k : nat) (s : string) :
  (String.length s <= k)%nat -> no_ascii_upper (Py.lower s) = true.
Proof.
  revert s. induction k as [|k IH]; intros s Hlen.
  - destruct s; [reflexivity | simpl in Hlen; lia].
  - destruct s as [|c rest]; [reflexivity|].
    simpl in Hlen. rewrite lower_unfold.
    destruct (byte_in 65 90 c) eqn:Hupper.
    { rewrite no_ascii_upper_cons, (byte_in_shift_upper c Hupper), IH by lia.
      reflexivity. }
    destruct (N_of_ascii c =? 208)%N.
    2:{ rewrite no_ascii_upper_cons, Hupper, IH by lia. reflexivity. }
    destruct rest as [|d rest']; [rewrite no_ascii_upper_cons, Hupper; reflexivity|].
    simpl in Hlen.
    destruct (byte_in 144 159 d) eqn:H1.
    { rewrite !no_ascii_upper_cons, (byte_in_shift_144 d H1), IH by lia. reflexivity. }
    destruct (byte_in 160 175 d) eqn:H2.
    { rewrite !no_ascii_upper_cons, (byte_in_shift_160 d H2), IH by lia. reflexivity. }
    destruct (byte_in 128 143 d) eqn:H3.
    { rewrite !no_ascii_upper_cons, (byte_in_shift_128 d H3), IH by lia. reflexivity. }
    rewrite no_ascii_upper_cons, Hupper, (IH (String d rest')) by (simpl; lia).
    reflexivity.
Qed.

Lemma lower_no_ascii_upper (s : string) : no_ascii_upper (Py.lower s) = true.
Proof. apply (lower_no_ascii_upper_bounded (String.length s)). lia. Qed.

(** Every career title of the skill map has a capital letter. *)
Lemma career_paths_capitalised :
  List.Forall
    (fun info => List.Forall (fun path => no_ascii_upper path = false)
                             (SkillInfo.career_paths info))
    (List.map snd skill_mapping).
Proof. repeat constructor. Qed.

Lemma elem_capitalised (goal_lower : string) (paths : list string) :
  no_ascii_upper goal_lower = true ->
  List.Forall (fun path => no_ascii_upper path = false) paths ->
  elem goal_lower paths = false.
Proof.
  intros Hgoal Hpaths. unfold elem.
  destruct (existsb (String.eqb goal_lower) paths) eqn:Hex; [|reflexivity].
  apply existsb_exists in Hex as (path & Hin & Heq).
  apply String.eqb_eq in Heq. subst path.
  rewrite (proj1 (List.Forall_forall _ _) Hpaths goal_lower Hin) in Hgoal. discriminate.
Qed.

Lemma career_match_never (goal cl : string) (items : list (string * SkillInfo.t)) :
  List.Forall
    (fun info => List.Forall (fun path => no_ascii_upper path = false)
                             (SkillInfo.career_paths info))
    (List.map snd items) ->
  career_match (Py.lower goal) cl items = false.
Proof.
  induction items as [|[key info] rest IH]; intros Hall; [reflexivity|].
  cbn [career_match]. cbn [List.map snd] in Hall.
  apply List.Forall_cons_iff in Hall as [Hinfo Hrest].
  rewrite (elem_capitalised _ _ (lower_no_ascii_upper goal) Hinfo).
  cbn [andb]. exact (IH Hrest).
Qed.

Lemma career_loop_never (cl : string) (goals : list string) (acc : Acc.t) :
  career_loop Py.lower cl goals acc = acc.
Proof.
  induction goals as [|goal rest IH]; [reflexivity|].
  rewrite career_loop_cons.
  rewrite (career_match_never goal cl skill_mapping career_paths_capitalised).
  exact IH.
Qed.

End CareerTerm.

(** X1.  The career-goal term never contributes: the lower-cased goal is
    looked up among capitalised career titles, so for every course and
    every profile the accumulated score, compatibility sub-score and
    collected reasons are the same whatever the career goals are. *)
Theorem career_goals_never_scored (course : Course.t) (profile : BackgroundProfile.t)
    (goals : list string) :
  accumulate Py.lower course (with_career_goals goals profile)
  = accumulate Py.lower course profile.
Proof.
  unfold accumulate, _assess_course_difficulty, with_career_goals.
  cbn [BackgroundProfile.programming_skills BackgroundProfile.math_skills
       BackgroundProfile.business_skills BackgroundProfile.research_interests
       BackgroundProfile.work_experience BackgroundProfile.education_level
       BackgroundProfile.career_goals].
  rewrite !career_loop_never.
  destruct (nonempty goals), (nonempty (BackgroundProfile.career_goals profile));
    reflexivity.
Qed.

(** ** The upper bound of the score *)

Lemma accumulate_upper_bounds (course : Course.t) (profile : BackgroundProfile.t) :
  Acc.score (accumulate Py.lower course profile) <= 14 /\
  Acc.compatibility_score (accumulate Py.lower course profile) <= 7.5.
Proof.
  pose proof (difficulty_upper_bound Py.lower course profile) as Hd.
  unfold accumulate.
  set (cl := Py.lower (Course.name course)) in *.
  set (acc0 := Acc.mk 0.0 0.0 []).
  destruct (skill_block_gain_le programming_course_keywords cl
              (BackgroundProfile.programming_skills profile) acc0) as [Hs1 Hc1].
  set (acc1 := skill_block programming_course_keywords cl _ acc0) in *.
  destruct (skill_block_gain_le math_course_keywords cl
              (BackgroundProfile.math_skills profile) acc1) as [Hs2 Hc2].
  set (acc2 := skill_block math_course_keywords cl _ acc1) in *.
  destruct (skill_block_gain_le business_course_keywords cl
              (BackgroundProfile.business_skills profile) acc2) as [Hs3 Hc3].
  set (acc3 := skill_block business_course_keywords cl _ acc2) in *.
  rewrite career_loop_never.
  cbn [Acc.score Acc.compatibility_score acc0] in Hs1, Hc1.
  destruct (nonempty (BackgroundProfile.career_goals profile));
  repeat match goal with
  | |- context [if ?b then bonus _ _ _ else _] => destruct b
  end; cbn [bonus Acc.score Acc.compatibility_score]; split; lra.
Qed.

(** X2.  For every course and profile the compatibility sub-score is at
    most 7.5, so its clamp at 10 never changes it, and the score before
    the clamp is at most 14. *)
Theorem compatibility_never_clamped (course : Course.t) (profile : BackgroundProfile.t)
    (program : Program.t) :
  let r := _evaluate_course_intelligently Py.lower course profile program in
  (Recommendation.compatibility_score r
     == Acc.compatibility_score (accumulate Py.lower course profile))%Q /\
  (Recommendation.compatibility_score r <= 7.5)%Q /\
  (Acc.score (accumulate Py.lower course profile) <= 14)%Q.
Proof.
  destruct (accumulate_upper_bounds course profile) as [Hs Hc].
  unfold _evaluate_course_intelligently. cbn [Recommendation.compatibility_score].
  rewrite floor_unreachable.
  assert (Hmin : (Qmin (Acc.compatibility_score (accumulate Py.lower course profile)) 10.0
                  == Acc.compatibility_score (accumulate Py.lower course profile))%Q).
  { apply Q.min_l. lra. }
  split; [exact Hmin|]. split; [rewrite Hmin; exact Hc | exact Hs].
Qed.

(** ** The first end-to-end scenario *)

(** C2, as the code has it.  The scenario text yields the programming tag
    python and the math tag математика.  For the course "Машинное
    обучение" the keywords of the python entry of the skill map do not
    match, so the programming block adds the generic 2.0, the math block
    adds the generic 2.0, and the difficulty term is the unreduced base
    2.0: the score is 6.0, the compatibility sub-score 4.0 and the
    priority medium. *)
Theorem scenario1_scores_six (program : Program.t) :
  let profile := _analyze_background Py.lower scenario1_text in
  let cl := Py.lower (Course.name scenario1_course) in
  let r := _evaluate_course_intelligently Py.lower scenario1_course profile program in
  BackgroundProfile.programming_skills profile = ["python"] /\
  BackgroundProfile.math_skills profile = ["математика"] /\
  BackgroundProfile.business_skills profile = [] /\
  option_map (fun info => any_in (SkillInfo.courses info) cl) (assoc "python" skill_mapping)
    = Some false /\
  assoc "математика" skill_mapping = None /\
  any_in programming_course_keywords cl = true /\
  any_in math_course_keywords cl = true /\
  (_assess_course_difficulty Py.lower scenario1_course profile == 2.0)%Q /\
  (Recommendation.score r == 6.0)%Q /\
  (Recommendation.compatibility_score r == 4.0)%Q /\
  Recommendation.priority r = "medium".
Proof. vm_compute. repeat split; reflexivity. Qed.

(** C2, as the spec has it, fails: the priority of the scenario is not
    high. *)
Lemma scenario1_priority_not_high :
  Recommendation.priority
    (_evaluate_course_intelligently Py.lower scenario1_course
       (_analyze_background Py.lower scenario1_text) scenario1_program) <> "high".
Proof. vm_compute. discriminate. Qed.

(** ** Empty input *)

(** C9.  The profile of the empty text has empty skill, research, goal and
    preference lists, education level бакалавриат, work experience нет
    опыта and time availability стандартная, and its archetype is
    beginner; the extractor, being a total function, returns it without
    failing. *)
Theorem empty_text_defaults :
  _analyze_background Py.lower "" =
    BackgroundProfile.mk [] [] [] [] "нет опыта" "бакалавриат" [] [] "стандартная" /\
  user_type_of (_analyze_background Py.lower "") = "beginner".
Proof. split; reflexivity. Qed.

(** ** The engine on sample courses and catalogues *)

(** The course "Философия" is on no keyword table: with the profile of the
    first scenario it scores 2.0. *)
Lemma unmatched_course_scores_two_witness :
  matches_no_table (Py.lower (Course.name philosophy_course)) = true /\
  (Recommendation.score
     (_evaluate_course_intelligently Py.lower philosophy_course
        (_analyze_background Py.lower scenario1_text) scenario1_program) == 2.0)%Q.
Proof.
  split; [reflexivity|].
  apply (unmatched_course_scores_two Py.lower philosophy_course
           (_analyze_background Py.lower scenario1_text) scenario1_program).
  reflexivity.
Defined.

(** C1, as the spec has it, fails: the course "Философия" matches no
    keyword table, yet for the empty profile its score is 2.0 and not 1.0,
    and its reason is not the baseline reason. *)
Lemma unmatched_course_not_scored_one :
  let r := _evaluate_course_intelligently Py.lower philosophy_course
             (_analyze_background Py.lower "") scenario1_program in
  matches_no_table (Py.lower (Course.name philosophy_course)) = true /\
  ~ (Recommendation.score r == 1.0)%Q /\
  Recommendation.reason r <> baseline_reason.
Proof.
  cbv zeta. split; [reflexivity|]. split.
  - vm_compute. discriminate.
  - vm_compute. discriminate.
Qed.

(** From the initial catalogue the course "Машинное обучение" is appended
    to the machine-learning cluster. *)
Lemma cluster_assignment_first_match_witness :
  clusters_complete empty_clusters /\
  exists clusters',
    _assign_course_to_cluster Py.lower scenario1_course empty_clusters = Some clusters' /\
    appended_to "machine_learning" scenario1_course empty_clusters clusters'.
Proof.
  split; [exact empty_clusters_complete|].
  destruct (cluster_assignment_first_match Py.lower scenario1_course empty_clusters
              empty_clusters_complete) as (clusters' & Hrun & _ & _ & Hgroup).
  exists clusters'. split; [exact Hrun | exact Hgroup].
Defined.

(** C4, as the spec has it, fails: the course "Введение в машинное
    обучение" matches the introductory group first and the
    machine-learning group as well, and the assignment appends it to no
    cluster: the catalogue stays as it was. *)
Lemma intro_course_in_no_cluster :
  let cl := Py.lower (Course.name intro_ml_course) in
  first_matching_group cl = Some Introductory /\
  matches_group cl MachineLearning = true /\
  _assign_course_to_cluster Py.lower intro_ml_course empty_clusters = Some empty_clusters /\
  forall key, ~ appended_to key intro_ml_course empty_clusters empty_clusters.
Proof.
  cbv zeta. split; [reflexivity|]. split; [reflexivity|]. split; [reflexivity|].
  intros key H. exact (appended_to_changes _ _ _ _ H eq_refl).
Qed.

(** The fourth end-to-end scenario, and a catalogue where the second
    programme is the first match. *)
Lemma detail_not_found_iff_witness :
  get_detailed_program_info Py.lower Py.title [product_program; robotics_program]
    "Искусственный интеллект"
  = not_found /\
  get_detailed_program_info Py.lower Py.title
    [robotics_program; product_program; scenario1_program] "PRODUCT"
  = program_info Py.title product_program.
Proof.
  split.
  - apply (detail_not_found_iff Py.lower Py.title [product_program; robotics_program]
             "Искусственный интеллект").
    intros program [<-|[<-|[]]]; reflexivity.
  - apply (proj2 (detail_not_found_iff Py.lower Py.title
                    [robotics_program; product_program; scenario1_program] "PRODUCT")
             [robotics_program] product_program [scenario1_program]).
    + reflexivity.
    + intros earlier [<-|[]]. reflexivity.
    + reflexivity.
Defined.

(** ** A programme on neither track *)

(** C6.  The recommend operation gives no verdict to a programme on
    neither track: for the catalogue of the one programme "Робототехника"
    and the empty text the report is the bare header, without the verdict
    line the claim and the comment of the loop promise for every
    programme, where the catalogue of one programme of the AI track gets
    its one line. *)
Theorem untracked_program_has_no_verdict_line :
  get_course_recommendations Py.lower [robotics_program] "" = recommendations_header /\
  count_sub "🎯" (get_course_recommendations Py.lower [robotics_program] "") = 0%nat /\
  count_sub "🎯" (get_course_recommendations Py.lower [scenario1_program] "") = 1%nat /\
  List.length [robotics_program] = 1%nat.
Proof. repeat split; reflexivity. Qed.

(** ** Rankings, look-ups and clusters of sample catalogues *)

(** A programme with a required, an elective and an optional course has
    a non-empty ranking. *)
Lemma ranking_covers_selection_witness :
  Program.courses mixed_program <> [] /\
  _get_program_recommendations Py.lower mixed_program
    (_analyze_background Py.lower scenario1_text) <> [].
Proof.
  split; [discriminate|].
  apply (ranking_covers_selection Py.lower mixed_program
           (_analyze_background Py.lower scenario1_text)).
  discriminate.
Defined.

(** The recommended course of the first scenario is a course of its
    programme. *)
Lemma required_courses_last_resort_witness :
  let profile := _analyze_background Py.lower scenario1_text in
  let r := _evaluate_course_intelligently Py.lower scenario1_course profile
             scenario1_program in
  In r (_get_program_recommendations Py.lower scenario1_program profile) /\
  In (Recommendation.course r) (Program.courses scenario1_program).
Proof.
  cbv zeta.
  assert (Hin : In (_evaluate_course_intelligently Py.lower scenario1_course
                      (_analyze_background Py.lower scenario1_text) scenario1_program)
                   (_get_program_recommendations Py.lower scenario1_program
                      (_analyze_background Py.lower scenario1_text))).
  { rewrite program_recommendations_unfold. left. reflexivity. }
  split; [exact Hin|].
  apply (required_courses_last_resort Py.lower scenario1_program
           (_analyze_background Py.lower scenario1_text) _ Hin).
Defined.

(** A query the keyword search finds nothing for. *)
Lemma lookup_within_keyword_search_witness :
  get_program_by_keywords Py.lower [robotics_program; product_program] "квантовая оптика"
  = [] /\
  get_career_paths Py.lower [robotics_program; product_program] "квантовая оптика"
  = not_found.
Proof.
  split; [reflexivity|].
  apply (lookup_within_keyword_search Py.lower Py.title
           [robotics_program; product_program] "квантовая оптика").
  reflexivity.
Defined.

(** The course the two programmes of the self-test share is in the
    machine-learning cluster, and it is a course of the catalogue. *)
Lemma built_clusters_disjoint_witness :
  exists clusters cluster,
    _build_course_clusters Py.lower shared_catalogue = Some clusters /\
    clusters !! "machine_learning" = Some cluster /\
    In required_ml_course (CourseCluster.courses cluster) /\
    exists program, In program shared_catalogue /\
                    In required_ml_course (Program.courses program).
Proof.
  destruct (assign_programs_built Py.lower shared_catalogue [] empty_clusters
              (built_from_start Py.lower)) as (clusters & Hrun & Hinv).
  pose proof (Hinv "machine_learning") as Hml.
  destruct (empty_clusters !! "machine_learning") as [start|] eqn:Hstart;
    [|vm_compute in Hstart; discriminate].
  destruct (clusters !! "machine_learning") as [cluster|] eqn:Hcluster;
    [|contradiction].
  destruct Hml as [_ Hcourses].
  assert (Hin : In required_ml_course (CourseCluster.courses cluster)).
  { rewrite Hcourses. apply filter_In. split; [left; reflexivity | reflexivity]. }
  exists clusters, cluster. split; [exact Hrun|]. split; [exact Hcluster|].
  split; [exact Hin|].
  apply (built_clusters_disjoint Py.lower shared_catalogue clusters "machine_learning"
           "machine_learning" cluster cluster required_ml_course Hrun Hcluster Hcluster
           Hin Hin).
Defined.

(** An introductory course and the empty profile: the reason is the
    sentence of the lowest tier. *)
Lemma hard_reason_only_for_introductory_witness :
  let r := _evaluate_course_intelligently Py.lower intro_programming_course
             (_analyze_background Py.lower "") scenario1_program in
  Recommendation.reason r = hard_course_reason /\
  any_in ["введение"; "основы"; "базовые"]
         (Py.lower (Course.name intro_programming_course)) = true.
Proof.
  cbv zeta. split; [reflexivity|].
  apply (hard_reason_only_for_introductory Py.lower intro_programming_course
           (_analyze_background Py.lower "") scenario1_program).
  reflexivity.
Defined.
